(** * UEBA risk-scoring engine ([ueba_system.py]): model and properties

    The engine keeps a table [login_attempts] of scored events, an optional
    anomaly model, and reads the wall clock.  It is embedded here as a small
    state monad over a record [UEBASystem]; each SQL query becomes a list
    function over the table, which is kept in insertion (rowid) order.

    Numbers.  Python floats are modelled by exact rationals [Q], and
    [round(x, 2)] by [round2], which rounds to the nearest hundredth, ties
    to even.  Every rule-based total is an exact number of hundredths
    ([rule_score_exact]), so rounding leaves it alone; a blended score that
    falls exactly between two hundredths may round the other way in binary
    floating point, and no property below depends on how such a tie goes.

    Parameters.  The [params] dict is a record of optional, typed entries: a
    key that is absent from the dict is [None]; identifiers are strings and
    the latency is an integer, as every caller of the engine supplies them.
    Integers are unbounded, as Python's are; [log_attempt_or_raise] adds what
    the store does with a step or a latency that does not fit a 64-bit
    column.  [upper] is [str.upper()] on ASCII text ([is_ascii]).

    Layout.  Data model and queries; the engine's methods, in the order of
    the source; names used by the statements; then the properties, the
    numbered claims C1 to C10 among them, and their concrete runs. *)

From Stdlib Require Import Ascii String QArith Qround Qabs Qminmax Lqa.
From stdpp Require Import gmap strings list fin_maps sorting.

Local Open Scope Z_scope.

(** ** Data model *)

(** A row of the [login_attempts] table.  The [id] column is the position
    in the table (rows are never deleted). *)
Record LoginAttempt := mkAttempt {
  username : string;
  step : Z;
  device_id : string;
  network_operator : string;
  latency : Z;
  fingerprint : string;
  ip_address : string;
  user_agent : string;
  timestamp : Z;
  success : bool;
  risk_score : Q
}.

(** The [params] dict handed to [log_attempt]. *)
Record Params := mkParams {
  p_device_id : option string;
  p_network_operator : option string;
  p_latency : option Z;
  p_fingerprint : option string;
  p_ip_address : option string;
  p_user_agent : option string;
  p_step : option Z
}.

Definition no_params : Params := mkParams None None None None None None None.

(** [dict.get(key, dflt)] *)
Definition get {A} (o : option A) (dflt : A) : A := default dflt o.

(** Lines written to standard output by the engine. *)
Inductive Msg :=
  | MsgRetraining
  | MsgNotEnoughData
  | MsgTrained (samples : nat).

(** The anomaly detector ([sklearn.ensemble.IsolationForest] with a fixed
    [random_state]) is an opaque capability: training on a matrix of rows
    and an outlier score per row. *)
Class AnomalyDetector := {
  Model : Type;
  fit : list (list Q) → Model;
  score_samples : Model → list Q → Q
}.

(** ** Rounding *)

(** Nearest integer, ties to even. *)
Definition round_half_even (q : Q) : Z :=
  let f := Qfloor q in
  match Qcompare (q - inject_Z f) (1 # 2) with
  | Lt => f
  | Gt => f + 1
  | Eq => if Z.even f then f else f + 1
  end.

(** [round(x, 2)] *)
Definition round2 (q : Q) : Q := (inject_Z (round_half_even (q * 100)) / 100)%Q.

(** ** Queries over the table *)

Definition sumZ (l : list Z) : Z := foldr Z.add 0 l.

(** [SELECT COUNT( * ) ... WHERE username = ? AND timestamp > ?] *)
Definition count_since (db : list LoginAttempt) (u : string) (since : Z) : Z :=
  Z.of_nat (length (filter (λ e, username e = u ∧ since < timestamp e) db)).

(** [SELECT COUNT(DISTINCT device_id) ... WHERE username = ? AND timestamp > ?] *)
Definition distinct_devices_since (db : list LoginAttempt) (u : string) (since : Z) : Z :=
  Z.of_nat (length (remove_dups
    (device_id <$> filter (λ e, username e = u ∧ since < timestamp e) db))).

(** [SELECT COUNT(DISTINCT network_operator) ... WHERE username = ?
     AND timestamp > ? AND network_operator != ''] *)
Definition distinct_networks_since (db : list LoginAttempt) (u : string) (since : Z) : Z :=
  Z.of_nat (length (remove_dups
    (network_operator <$>
       filter (λ e, username e = u ∧ since < timestamp e ∧ network_operator e ≠ "") db))).

(** [SELECT AVG(latency) ... WHERE username = ? AND latency > 0]; [None] is
    SQL's NULL on an empty selection. *)
Definition avg_latency (db : list LoginAttempt) (u : string) : option Q :=
  match latency <$> filter (λ e, username e = u ∧ 0 < latency e) db with
  | [] => None
  | ls => Some (inject_Z (sumZ ls) / inject_Z (Z.of_nat (length ls)))%Q
  end.

(** [ORDER BY timestamp DESC]: rows sorted by decreasing timestamp.  SQL
    leaves the order of rows with equal timestamps open. *)
Definition newer_first (a b : LoginAttempt) : Prop := timestamp b ≤ timestamp a.

#[local] Instance newer_first_dec a b : Decision (newer_first a b).
Proof. unfold newer_first. apply _. Defined.

Definition order_by_timestamp_desc (rows : list LoginAttempt) : list LoginAttempt :=
  merge_sort newer_first rows.

(** [SELECT timestamp ... WHERE username = ? ORDER BY timestamp DESC LIMIT 2] *)
Definition last_two_timestamps (db : list LoginAttempt) (u : string) : list Z :=
  timestamp <$> take 2 (order_by_timestamp_desc
    (filter (λ e, username e = u) db)).

(** [SELECT fingerprint ... WHERE username = ? AND fingerprint != ''
     ORDER BY timestamp DESC LIMIT 1]; the row of [fetchone()]. *)
Definition last_fingerprint_row (db : list LoginAttempt) (u : string) : option LoginAttempt :=
  head (order_by_timestamp_desc
    (filter (λ e, username e = u ∧ fingerprint e ≠ "") db)).

(** [SELECT COUNT( * ) ... WHERE username = ? AND timestamp > ? AND step < 3
     AND success = 0] *)
Definition abandonments_since (db : list LoginAttempt) (u : string) (since : Z) : Z :=
  Z.of_nat (length
    (filter (λ e, username e = u ∧ since < timestamp e ∧ step e < 3 ∧ success e = false) db)).

(** ** Strings: [str.upper()] and the [in] operator, on ASCII text *)

Definition upper_ascii (c : ascii) : ascii :=
  let n := nat_of_ascii c in
  if ((97 <=? n) && (n <=? 122))%nat then ascii_of_nat (n - 32) else c.

Fixpoint upper (s : string) : string :=
  match s with
  | EmptyString => EmptyString
  | String c s' => String (upper_ascii c) (upper s')
  end.

(** The text on which [upper] is Python's [str.upper()]: every character
    is ASCII.  Outside ASCII the method also changes characters that [upper]
    leaves alone, and may change the length of the text. *)
Definition is_ascii (s : string) : bool :=
  forallb (λ c, (nat_of_ascii c <? 128)%nat) (list_ascii_of_string s).

(** [needle in s] *)
Fixpoint contains (needle s : string) : bool :=
  String.prefix needle s ||
  match s with
  | EmptyString => false
  | String _ s' => contains needle s'
  end.

(** ** The engine state and its monad *)

(** What the process finds around it: whether
    [from sklearn.ensemble import IsolationForest] succeeded, and the wall
    clock, as the successive values of [int(time.time() * 1000)] ([time_ms n]
    is the [n]-th reading taken by the methods below).  Nothing is assumed
    of the clock; it may stall or step back. *)
Class Environment := {
  ML_AVAILABLE : bool;
  time_ms : nat → Z
}.

Section Engine.
Context `{AnomalyDetector, Environment}.

Record UEBASystem := mkSystem {
  login_attempts : list LoginAttempt;   (* the table behind [db_path] *)
  ml_model : option Model;              (* [self.ml_model] *)
  clock_reads : nat;                    (* clock readings taken so far *)
  stdout : list Msg                     (* lines printed so far *)
}.

Definition M (A : Type) : Type := UEBASystem → A * UEBASystem.

#[global] Instance M_ret : MRet M := λ A a s, (a, s).
#[global] Instance M_bind : MBind M := λ A B k m s, let '(a, s') := m s in k a s'.

Definition now : M Z :=
  λ s, (time_ms (clock_reads s),
        mkSystem (login_attempts s) (ml_model s) (S (clock_reads s)) (stdout s)).
Definition select {A} (q : list LoginAttempt → A) : M A :=
  λ s, (q (login_attempts s), s).
Definition insert_attempt (e : LoginAttempt) : M unit :=
  λ s, (tt, mkSystem (login_attempts s ++ [e]) (ml_model s) (clock_reads s) (stdout s)).
Definition get_model : M (option Model) := λ s, (ml_model s, s).
Definition set_model (m : Model) : M unit :=
  λ s, (tt, mkSystem (login_attempts s) (Some m) (clock_reads s) (stdout s)).
Definition print (m : Msg) : M unit :=
  λ s, (tt, mkSystem (login_attempts s) (ml_model s) (clock_reads s) (stdout s ++ [m])).

(** ** [calculate_risk_score] *)

Definition velocity_signal (attempts_5min : Z) : Q :=
  if 10 <? attempts_5min then 95
  else if 5 <? attempts_5min then 70
  else if 3 <? attempts_5min then 40
  else 0.

Definition device_switching_signal (devices_30min : Z) : Q :=
  if 5 <? devices_30min then 90
  else if 3 <? devices_30min then 60
  else if 1 <? devices_30min then 30
  else 0.

Definition network_switching_signal (networks_30min : Z) : Q :=
  if 3 <? networks_30min then 85
  else if 1 <? networks_30min then 50
  else 0.

Definition Qltb (a b : Q) : bool := negb (Qle_bool b a).

Definition latency_signal (current_latency : Z) (avg_latency : Q) : Q :=
  if current_latency <? 50 then 70
  else if Qltb 200 (Qabs (inject_Z current_latency - avg_latency)) then 50
  else 0.

Definition timing_signal (timestamps : list Z) : Q :=
  match timestamps with
  | [t0; t1] =>
      let time_diff := t0 - t1 in
      if time_diff <? 1000 then 80
      else if time_diff <? 5000 then 50
      else 0
  | _ => 0
  end.

(** [if last_fp and params.get('fingerprint')]: a missing key and the
    empty string are both falsy. *)
Definition fingerprint_signal (last_fp : option LoginAttempt) (fp : option string) : Q :=
  match last_fp, fp with
  | Some row, Some f =>
      if decide (f = "") then 0
      else if decide (fingerprint row ≠ f) then 60 else 0
  | _, _ => 0
  end.

Definition spoofing_signal (device_id : string) : Q :=
  if contains "BYPASS" (upper device_id) || contains "TEST" (upper device_id)
     || contains "EMULATOR" (upper device_id)
  then 85 else 0.

Definition weights : gmap string Q :=
  <["velocity" := 0.25%Q]> (<["device_switching" := 0.20%Q]>
  (<["network_switching" := 0.15%Q]> (<["latency_anomaly" := 0.15%Q]>
  (<["timing_pattern" := 0.10%Q]> (<["fingerprint_change" := 0.10%Q]>
  (<["device_spoofing" := 0.05%Q]> ∅)))))).

(** [weights[k]]; every key of [scores] is a key of [weights]. *)
Definition weight (k : string) : Q := default 0%Q (weights !! k).

(** [sum(scores[k] * weights[k] for k in scores)] *)
Definition weighted_total (scores : gmap string Q) : Q :=
  map_fold (λ k v acc, (acc + v * weight k)%Q) 0%Q scores.

Definition calculate_risk_score (username : string) (params : Params)
    : M (Q * gmap string Q) :=
  now ← now;
  attempts_5min ← select (λ db, count_since db username (now - 300000));
  devices_30min ← select (λ db, distinct_devices_since db username (now - 1800000));
  networks_30min ← select (λ db, distinct_networks_since db username (now - 1800000));
  avg ← select (λ db, avg_latency db username);
  let avg_latency := get avg 150%Q in
  let current_latency := get (p_latency params) 150 in
  timestamps ← select (λ db, last_two_timestamps db username);
  last_fp ← select (λ db, last_fingerprint_row db username);
  let device_id := get (p_device_id params) "" in
  let scores : gmap string Q :=
    <["device_spoofing" := spoofing_signal device_id]>
    (<["fingerprint_change" := fingerprint_signal last_fp (p_fingerprint params)]>
    (<["timing_pattern" := timing_signal timestamps]>
    (<["latency_anomaly" := latency_signal current_latency avg_latency]>
    (<["network_switching" := network_switching_signal networks_30min]>
    (<["device_switching" := device_switching_signal devices_30min]>
    (<["velocity" := velocity_signal attempts_5min]> ∅)))))) in
  mret (round2 (weighted_total scores), scores).

(** ** [train_ml_model] *)

(** The rows of the training query: one per stored attempt with
    [latency > 0]; the two sub-selects range over the whole table. *)
Definition training_row (db : list LoginAttempt) (l1 : LoginAttempt) : list Q :=
  [ inject_Z (latency l1);
    risk_score l1;
    inject_Z (step l1);
    inject_Z (count_since db (username l1) (timestamp l1 - 300000));
    inject_Z (distinct_devices_since db (username l1) (timestamp l1 - 1800000)) ].

Definition training_data (db : list LoginAttempt) : list (list Q) :=
  training_row db <$> filter (λ l1, 0 < latency l1) db.

Definition train_ml_model : M unit :=
  if negb ML_AVAILABLE then mret tt
  else
    data ← select training_data;
    if (length data <? 10)%nat then print MsgNotEnoughData
    else
      set_model (fit data);;
      print (MsgTrained (length data)).

(** ** [get_ml_risk_score] *)

(** The [features] row built by [get_ml_risk_score], with the two queries
    that precede it. *)
Definition scoring_features (username : string) (params : Params) : M (list Q) :=
  now ← now;
  velocity ← select (λ db, count_since db username (now - 300000));
  device_count ← select (λ db, distinct_devices_since db username (now - 1800000));
  rule ← calculate_risk_score username params;
  mret [ inject_Z (get (p_latency params) 150);
         rule.1;
         inject_Z (get (p_step params) 1);
         inject_Z velocity;
         inject_Z device_count ].

Definition get_ml_risk_score (username : string) (params : Params) : M Q :=
  model ← get_model;
  match ML_AVAILABLE, model with
  | true, Some model =>
      features ← scoring_features username params;
      let anomaly_score := score_samples model features in
      let ml_risk := Qmax 0 (Qmin 100 (- anomaly_score * 100)) in
      mret (round2 ml_risk)
  | _, _ => mret 0%Q
  end.

(** ** [log_attempt] *)

Definition log_attempt (username : string) (step : Z) (params : Params)
    (success : bool) : M (Q * gmap string Q) :=
  rule ← calculate_risk_score username params;
  model ← get_model;
  scored ←
    (if ML_AVAILABLE && bool_decide (is_Some model) then
       ml_risk ← get_ml_risk_score username params;
       let combined_risk := (rule.1 * 0.7 + ml_risk * 0.3)%Q in
       mret (round2 combined_risk, <["ml_anomaly" := ml_risk]> rule.2)
     else mret rule);
  let '(risk_score, breakdown) := scored in
  ts ← now;
  insert_attempt
    (mkAttempt username step (get (p_device_id params) "")
       (get (p_network_operator params) "") (get (p_latency params) 0)
       (get (p_fingerprint params) "") (get (p_ip_address params) "")
       (get (p_user_agent params) "") ts success risk_score);;
  total ← select (λ db, Z.of_nat (length db));
  (if ML_AVAILABLE && (total mod 50 =? 0) && (0 <? total) then
     print MsgRetraining;;
     train_ml_model
   else mret tt);;
  mret (risk_score, breakdown).

(** ** [check_abandonment] *)

Definition check_abandonment (username : string) (last_step : Z) : M Z :=
  now ← now;
  abandonment_count ← select (λ db, abandonments_since db username (now - 3600000));
  let base_risk :=
    if last_step =? 1 then 12
    else if last_step =? 2 then 18
    else 0 in
  mret (if 5 <? abandonment_count then base_risk + 15
        else if 3 <? abandonment_count then base_risk + 10
        else if 1 <? abandonment_count then base_risk + 6
        else base_risk).

(** ** [__init__]

    The table may hold rows from earlier runs ([CREATE TABLE IF NOT
    EXISTS]); the [users] table plays no part in scoring and is left
    out. *)
Definition init (stored : list LoginAttempt) : UEBASystem :=
  let s := mkSystem stored None 0 [] in
  if ML_AVAILABLE then (train_ml_model s).2 else s.

End Engine.

(** ** The claims' vocabulary *)

(** A call that the interface description calls well formed: the step is
    1, 2 or 3 and the six parameters are all supplied. *)
Definition valid_call (step : Z) (params : Params) : Prop :=
  (step = 1 ∨ step = 2 ∨ step = 3) ∧
  is_Some (p_device_id params) ∧ is_Some (p_network_operator params) ∧
  is_Some (p_latency params) ∧ is_Some (p_fingerprint params) ∧
  is_Some (p_ip_address params) ∧ is_Some (p_user_agent params).

(** How many stored rows have [latency > 0]. *)
Definition timed_rows (db : list LoginAttempt) : nat :=
  length (filter (λ l1, 0 < latency l1) db).

(** The abandonment table as the specification words it. *)
Definition spec_base (last_step : Z) : Z :=
  if last_step =? 1 then 12 else 18.

Definition spec_escalation (c : Z) : Z :=
  if 5 <? c then 15 else if 3 <? c then 10 else if 1 <? c then 6 else 0.

(** The velocity table as the specification words it. *)
Definition spec_velocity (c : Z) : Q :=
  if 10 <? c then 95 else if 5 <? c then 70 else if 3 <? c then 40 else 0.

(** ** The phases of a call, as values

    Names for what the monadic code computes along the way; the lemmas
    [calculate_risk_score_run], [get_ml_risk_score_run], [train_ml_model_run]
    and [log_attempt_run] tie them to the code. *)

(** The seven-entry [scores] dict, in the order the code fills it. *)
Definition scores_of (v ds ns la tp fp sp : Q) : gmap string Q :=
  <["device_spoofing" := sp]> (<["fingerprint_change" := fp]>
  (<["timing_pattern" := tp]> (<["latency_anomaly" := la]>
  (<["network_switching" := ns]> (<["device_switching" := ds]>
  (<["velocity" := v]> ∅)))))).

(** The breakdown and total of [calculate_risk_score] on table [db] when the
    clock reads [now]. *)
Definition rule_scores (db : list LoginAttempt) (now : Z) (u : string) (p : Params)
    : gmap string Q :=
  scores_of
    (velocity_signal (count_since db u (now - 300000)))
    (device_switching_signal (distinct_devices_since db u (now - 1800000)))
    (network_switching_signal (distinct_networks_since db u (now - 1800000)))
    (latency_signal (get (p_latency p) 150) (get (avg_latency db u) 150%Q))
    (timing_signal (last_two_timestamps db u))
    (fingerprint_signal (last_fingerprint_row db u) (p_fingerprint p))
    (spoofing_signal (get (p_device_id p) "")).

Definition rule_score (db : list LoginAttempt) (now : Z) (u : string) (p : Params) : Q :=
  round2 (weighted_total (rule_scores db now u p)).

(** The row that [log_attempt] inserts. *)
Definition new_row (u : string) (st : Z) (p : Params) (ok : bool) (ts : Z) (score : Q)
    : LoginAttempt :=
  mkAttempt u st (get (p_device_id p) "") (get (p_network_operator p) "")
    (get (p_latency p) 0) (get (p_fingerprint p) "") (get (p_ip_address p) "")
    (get (p_user_agent p) "") ts ok score.

Section Phases.
Context `{AnomalyDetector, Environment}.

(** The state after one more reading of the clock. *)
Definition tick (s : UEBASystem) : UEBASystem :=
  mkSystem (login_attempts s) (ml_model s) (S (clock_reads s)) (stdout s).

(** The [features] row of [get_ml_risk_score] called in state [s]: it
    reads the clock for its two queries, then [calculate_risk_score] reads
    it again. *)
Definition ml_features (u : string) (p : Params) (s : UEBASystem) : list Q :=
  [ inject_Z (get (p_latency p) 150);
    rule_score (login_attempts s) (time_ms (S (clock_reads s))) u p;
    inject_Z (get (p_step p) 1);
    inject_Z (count_since (login_attempts s) u (time_ms (clock_reads s) - 300000));
    inject_Z (distinct_devices_since (login_attempts s) u
                (time_ms (clock_reads s) - 1800000)) ].

(** The value [get_ml_risk_score] returns under model [m]. *)
Definition ml_risk_of (m : Model) (u : string) (p : Params) (s : UEBASystem) : Q :=
  round2 (Qmax 0 (Qmin 100 (- score_samples m (ml_features u p s) * 100))).

(** [ML_AVAILABLE and self.ml_model is not None] *)
Definition model_active (s : UEBASystem) : bool :=
  ML_AVAILABLE && bool_decide (is_Some (ml_model s)).

(** The score and breakdown [log_attempt] returns when called in [s]. *)
Definition outcome (u : string) (p : Params) (s : UEBASystem) : Q * gmap string Q :=
  let db := login_attempts s in
  let now1 := time_ms (clock_reads s) in
  match ml_model s with
  | Some m =>
      if ML_AVAILABLE then
        (round2 (rule_score db now1 u p * 0.7 + ml_risk_of m u p (tick s) * 0.3),
         <["ml_anomaly" := ml_risk_of m u p (tick s)]> (rule_scores db now1 u p))
      else (rule_score db now1 u p, rule_scores db now1 u p)
  | None => (rule_score db now1 u p, rule_scores db now1 u p)
  end.

(** Clock readings [log_attempt] takes before the one that stamps the
    row: one in [calculate_risk_score], two more in [get_ml_risk_score]. *)
Definition reads_before_insert (s : UEBASystem) : nat :=
  if model_active s then 3%nat else 1%nat.

(** The state right after the [INSERT]. *)
Definition inserted (u : string) (st : Z) (p : Params) (ok : bool) (s : UEBASystem)
    : UEBASystem :=
  let n := (reads_before_insert s + clock_reads s)%nat in
  mkSystem (login_attempts s ++ [new_row u st p ok (time_ms n) (outcome u p s).1])
    (ml_model s) (S n) (stdout s).

(** [ML_AVAILABLE and total % 50 == 0 and total > 0], and the step it
    guards. *)
Definition retrain_due (total : Z) : bool :=
  ML_AVAILABLE && (total mod 50 =? 0) && (0 <? total).

Definition retrain_step (total : Z) : M unit :=
  if retrain_due total then (print MsgRetraining;; train_ml_model) else mret tt.

(** The messages a computation adds to standard output. *)
Definition printed {A} (c : M A) (s : UEBASystem) : list Msg :=
  drop (length (stdout s)) (stdout (c s).2).

(** A model is only ever held when the detector library is there. *)
Definition consistent (s : UEBASystem) : Prop :=
  is_Some (ml_model s) → ML_AVAILABLE = true.

(** The states an engine object can be in: built by [__init__] over some
    stored table, then driven through its methods. *)
Inductive reachable : UEBASystem → Prop :=
  | reach_init stored : reachable (init stored)
  | reach_log_attempt u st p ok s :
      reachable s → reachable (log_attempt u st p ok s).2
  | reach_check_abandonment u last_step s :
      reachable s → reachable (check_abandonment u last_step s).2
  | reach_calculate_risk_score u p s :
      reachable s → reachable (calculate_risk_score u p s).2
  | reach_get_ml_risk_score u p s :
      reachable s → reachable (get_ml_risk_score u p s).2
  | reach_train_ml_model s :
      reachable s → reachable (train_ml_model s).2
  | reach_table_changed rows s :
      (* the database file is shared with other processes *)
      reachable s →
      reachable (mkSystem rows (ml_model s) (clock_reads s) (stdout s)).
End Phases.

(** ** [log_attempt] and the integers the store accepts

    [sqlite3] binds a Python [int] to a signed 64-bit INTEGER and raises
    [OverflowError] for one that does not fit. *)
Definition fits_int64 (z : Z) : bool := (- 2 ^ 63 <=? z) && (z <? 2 ^ 63).

Inductive Exception := OverflowError.

Section Store.
Context `{AnomalyDetector, Environment}.

(** [log_attempt], with the binding of the [INSERT]'s parameters.  The
    step and the latency are the integers a caller supplies (the timestamp
    is a clock reading).  Before the [INSERT] the step is not used at all,
    and the latency only in comparisons and as a feature, which an integer
    of any size passes (within the range of a float).  So when one of the
    two does not fit, the attempt has been scored and the parameter tuple,
    with its clock reading, has been built; [c.execute] then raises, no row
    is written and the retraining check is not reached. *)
Definition log_attempt_or_raise (username : string) (step : Z) (params : Params)
    (success : bool) : M (Exception + Q * gmap string Q) :=
  if fits_int64 step && fits_int64 (get (p_latency params) 0) then
    r ← log_attempt username step params success;
    mret (inr r)
  else
    calculate_risk_score username params;;
    model ← get_model;
    (if ML_AVAILABLE && bool_decide (is_Some model) then
       get_ml_risk_score username params;; mret tt
     else mret tt);;
    now;;
    mret (inl OverflowError).
End Store.

(** ** Concrete surroundings used in the examples *)

(** A detector that remembers its training rows and scores every row
    [-0.5]. *)
Definition flat_detector : AnomalyDetector :=
  {| Model := list (list Q);
     fit := λ rows, rows;
     score_samples := λ _ _, (- (1 # 2))%Q |}.

(** A clock that advances 10 ms between two readings. *)
Definition with_sklearn : Environment :=
  {| ML_AVAILABLE := true; time_ms := λ n, 1700000000000 + 10 * Z.of_nat n |}.

Definition without_sklearn : Environment :=
  {| ML_AVAILABLE := false; time_ms := λ n, 1700000000000 + 10 * Z.of_nat n |}.

(** A completed, unremarkable login step of [user1], one hour before the
    example clock starts. *)
Definition plain_row : LoginAttempt :=
  mkAttempt "user1" 3 "DEVICE_user1" "405854" 150 "FP_user1" "192.168.1.1"
    "Android/12" 1699996400000 true 0.

Definition plain_params : Params :=
  mkParams (Some "DEVICE_user9") (Some "405854") (Some 150) (Some "FP_user9")
    (Some "192.168.1.9") (Some "Android/12") None.

(** The engine started on ten such rows: enough to train a model. *)
Definition trained : @UEBASystem flat_detector :=
  @init flat_detector with_sklearn (replicate 10 plain_row).

(** A store of 49 rows on a machine without the detector library. *)
Definition forty_nine : @UEBASystem flat_detector :=
  @init flat_detector without_sklearn (replicate 49 plain_row).

(** A store holding one row of [user1], no model. *)
Definition one_row : @UEBASystem flat_detector :=
  @init flat_detector with_sklearn [plain_row].

(** ** The [users] table *)

Record User := mkUser {
  user_id : Z;            (* [id INTEGER PRIMARY KEY] *)
  user_name : string;     (* [username TEXT UNIQUE] *)
  phone : string;
  created_at : Z
}.

(** The [users] list of [populate_mock_users]. *)
Definition mock_users : list (string * string) :=
  [ ("user1", "9990000001"); ("user2", "9990000002"); ("user3", "9990000003");
    ("user4", "9990000004"); ("user5", "9990000005"); ("user6", "9990000006");
    ("user7", "9990000007"); ("user8", "9990000008"); ("user9", "9990000009");
    ("user10", "9990000010"); ("user11", "9990000011"); ("user12", "9990000012");
    ("user13", "9990000013"); ("user14", "9990000014"); ("user15", "9990000015");
    ("user16", "9990000016"); ("user17", "9990000017"); ("user18", "9990000018");
    ("user19", "9990000019"); ("user20", "9990000020") ].

(** The rowid given to a row inserted without an [id]: one more than the
    largest in the table, 1 in an empty table. *)
Definition next_user_id (tbl : list User) : Z :=
  match user_id <$> tbl with
  | [] => 1
  | i :: ids => foldr Z.max i ids + 1
  end.

(** [INSERT INTO users (username, phone, created_at) VALUES (?, ?, ?)];
    [None] is the [IntegrityError] of the [UNIQUE] constraint. *)
Definition insert_user (username phone : string) (created : Z) (tbl : list User)
    : option (list User) :=
  if decide (username ∈ user_name <$> tbl) then None
  else Some (tbl ++ [mkUser (next_user_id tbl) username phone created]).

(** [SELECT username, phone FROM users ORDER BY username] *)
Definition by_username (a b : User) : Prop :=
  String.leb (user_name a) (user_name b) = true.

#[local] Instance by_username_dec a b : Decision (by_username a b).
Proof. unfold by_username. apply _. Defined.

Definition get_users (tbl : list User) : list (string * string) :=
  (λ r, (user_name r, phone r)) <$> merge_sort by_username tbl.

(** ** Comparisons and averages of rationals *)

#[local] Instance Qle_decision (a b : Q) : Decision (a <= b)%Q.
Proof.
  destruct (Qlt_le_dec b a) as [Hlt|Hle]; [right|left; exact Hle].
  intros Hle. exact (Qlt_not_le _ _ Hlt Hle).
Defined.

#[local] Instance Qlt_decision (a b : Q) : Decision (a < b)%Q.
Proof.
  destruct (Qlt_le_dec a b) as [Hlt|Hle]; [left; exact Hlt|right].
  intros Hlt. exact (Qlt_not_le _ _ Hlt Hle).
Defined.

Definition sumQ (l : list Q) : Q := foldr Qplus 0%Q l.

(** SQL's [AVG] over a column of reals; [None] is NULL. *)
Definition avgQ (l : list Q) : option Q :=
  match l with
  | [] => None
  | _ => Some (sumQ l / inject_Z (Z.of_nat (length l)))%Q
  end.

(** ** The result of [get_ueba_metrics] *)

Record Metrics := mkMetrics {
  total_attempts : Z;
  high_risk_attempts : Z;
  active_users : Z;
  avg_risk_score : Q;
  recent_attempts : list (string * Z * string * Q * Z);
  risky_users : list (string * Q * Z);
  device_switchers : list (string * Z);
  high_velocity : list (string * Z);
  abandonment_patterns : list (string * Z)
}.

(** [GROUP BY username]: one group per user name among the rows. *)
Definition group_by_username (rows : list LoginAttempt)
    : list (string * list LoginAttempt) :=
  (λ u, (u, filter (λ e, username e = u) rows)) <$> remove_dups (username <$> rows).

(** [ORDER BY <count> DESC LIMIT 10] on rows (user name, count). *)
Definition larger_count_first (a b : string * Z) : Prop := b.2 ≤ a.2.

#[local] Instance larger_count_first_dec a b : Decision (larger_count_first a b).
Proof. unfold larger_count_first. apply _. Defined.

Definition top_10_by_count (l : list (string * Z)) : list (string * Z) :=
  take 10 (merge_sort larger_count_first l).

(** [ORDER BY avg_risk DESC LIMIT 10] on rows (user name, average, count). *)
Definition riskier_first (a b : string * Q * Z) : Prop := (b.1.2 <= a.1.2)%Q.

#[local] Instance riskier_first_dec a b : Decision (riskier_first a b).
Proof. unfold riskier_first. apply _. Defined.

(** [SELECT username, step, device_id, risk_score, timestamp ... ORDER BY
     timestamp DESC LIMIT 20] *)
Definition recent_rows (db : list LoginAttempt) : list (string * Z * string * Q * Z) :=
  (λ e, (username e, step e, device_id e, risk_score e, timestamp e)) <$>
    take 20 (order_by_timestamp_desc db).

(** [SELECT username, AVG(risk_score) as avg_risk, COUNT( * ) as attempts
     ... WHERE timestamp > ? GROUP BY username ORDER BY avg_risk DESC
     LIMIT 10] *)
Definition risky_rows (db : list LoginAttempt) (since : Z) : list (string * Q * Z) :=
  take 10 (merge_sort riskier_first
    ((λ g, (g.1, default 0%Q (avgQ (risk_score <$> g.2)), Z.of_nat (length g.2))) <$>
       group_by_username (filter (λ e, since < timestamp e) db))).

(** [SELECT username, COUNT(DISTINCT device_id) as devices ... WHERE
     timestamp > ? GROUP BY username HAVING devices > 1 ORDER BY devices
     DESC LIMIT 10] *)
Definition device_switcher_rows (db : list LoginAttempt) (since : Z) : list (string * Z) :=
  top_10_by_count
    (filter (λ r, 1 < r.2)
       ((λ g, (g.1, Z.of_nat (length (remove_dups (device_id <$> g.2))))) <$>
          group_by_username (filter (λ e, since < timestamp e) db))).

(** [SELECT username, COUNT( * ) as attempts ... WHERE timestamp > ? GROUP
     BY username HAVING attempts > 3 ORDER BY attempts DESC LIMIT 10] *)
Definition high_velocity_rows (db : list LoginAttempt) (since : Z) : list (string * Z) :=
  top_10_by_count
    (filter (λ r, 3 < r.2)
       ((λ g, (g.1, Z.of_nat (length g.2))) <$>
          group_by_username (filter (λ e, since < timestamp e) db))).

(** [SELECT username, COUNT( * ) as abandonments ... WHERE timestamp > ? AND
     step < 3 AND success = 0 GROUP BY username HAVING abandonments > 1
     ORDER BY abandonments DESC LIMIT 10] *)
Definition abandonment_rows (db : list LoginAttempt) (since : Z) : list (string * Z) :=
  top_10_by_count
    (filter (λ r, 1 < r.2)
       ((λ g, (g.1, Z.of_nat (length g.2))) <$>
          group_by_username
            (filter (λ e, since < timestamp e ∧ step e < 3 ∧ success e = false) db))).

(** ** The dashboard's formatting ([dashboard.py], [get_metrics]) *)

(** [device_id[:20] + '...' if len(device_id) > 20 else device_id] *)
Definition shown_device_id (device_id : string) : string :=
  if (20 <? String.length device_id)%nat
  then String.append (String.substring 0 20 device_id) "..."
  else device_id.

(** ['critical' if risk_score >= 80 else 'high' if risk_score >= 60 else
     'medium' if risk_score >= 40 else 'low'] *)
Definition risk_class (risk_score : Q) : string :=
  if decide (80 <= risk_score)%Q then "critical"
  else if decide (60 <= risk_score)%Q then "high"
  else if decide (40 <= risk_score)%Q then "medium"
  else "low".

(** [round(x, 1)] *)
Definition round1 (q : Q) : Q := (inject_Z (round_half_even (q * 10)) / 10)%Q.

(** ** The simulator's flow ([login_simulator.py], [single_login]) *)

(** The steps and the abandonment flag chosen by [flow_choice]; [None]
    when the choice is not one of 1 to 5 (the function then returns). *)
Definition flow_of_choice (flow_choice : Z) : option (list Z * bool) :=
  if flow_choice =? 1 then Some ([1], false)
  else if flow_choice =? 2 then Some ([1; 2], false)
  else if flow_choice =? 3 then Some ([1; 2; 3], false)
  else if flow_choice =? 4 then Some ([1], true)
  else if flow_choice =? 5 then Some ([1; 2], true)
  else None.

(** The risk level printed for the final score. *)
Definition risk_level (total_risk : Q) : string :=
  if decide (80 <= total_risk)%Q then "CRITICAL - BLOCK"
  else if decide (60 <= total_risk)%Q then "HIGH - CHALLENGE"
  else if decide (40 <= total_risk)%Q then "MEDIUM - MONITOR"
  else "LOW - ALLOW".

Section Callers.
Context `{AnomalyDetector, Environment}.

(** The state of a process: the [users] table beside the engine. *)
Definition populate_from (users : list (string * string)) (tbl : list User) (reads : nat)
    : list User * nat :=
  foldl (λ acc up,
           let created := time_ms acc.2 in
           (default acc.1 (insert_user up.1 up.2 created acc.1), S acc.2))
        (tbl, reads) users.

(** [populate_mock_users]: each insert is tried and a failure is passed
    over; the clock is read for every mock user. *)
Definition populate_mock_users (tbl : list User) (reads : nat) : list User * nat :=
  populate_from mock_users tbl reads.

(** [get_ueba_metrics] *)
Definition get_ueba_metrics : M Metrics :=
  now ← now;
  total ← select (λ db, Z.of_nat (length db));
  high ← select (λ db, Z.of_nat (length
            (filter (λ e, (70 < risk_score e)%Q ∧ now - 3600000 < timestamp e) db)));
  active ← select (λ db, Z.of_nat (length (remove_dups
            (username <$> filter (λ e, now - 3600000 < timestamp e) db))));
  avg ← select (λ db, avgQ (risk_score <$> filter (λ e, now - 3600000 < timestamp e) db));
  recent ← select recent_rows;
  risky ← select (λ db, risky_rows db (now - 3600000));
  switchers ← select (λ db, device_switcher_rows db (now - 1800000));
  velocity ← select (λ db, high_velocity_rows db (now - 300000));
  abandonment ← select (λ db, abandonment_rows db (now - 3600000));
  mret (mkMetrics total high active (round2 (default 0%Q avg)) recent risky
          switchers velocity abandonment).

(** The loop of [single_login] over the chosen steps: each is logged with
    [success = not abandoned or step < len(steps)], and [total_risk] keeps
    the largest score. *)
Fixpoint log_steps (username : string) (params : Params) (abandoned : bool)
    (count : Z) (steps : list Z) (total_risk : Q) : M Q :=
  match steps with
  | [] => mret total_risk
  | step :: rest =>
      r ← log_attempt username step params (negb abandoned || (step <? count));
      log_steps username params abandoned count rest (Qmax total_risk r.1)
  end.

(** The inner loop of the bot-attack scenario of [bulk_test]: [n] calls of
    [log_attempt] in a row with the same arguments; the results, in order. *)
Fixpoint repeat_attempts (n : nat) (username : string) (step : Z) (params : Params)
    (success : bool) : M (list (Q * gmap string Q)) :=
  match n with
  | O => mret []
  | S n' =>
      r ← log_attempt username step params success;
      rs ← repeat_attempts n' username step params success;
      mret (r :: rs)
  end.

(** [single_login] from "PROCESSING LOGIN FLOW" on: the final risk score
    and the level printed for it. *)
Definition process_flow (username : string) (steps : list Z) (abandoned : bool)
    (params : Params) : M (Q * string) :=
  let count := Z.of_nat (length steps) in
  total_risk ← log_steps username params abandoned count steps 0%Q;
  total_risk ←
    (if abandoned then
       abandonment_risk ← check_abandonment username count;
       mret (Qmin 100 (total_risk + inject_Z abandonment_risk))
     else mret total_risk);
  mret (total_risk, risk_level total_risk).
End Callers.

(** ** More concrete surroundings for the examples *)

(** Four failed first steps of [user1] in the two minutes before the
    example clock starts, from two devices. *)
Definition busy_rows : list LoginAttempt :=
  [ mkAttempt "user1" 1 "DEVICE_A" "405854" 150 "FP_user1" "192.168.1.1"
      "Android/12" 1699999880000 false 0;
    mkAttempt "user1" 1 "DEVICE_A" "405854" 150 "FP_user1" "192.168.1.1"
      "Android/12" 1699999910000 false 0;
    mkAttempt "user1" 1 "DEVICE_B" "405854" 150 "FP_user1" "192.168.1.1"
      "Android/12" 1699999940000 false 10;
    mkAttempt "user1" 1 "DEVICE_B" "405854" 150 "FP_user1" "192.168.1.1"
      "Android/12" 1699999970000 false 16 ].

Definition busy : @UEBASystem flat_detector :=
  @init flat_detector with_sklearn busy_rows.

(** A [users] table that already holds [user3], with another phone. *)
Definition old_users : list User := [ mkUser 7 "user3" "5550000000" 1690000000000 ].

(** ** Properties *)

Section Rounding.
Local Open Scope Q_scope.

Lemma round_half_even_between (a b : Z) (q : Q) :
  inject_Z a <= q → q <= inject_Z b →
  (a ≤ round_half_even q ≤ b)%Z.
Proof.
  intros Ha Hb. unfold round_half_even.
  pose proof (Qfloor_resp_le _ _ Ha) as Hfa. rewrite Qfloor_Z in Hfa.
  pose proof (Qfloor_resp_le _ _ Hb) as Hfb. rewrite Qfloor_Z in Hfb.
  destruct (Z.eq_dec (Qfloor q) b) as [Heq|Hne].
  - assert (Hlt : q - inject_Z (Qfloor q) < 1 # 2).
    { rewrite Heq. lra. }
    rewrite Qlt_alt in Hlt. rewrite Hlt. lia.
  - destruct (q - inject_Z (Qfloor q) ?= 1 # 2); [destruct (Z.even _)| |]; lia.
Qed.

Lemma round_half_even_comp (p q : Q) :
  p == q → round_half_even p = round_half_even q.
Proof.
  intros Hpq. unfold round_half_even.
  assert (Hf : Qfloor p = Qfloor q) by (apply Qfloor_comp; exact Hpq).
  rewrite Hf.
  assert (Hc : (p - inject_Z (Qfloor q) ?= 1 # 2) = (q - inject_Z (Qfloor q) ?= 1 # 2)).
  { apply Qcompare_comp; [rewrite Hpq|]; reflexivity. }
  rewrite Hc. reflexivity.
Qed.

Lemma round2_comp (p q : Q) : p == q → round2 p = round2 q.
Proof.
  intros Hpq. unfold round2.
  rewrite (round_half_even_comp (p * 100) (q * 100)); [reflexivity|].
  rewrite Hpq. reflexivity.
Qed.

Lemma Qdiv_100 (q : Q) : q / 100 == q * (1 # 100).
Proof. field. Qed.

(** Rounding does not cross a bound that itself has two decimals. *)
Lemma round2_between (a b : Z) (q : Q) :
  inject_Z a / 100 <= q <= inject_Z b / 100 →
  inject_Z a / 100 <= round2 q <= inject_Z b / 100.
Proof.
  rewrite !Qdiv_100. intros [Ha Hb]. unfold round2. rewrite !Qdiv_100.
  destruct (round_half_even_between a b (q * 100)) as [Hra Hrb]; [lra|lra|].
  rewrite Zle_Qle in Hra, Hrb. lra.
Qed.

Lemma round2_between_0_100 (q : Q) : 0 <= q <= 100 → 0 <= round2 q <= 100.
Proof.
  intros Hq. pose proof (round2_between 0 10000 q) as Hr.
  rewrite !Qdiv_100 in Hr.
  change (inject_Z 0) with 0 in Hr. change (inject_Z 10000) with 10000 in Hr.
  lra.
Qed.

(** A value with at most two decimals is left alone. *)
Lemma round2_hundredths (z : Z) : round2 (inject_Z z / 100) == inject_Z z / 100.
Proof.
  unfold round2.
  assert (Hq : inject_Z z / 100 * 100 == inject_Z z) by (field).
  rewrite (round_half_even_comp _ _ Hq).
  unfold round_half_even. rewrite Qfloor_Z.
  assert (Hlt : inject_Z z - inject_Z z < 1 # 2) by lra.
  rewrite Qlt_alt in Hlt. rewrite Hlt. reflexivity.
Qed.

(** Rounding moves a value by at most half a hundredth. *)
Lemma round2_close (q : Q) : Qabs (round2 q - q) <= 1 # 200.
Proof.
  unfold round2, round_half_even.
  pose proof (Qfloor_le (q * 100)) as Hlo.
  pose proof (Qlt_floor (q * 100)) as Hhi.
  rewrite inject_Z_plus in Hhi. change (inject_Z 1) with 1 in Hhi.
  set (f := Qfloor (q * 100)) in *.
  assert (Hdiv : ∀ z, inject_Z z / 100 == inject_Z z * (1 # 100)) by (intros; field).
  destruct (q * 100 - inject_Z f ?= 1 # 2) eqn:Hc.
  - apply Qeq_alt in Hc.
    destruct (Z.even f); rewrite Hdiv;
      [|rewrite inject_Z_plus; change (inject_Z 1) with 1];
      apply Qabs_case; intros _; lra.
  - apply Qlt_alt in Hc. rewrite Hdiv. apply Qabs_case; intros _; lra.
  - apply Qgt_alt in Hc. rewrite Hdiv, inject_Z_plus. change (inject_Z 1) with 1.
    apply Qabs_case; intros _; lra.
Qed.
End Rounding.

Section Signals.
Local Open Scope Q_scope.

Lemma velocity_signal_range c : 0 <= velocity_signal c <= 95.
Proof. unfold velocity_signal. repeat case_match; lra. Qed.

Lemma device_switching_signal_range c : 0 <= device_switching_signal c <= 90.
Proof. unfold device_switching_signal. repeat case_match; lra. Qed.

Lemma network_switching_signal_range c : 0 <= network_switching_signal c <= 85.
Proof. unfold network_switching_signal. repeat case_match; lra. Qed.

Lemma latency_signal_range l a : 0 <= latency_signal l a <= 70.
Proof. unfold latency_signal. repeat case_match; lra. Qed.

Lemma timing_signal_range ts : 0 <= timing_signal ts <= 80.
Proof. unfold timing_signal. repeat case_match; lra. Qed.

Lemma fingerprint_signal_range r f : 0 <= fingerprint_signal r f <= 60.
Proof. unfold fingerprint_signal. repeat case_match; lra. Qed.

Lemma spoofing_signal_range d : 0 <= spoofing_signal d <= 85.
Proof. unfold spoofing_signal. repeat case_match; lra. Qed.

(** Every signal is a whole number. *)
Lemma velocity_signal_whole c : ∃ z, velocity_signal c = inject_Z z.
Proof. unfold velocity_signal. repeat case_match; eexists; reflexivity. Qed.

Lemma device_switching_signal_whole c : ∃ z, device_switching_signal c = inject_Z z.
Proof. unfold device_switching_signal. repeat case_match; eexists; reflexivity. Qed.

Lemma network_switching_signal_whole c : ∃ z, network_switching_signal c = inject_Z z.
Proof. unfold network_switching_signal. repeat case_match; eexists; reflexivity. Qed.

Lemma latency_signal_whole l a : ∃ z, latency_signal l a = inject_Z z.
Proof. unfold latency_signal. repeat case_match; eexists; reflexivity. Qed.

Lemma timing_signal_whole ts : ∃ z, timing_signal ts = inject_Z z.
Proof. unfold timing_signal. repeat case_match; eexists; reflexivity. Qed.

Lemma fingerprint_signal_whole r f : ∃ z, fingerprint_signal r f = inject_Z z.
Proof. unfold fingerprint_signal. repeat case_match; eexists; reflexivity. Qed.

Lemma spoofing_signal_whole d : ∃ z, spoofing_signal d = inject_Z z.
Proof. unfold spoofing_signal. repeat case_match; eexists; reflexivity. Qed.

Lemma weighted_step (k : string) (x : Q) (m : gmap string Q) :
  m !! k = None →
  weighted_total (<[k := x]> m) == weighted_total m + x * weight k.
Proof.
  intros Hk. unfold weighted_total.
  apply (map_fold_insert Qeq (λ k v acc, acc + v * weight k)); [| |exact Hk].
  - intros j z a b Hab. rewrite Hab. reflexivity.
  - intros. ring.
Qed.

Lemma weighted_total_scores (v ds ns la tp fp sp : Q) :
  weighted_total (scores_of v ds ns la tp fp sp) ==
  v * 0.25 + ds * 0.20 + ns * 0.15 + la * 0.15 + tp * 0.10 + fp * 0.10 + sp * 0.05.
Proof.
  unfold scores_of.
  repeat (rewrite weighted_step by (by simplify_map_eq)).
  unfold weighted_total. rewrite map_fold_empty.
  change (weight "device_spoofing") with 0.05.
  change (weight "fingerprint_change") with 0.10.
  change (weight "timing_pattern") with 0.10.
  change (weight "latency_anomaly") with 0.15.
  change (weight "network_switching") with 0.15.
  change (weight "device_switching") with 0.20.
  change (weight "velocity") with 0.25.
  ring.
Qed.

(** With whole signals the weighted total is a whole number of hundredths,
    which [round(total, 2)] returns as it is. *)
Lemma rule_score_exact db now u p :
  rule_score db now u p == weighted_total (rule_scores db now u p).
Proof.
  unfold rule_score, rule_scores.
  destruct (velocity_signal_whole (count_since db u (now - 300000))) as [z1 ->].
  destruct (device_switching_signal_whole
              (distinct_devices_since db u (now - 1800000))) as [z2 ->].
  destruct (network_switching_signal_whole
              (distinct_networks_since db u (now - 1800000))) as [z3 ->].
  destruct (latency_signal_whole (get (p_latency p) 150%Z)
              (get (avg_latency db u) 150)) as [z4 ->].
  destruct (timing_signal_whole (last_two_timestamps db u)) as [z5 ->].
  destruct (fingerprint_signal_whole (last_fingerprint_row db u) (p_fingerprint p))
    as [z6 ->].
  destruct (spoofing_signal_whole (get (p_device_id p) "")) as [z7 ->].
  set (t := weighted_total _).
  assert (Ht : t == inject_Z (25 * z1 + 20 * z2 + 15 * z3 + 15 * z4
                               + 10 * z5 + 10 * z6 + 5 * z7) / 100).
  { subst t. rewrite weighted_total_scores.
    rewrite !inject_Z_plus, !inject_Z_mult. field. }
  rewrite (round2_comp _ _ Ht), Ht. apply round2_hundredths.
Qed.
End Signals.

Section Checks.
Local Open Scope Q_scope.

(** The aggregation example of the specification: the signal vector
    (40, 30, 0, 0, 50, 0, 0) totals 21.0. *)
Example aggregation_of_fixed_vector :
  round2 (weighted_total (scores_of 40 30 0 0 50 0 0)) == 21.
Proof. vm_compute. reflexivity. Qed.

Example all_signals_at_their_largest :
  round2 (weighted_total (scores_of 95 90 85 70 80 60 85)) == 83.25.
Proof. vm_compute. reflexivity. Qed.

Example spoofed_device_ids :
  spoofing_signal "my-ByPass-phone" = 85 ∧ spoofing_signal "EMULATOR_7" = 85 ∧
  spoofing_signal "latest_device" = 85 ∧ spoofing_signal "DEVICE_user1" = 0 ∧
  85 * weight "device_spoofing" == 4.25.
Proof. vm_compute. repeat split; reflexivity. Qed.

Example rounding_to_two_places :
  round2 15.004 == 15 ∧ round2 15.006 == 15.01 ∧
  round2 15.005 == 15 ∧ round2 15.015 == 15.02.
Proof. vm_compute. repeat split; reflexivity. Qed.

Example latency_signals :
  latency_signal 30 150 = 70 ∧ latency_signal 500 150 = 50 ∧
  latency_signal 150 150 = 0 ∧ latency_signal 350 150 = 0.
Proof. vm_compute. repeat split; reflexivity. Qed.
End Checks.

Section Runs.
Context `{AnomalyDetector, Environment}.

Lemma calculate_risk_score_run u p s :
  calculate_risk_score u p s =
  ((rule_score (login_attempts s) (time_ms (clock_reads s)) u p,
    rule_scores (login_attempts s) (time_ms (clock_reads s)) u p), tick s).
Proof. reflexivity. Qed.

Lemma scoring_features_run u p s :
  scoring_features u p s = (ml_features u p s, tick (tick s)).
Proof. reflexivity. Qed.

Lemma get_ml_risk_score_run u p s :
  get_ml_risk_score u p s =
  match ml_model s with
  | Some m => if ML_AVAILABLE then (ml_risk_of m u p s, tick (tick s)) else (0%Q, s)
  | None => (0%Q, s)
  end.
Proof.
  unfold get_ml_risk_score, get_model, mbind, M_bind.
  destruct (ml_model s), ML_AVAILABLE; reflexivity.
Qed.

Lemma train_ml_model_run s :
  train_ml_model s =
  (tt,
   if ML_AVAILABLE then
     let data := training_data (login_attempts s) in
     if (length data <? 10)%nat
     then mkSystem (login_attempts s) (ml_model s) (clock_reads s)
            (stdout s ++ [MsgNotEnoughData])
     else mkSystem (login_attempts s) (Some (fit data)) (clock_reads s)
            (stdout s ++ [MsgTrained (length data)])
   else s).
Proof.
  unfold train_ml_model. destruct ML_AVAILABLE; [|reflexivity]. simpl.
  unfold select, mbind, M_bind. simpl.
  destruct (length _ <? 10)%nat; reflexivity.
Qed.

Lemma snd_of_let {A} (X : unit * UEBASystem) (v : A) :
  (let '(_, s') := X in (v, s')) = (v, X.2).
Proof. by destruct X. Qed.

Lemma log_attempt_run u st p ok s :
  log_attempt u st p ok s =
  (outcome u p s,
   (retrain_step (Z.of_nat (length (login_attempts (inserted u st p ok s))))
      (inserted u st p ok s)).2).
Proof.
  rewrite <- snd_of_let.
  unfold retrain_step, inserted, outcome, reads_before_insert, model_active,
    retrain_due, log_attempt.
  unfold get_ml_risk_score, scoring_features, calculate_risk_score,
    get_model, select, now, insert_attempt, print, mbind, M_bind, mret, M_ret.
  destruct ML_AVAILABLE, (ml_model s); reflexivity.
Qed.

Lemma train_keeps_rows s : login_attempts (train_ml_model s).2 = login_attempts s.
Proof.
  rewrite train_ml_model_run. simpl.
  destruct ML_AVAILABLE; [destruct (_ <? 10)%nat|]; reflexivity.
Qed.

Lemma retrain_step_run total s :
  retrain_step total s =
  (tt, if retrain_due total
       then (train_ml_model (print MsgRetraining s).2).2
       else s).
Proof.
  unfold retrain_step. destruct (retrain_due total); [|reflexivity].
  unfold mbind, M_bind, print. cbn [snd]. rewrite train_ml_model_run. reflexivity.
Qed.

Lemma retrain_step_keeps_rows total s :
  login_attempts (retrain_step total s).2 = login_attempts s.
Proof.
  unfold retrain_step. destruct (retrain_due total); [|reflexivity].
  unfold mbind, M_bind, print. simpl. by rewrite train_keeps_rows.
Qed.

Lemma log_attempt_run_fst u st p ok s :
  (log_attempt u st p ok s).1 = outcome u p s.
Proof. by rewrite log_attempt_run. Qed.

Lemma log_attempt_rows u st p ok s :
  login_attempts (log_attempt u st p ok s).2 =
  login_attempts s ++
    [new_row u st p ok (time_ms (reads_before_insert s + clock_reads s))
       (log_attempt u st p ok s).1.1].
Proof.
  rewrite log_attempt_run. simpl. rewrite retrain_step_keeps_rows. reflexivity.
Qed.
End Runs.

Section Ranges.
Context `{AnomalyDetector, Environment}.
Local Open Scope Q_scope.

(** The rule-based total never exceeds 83.25, the weighted sum of the
    largest value of each signal. *)
Lemma rule_score_range db now u p : 0 <= rule_score db now u p <= 83.25.
Proof.
  unfold rule_score, rule_scores.
  pose proof (velocity_signal_range (count_since db u (now - 300000))).
  pose proof (device_switching_signal_range (distinct_devices_since db u (now - 1800000))).
  pose proof (network_switching_signal_range (distinct_networks_since db u (now - 1800000))).
  pose proof (latency_signal_range (get (p_latency p) 150%Z) (get (avg_latency db u) 150)).
  pose proof (timing_signal_range (last_two_timestamps db u)).
  pose proof (fingerprint_signal_range (last_fingerprint_row db u) (p_fingerprint p)).
  pose proof (spoofing_signal_range (get (p_device_id p) "")).
  match goal with |- _ <= round2 ?t <= _ =>
    pose proof (weighted_total_scores _ _ _ _ _ _ _ : t == _) as Hw;
    destruct (round2_between 0 8325 t) as [Hlo Hhi]
  end.
  - rewrite !Qdiv_100. change (inject_Z 0) with 0. change (inject_Z 8325) with 8325.
    lra.
  - rewrite Qdiv_100 in Hlo, Hhi.
    change (inject_Z 0) with 0 in Hlo. change (inject_Z 8325) with 8325 in Hhi.
    lra.
Qed.

Lemma clamp_range (x : Q) : 0 <= Qmax 0 (Qmin 100 x) <= 100.
Proof.
  destruct (Q.max_spec 0 (Qmin 100 x)) as [[? Hm]|[? Hm]];
    destruct (Q.min_spec 100 x) as [[? Hn]|[? Hn]]; lra.
Qed.

Lemma ml_risk_of_range m u p s : 0 <= ml_risk_of m u p s <= 100.
Proof. unfold ml_risk_of. apply round2_between_0_100, clamp_range. Qed.

Lemma outcome_range u p s : 0 <= (outcome u p s).1 <= 100.
Proof.
  unfold outcome.
  pose proof (rule_score_range (login_attempts s) (time_ms (clock_reads s)) u p).
  destruct (ml_model s) as [m|]; [destruct ML_AVAILABLE|]; simpl; try lra.
  pose proof (ml_risk_of_range m u p (tick s)).
  apply round2_between_0_100. lra.
Qed.
End Ranges.

Section Claims.
Context `{AnomalyDetector, Environment}.

(** The breakdown keeps the seven rule signals as computed; the blend
    only adds the key [ml_anomaly]. *)
Lemma outcome_signal u p s k :
  k ≠ "ml_anomaly" →
  (outcome u p s).2 !! k =
  rule_scores (login_attempts s) (time_ms (clock_reads s)) u p !! k.
Proof.
  intros Hk. unfold outcome.
  destruct (ml_model s); [destruct ML_AVAILABLE|]; simpl; try reflexivity.
  by rewrite lookup_insert_ne.
Qed.

Lemma log_attempt_last_row u st p ok s :
  ∃ e, last (login_attempts (log_attempt u st p ok s).2) = Some e ∧
       risk_score e = (log_attempt u st p ok s).1.1.
Proof.
  eexists. rewrite log_attempt_rows, last_snoc. split; reflexivity.
Qed.

(** C1. Whatever the user name, step, parameters and success flag, and
    whether or not a model is held, the score that [log_attempt] returns
    lies between 0 and 100, and it is the score of the row it stores; the
    anomaly score that enters the blend lies between 0 and 100 too. *)
Theorem log_attempt_score_in_range u st p ok s :
  let r := log_attempt u st p ok s in
  (0 <= r.1.1 <= 100)%Q ∧
  (∃ e, last (login_attempts r.2) = Some e ∧ risk_score e = r.1.1) ∧
  (0 <= (get_ml_risk_score u p s).1 <= 100)%Q.
Proof.
  cbv zeta. split; [|split].
  - rewrite log_attempt_run. apply outcome_range.
  - apply log_attempt_last_row.
  - rewrite get_ml_risk_score_run.
    destruct (ml_model s) as [m|]; [destruct ML_AVAILABLE|]; simpl;
      try (apply ml_risk_of_range); lra.
Qed.

(** A model is held only with the detector library present: the engine
    starts that way and every operation keeps it so. *)
Lemma init_consistent stored : consistent (init stored).
Proof.
  unfold consistent, init. destruct ML_AVAILABLE; [done|].
  simpl. by intros [? ?].
Qed.

Lemma train_consistent s : consistent s → consistent (train_ml_model s).2.
Proof.
  unfold consistent. rewrite train_ml_model_run. simpl.
  destruct ML_AVAILABLE; [done|]. auto.
Qed.

Lemma log_attempt_consistent u st p ok s :
  consistent s → consistent (log_attempt u st p ok s).2.
Proof.
  intros Hs. rewrite log_attempt_run, retrain_step_run. cbn [snd].
  destruct (retrain_due _); [apply train_consistent|]; exact Hs.
Qed.

Lemma reachable_consistent s : reachable s → consistent s.
Proof.
  induction 1 as [stored|u st p ok s _ IH|u ls s _ IH|u p s _ IH|u p s _ IH|s _ IH
                 |rows s _ IH].
  - apply init_consistent.
  - by apply log_attempt_consistent.
  - exact IH.
  - exact IH.
  - rewrite get_ml_risk_score_run.
    destruct (ml_model s); [destruct ML_AVAILABLE|]; exact IH.
  - by apply train_consistent.
  - exact IH.
Qed.

(** C3. In every state the engine can reach: when a model is held, the
    score returned and stored is [round(0.7 * rule + 0.3 * ml, 2)], for the
    rule score of [calculate_risk_score] and the value of
    [get_ml_risk_score] called right after it; when none is held, it is the
    rule score itself. *)
Theorem log_attempt_blend u st p ok s :
  reachable s →
  let rule := (calculate_risk_score u p s).1.1 in
  let ml := (get_ml_risk_score u p (calculate_risk_score u p s).2).1 in
  let r := log_attempt u st p ok s in
  (is_Some (ml_model s) → r.1.1 = round2 (0.7 * rule + 0.3 * ml)) ∧
  (ml_model s = None → r.1.1 = rule) ∧
  (∃ e, last (login_attempts r.2) = Some e ∧ risk_score e = r.1.1).
Proof.
  intros Hs%reachable_consistent. cbv zeta. split; [|split].
  - intros Hm. pose proof (Hs Hm) as HML. destruct Hm as [m Hm].
    rewrite log_attempt_run, calculate_risk_score_run, get_ml_risk_score_run.
    unfold outcome. simpl. rewrite Hm, HML. simpl.
    apply round2_comp. ring.
  - intros Hm. rewrite log_attempt_run, calculate_risk_score_run.
    unfold outcome. rewrite Hm. reflexivity.
  - apply log_attempt_last_row.
Qed.

Lemma rule_scores_velocity db now u p :
  rule_scores db now u p !! "velocity" =
  Some (velocity_signal (count_since db u (now - 300000))).
Proof. unfold rule_scores, scores_of. by simplify_map_eq. Qed.

Lemma rule_scores_latency db now u p :
  rule_scores db now u p !! "latency_anomaly" =
  Some (latency_signal (get (p_latency p) 150) (get (avg_latency db u) 150%Q)).
Proof. unfold rule_scores, scores_of. by simplify_map_eq. Qed.

Lemma rule_scores_fingerprint db now u p :
  rule_scores db now u p !! "fingerprint_change" =
  Some (fingerprint_signal (last_fingerprint_row db u) (p_fingerprint p)).
Proof. unfold rule_scores, scores_of. by simplify_map_eq. Qed.

(** When no stored row is stamped later than [now], a window that is
    only bounded below is the window that ends at [now]. *)
Lemma window_closed_above (rows : list LoginAttempt) (u : string) (now width : Z) :
  (∀ e, e ∈ rows → timestamp e ≤ now) →
  filter (λ e, username e = u ∧ now - width < timestamp e) rows =
  filter (λ e, username e = u ∧ now - width < timestamp e ≤ now) rows.
Proof.
  induction rows as [|e l IH]; intros Hpast; [reflexivity|].
  assert (He : timestamp e ≤ now) by (apply Hpast; left).
  rewrite !filter_cons, IH by (intros e' He'; apply Hpast; by right).
  repeat case_decide; try reflexivity; exfalso; intuition lia.
Qed.

(** C7. The [velocity] entry of the breakdown is the threshold table
    applied to the number [c] of rows of this user already stored with a
    timestamp later than five minutes before the first clock reading of
    the call; the row of the call itself is inserted afterwards and is not
    counted.  The table sends 4 to 40, 6 to 70 and 11 to 95, and a user
    with no stored row gets 0. *)
Theorem log_attempt_velocity u st p ok s :
  let now := time_ms (clock_reads s) in
  let c := Z.of_nat (length
    (filter (λ e, username e = u ∧ now - 300000 < timestamp e) (login_attempts s))) in
  let r := log_attempt u st p ok s in
  r.1.2 !! "velocity" = Some (spec_velocity c) ∧
  (∃ e, login_attempts r.2 = login_attempts s ++ [e]) ∧
  spec_velocity 4 = 40%Q ∧ spec_velocity 6 = 70%Q ∧ spec_velocity 11 = 95%Q ∧
  ((∀ e, e ∈ login_attempts s → username e ≠ u) → r.1.2 !! "velocity" = Some 0%Q) ∧
  ((∀ e, e ∈ login_attempts s → timestamp e ≤ now) →
     c = Z.of_nat (length
       (filter (λ e, username e = u ∧ now - 300000 < timestamp e ≤ now)
          (login_attempts s)))).
Proof.
  cbv zeta.
  assert (Hv : (log_attempt u st p ok s).1.2 !! "velocity" =
    Some (spec_velocity (count_since (login_attempts s) u
                           (time_ms (clock_reads s) - 300000)))).
  { rewrite log_attempt_run. cbn [fst]. rewrite outcome_signal by done.
    apply rule_scores_velocity. }
  split; [exact Hv|]. split; [eexists; apply log_attempt_rows|].
  do 3 (split; [reflexivity|]). split.
  - intros Hnew. rewrite Hv. unfold count_since.
    replace (filter _ (login_attempts s)) with (@nil LoginAttempt); [reflexivity|].
    symmetry.
    destruct (filter _ _) as [|e l] eqn:Hf; [reflexivity|].
    assert (He : e ∈ e :: l) by left. rewrite <- Hf in He.
    apply list_elem_of_filter in He as [[Hu _] Hin]. by destruct (Hnew e Hin).
  - intros Hpast. by rewrite (window_closed_above _ u _ _ Hpast).
Qed.

(** C6. For [last_step] 1 or 2, [check_abandonment] returns the base risk
    of the step (12 or 18) plus the escalation for the number [c] of rows
    of this user from the last 60 minutes with [step < 3] and
    [success = false]: 15 above five, else 10 above three, else 6 above
    one, else nothing.  With no such row (or a single one) the result is
    exactly 12 at step 1 and exactly 18 at step 2. *)
Theorem check_abandonment_risk u last_step s :
  last_step = 1 ∨ last_step = 2 →
  let now := time_ms (clock_reads s) in
  let c := Z.of_nat (length
    (filter (λ e, username e = u ∧ now - 3600000 < timestamp e ∧
                  step e < 3 ∧ success e = false) (login_attempts s))) in
  let risk := (check_abandonment u last_step s).1 in
  risk = spec_base last_step + spec_escalation c ∧
  (c ≤ 1 → last_step = 1 → risk = 12) ∧
  (c ≤ 1 → last_step = 2 → risk = 18) ∧
  (c = 2 → risk = spec_base last_step + 6).
Proof.
  intros Hstep. cbv zeta.
  unfold check_abandonment, mbind, M_bind, mret, M_ret, now, select. cbn [fst snd login_attempts clock_reads].
  unfold abandonments_since, spec_base, spec_escalation.
  set (c := Z.of_nat _).
  destruct Hstep as [-> | ->]; simpl;
    repeat split; intros; repeat case_match; lia.
Qed.

Lemma latency_signal_150_not_70 (avg : Q) : ¬ (latency_signal 150 avg == 70)%Q.
Proof.
  unfold latency_signal. simpl. destruct (Qltb _ _); intros Hq; lra.
Qed.

Lemma untimed_row_not_averaged (db more : list LoginAttempt) e v :
  latency e = 0 →
  avg_latency (db ++ [e] ++ more) v = avg_latency (db ++ more) v.
Proof.
  intros He. unfold avg_latency. rewrite !filter_app.
  rewrite (filter_cons_False _ e []) by (rewrite He; lia).
  reflexivity.
Qed.

Lemma untimed_row_not_trained_on (db more : list LoginAttempt) e :
  latency e = 0 →
  filter (λ l1, 0 < latency l1) (db ++ [e] ++ more) =
  filter (λ l1, 0 < latency l1) (db ++ more).
Proof.
  intros He. rewrite !filter_app.
  rewrite (filter_cons_False _ e []) by (rewrite He; lia).
  reflexivity.
Qed.

(** C10. When [params] has no latency entry, the [latency_anomaly] signal
    is the one of a current latency of 150 against the user's average (so
    it is 0 or 50, never the 70 of a latency below 50), while the row is
    stored with latency 0.  Whatever rows follow, that row is not among
    those averaged by the latency query of any user, nor among the rows
    selected for training: both select on [latency > 0]. *)
Theorem log_attempt_without_latency u st p ok s :
  p_latency p = None →
  let r := log_attempt u st p ok s in
  let avg := get (avg_latency (login_attempts s) u) 150%Q in
  r.1.2 !! "latency_anomaly" = Some (latency_signal 150 avg) ∧
  ¬ (latency_signal 150 avg == 70)%Q ∧
  ∃ e, login_attempts r.2 = login_attempts s ++ [e] ∧
       latency e = 0 ∧
       ∀ more,
         (∀ v, avg_latency (login_attempts s ++ [e] ++ more) v =
               avg_latency (login_attempts s ++ more) v) ∧
         filter (λ l1, 0 < latency l1) (login_attempts s ++ [e] ++ more) =
           filter (λ l1, 0 < latency l1) (login_attempts s ++ more) ∧
         training_data (login_attempts s ++ [e] ++ more) =
           training_row (login_attempts s ++ [e] ++ more) <$>
             filter (λ l1, 0 < latency l1) (login_attempts s ++ more).
Proof.
  intros Hlat. cbv zeta. split; [|split].
  - rewrite log_attempt_run. cbn [fst]. rewrite outcome_signal by done.
    rewrite rule_scores_latency, Hlat. reflexivity.
  - apply latency_signal_150_not_70.
  - eexists. split; [apply log_attempt_rows|].
    assert (Hzero : latency (new_row u st p ok
        (time_ms (reads_before_insert s + clock_reads s))
        (log_attempt u st p ok s).1.1) = 0).
    { unfold new_row. simpl. by rewrite Hlat. }
    split; [exact Hzero|]. intros more. split; [|split].
    + intros v. by apply untimed_row_not_averaged.
    + by apply untimed_row_not_trained_on.
    + unfold training_data. by rewrite untimed_row_not_trained_on.
Qed.

(** Rows with a positive latency: the samples of the training query. *)
Lemma training_data_length db :
  length (training_data db) = timed_rows db.
Proof. unfold training_data. apply length_fmap. Qed.

Lemma train_few_samples s :
  (timed_rows (login_attempts s) < 10)%nat →
  ml_model (train_ml_model s).2 = ml_model s.
Proof.
  intros Hfew. rewrite train_ml_model_run. cbn [snd].
  destruct ML_AVAILABLE; [|reflexivity]. cbv zeta.
  rewrite training_data_length.
  destruct (Nat.ltb_spec (timed_rows (login_attempts s)) 10); [reflexivity|lia].
Qed.

(** C9. With fewer than ten stored rows of positive latency, a training
    attempt changes neither the model held (or its absence) nor the table,
    and returns normally: called directly, at start-up (the engine then
    holds no model), or from [log_attempt] after its insert (the call
    still returns its score and keeps the model it started with). *)
Theorem training_needs_ten_samples :
  (∀ s, (timed_rows (login_attempts s) < 10)%nat →
        train_ml_model s =
          (tt, if ML_AVAILABLE
               then mkSystem (login_attempts s) (ml_model s) (clock_reads s)
                      (stdout s ++ [MsgNotEnoughData])
               else s) ∧
        ml_model (train_ml_model s).2 = ml_model s ∧
        login_attempts (train_ml_model s).2 = login_attempts s) ∧
  (∀ stored, (timed_rows stored < 10)%nat →
        ml_model (init stored) = None ∧ login_attempts (init stored) = stored) ∧
  (∀ u st p ok s,
        let r := log_attempt u st p ok s in
        (timed_rows (login_attempts r.2) < 10)%nat →
        ml_model r.2 = ml_model s ∧ r.1 = outcome u p s).
Proof.
  split; [|split].
  - intros s Hfew. split; [|split].
    + rewrite train_ml_model_run. destruct ML_AVAILABLE; [|reflexivity].
      cbv zeta. rewrite training_data_length.
      destruct (Nat.ltb_spec (timed_rows (login_attempts s)) 10); [reflexivity|lia].
    + by apply train_few_samples.
    + apply train_keeps_rows.
  - intros stored Hfew. unfold init. destruct ML_AVAILABLE; [|done].
    split; [|apply train_keeps_rows].
    by rewrite train_few_samples.
  - intros u st p ok s. cbv zeta. intros Hfew.
    split; [|by rewrite log_attempt_run].
    revert Hfew. rewrite log_attempt_run. cbn [snd].
    rewrite retrain_step_run. cbn [snd].
    destruct (retrain_due _); [|done].
    rewrite train_keeps_rows. intros Hfew.
    rewrite train_few_samples; [reflexivity|exact Hfew].
Qed.

Lemma printed_log_attempt u st p ok s :
  printed (log_attempt u st p ok) s =
  if retrain_due (Z.of_nat (length (login_attempts (inserted u st p ok s)))) then
    [MsgRetraining;
     if (length (training_data (login_attempts (inserted u st p ok s))) <? 10)%nat
     then MsgNotEnoughData
     else MsgTrained (length (training_data (login_attempts (inserted u st p ok s))))]
  else [].
Proof.
  unfold printed. rewrite log_attempt_run. cbn [snd].
  rewrite retrain_step_run. cbn [snd].
  unfold retrain_due. rewrite train_ml_model_run.
  destruct ML_AVAILABLE; cbn [andb snd].
  - destruct (_ && _); cbn [snd print stdout login_attempts].
    + cbv zeta. destruct (_ <? 10)%nat; cbn [stdout];
        by rewrite <- app_assoc, drop_app_length.
    + unfold inserted. cbn [stdout]. by rewrite drop_all.
  - unfold inserted. cbn [stdout]. by rewrite drop_all.
Qed.

(** C4, as the code has it.  A call of [log_attempt] announces and runs a
    retraining exactly when the detector library is present and the number
    of rows after its insert is a multiple of 50; otherwise the state is
    the one right after the insert and nothing is printed. *)
Theorem retrain_every_50_rows u st p ok s :
  let r := log_attempt u st p ok s in
  let total := Z.of_nat (length (login_attempts r.2)) in
  (MsgRetraining ∈ printed (log_attempt u st p ok) s ↔
     ML_AVAILABLE = true ∧ total mod 50 = 0) ∧
  r.2 = (if ML_AVAILABLE && (total mod 50 =? 0)
         then (train_ml_model (print MsgRetraining (inserted u st p ok s)).2).2
         else inserted u st p ok s).
Proof.
  cbv zeta.
  assert (Hlen : login_attempts (log_attempt u st p ok s).2 =
                 login_attempts (inserted u st p ok s)).
  { rewrite log_attempt_run. cbn [snd]. apply retrain_step_keeps_rows. }
  rewrite Hlen.
  assert (Hpos : 0 < Z.of_nat (length (login_attempts (inserted u st p ok s)))).
  { unfold inserted. cbn [login_attempts]. rewrite length_app. simpl. lia. }
  assert (Hdue : retrain_due (Z.of_nat (length (login_attempts (inserted u st p ok s)))) =
    ML_AVAILABLE &&
    (Z.of_nat (length (login_attempts (inserted u st p ok s))) mod 50 =? 0)).
  { unfold retrain_due. apply Z.ltb_lt in Hpos. rewrite Hpos. apply andb_true_r. }
  split.
  - rewrite printed_log_attempt, Hdue.
    destruct ML_AVAILABLE; cbn [andb].
    + destruct (Z.eqb_spec
        (Z.of_nat (length (login_attempts (inserted u st p ok s))) mod 50) 0) as [Hz|Hz].
      * split; [done|]. intros _. left.
      * split; [by intros ?%elem_of_nil|]. by intros [_ ?].
    + split; [by intros ?%elem_of_nil|]. by intros [? _].
  - rewrite log_attempt_run. cbn [snd]. rewrite retrain_step_run. cbn [snd].
    by rewrite Hdue.
Qed.


#[local] Instance newer_first_total : Total newer_first.
Proof. intros a b. unfold newer_first. lia. Qed.

#[local] Instance newer_first_trans : Transitive newer_first.
Proof. intros a b c. unfold newer_first. lia. Qed.

(** [ORDER BY timestamp DESC LIMIT 1] returns a row of the selection that
    no other row of the selection is newer than. *)
Lemma newest_row_spec (rows : list LoginAttempt) :
  match head (order_by_timestamp_desc rows) with
  | Some e => e ∈ rows ∧ ∀ e', e' ∈ rows → timestamp e' ≤ timestamp e
  | None => rows = []
  end.
Proof.
  unfold order_by_timestamp_desc.
  pose proof (merge_sort_Permutation newer_first rows) as Hperm.
  pose proof (StronglySorted_merge_sort newer_first rows) as Hsorted.
  destruct (merge_sort newer_first rows) as [|e l]; simpl.
  - symmetry in Hperm. by apply Permutation_nil_r in Hperm.
  - split; [rewrite <- Hperm; left|].
    intros e' He'. rewrite <- Hperm in He'.
    apply StronglySorted_inv in Hsorted as [_ Hall].
    apply elem_of_cons in He' as [->|He']; [lia|].
    rewrite Forall_forall in Hall. by apply Hall.
Qed.

(** C8, as the code has it.  The [fingerprint_change] entry is 0 when no
    row of the user has a non-empty fingerprint, and 0 when the call
    supplies no fingerprint or an empty one.  Otherwise it compares the
    supplied fingerprint with that of a newest row of the user among those
    with a non-empty fingerprint: 60 if they differ, 0 if they are the
    same. *)
Theorem log_attempt_fingerprint_change u st p ok s :
  let on_record :=
    filter (λ e, username e = u ∧ fingerprint e ≠ "") (login_attempts s) in
  let current := get (p_fingerprint p) "" in
  let signal := (log_attempt u st p ok s).1.2 !! "fingerprint_change" in
  (on_record = [] → signal = Some 0%Q) ∧
  (current = "" → signal = Some 0%Q) ∧
  (on_record ≠ [] → current ≠ "" →
     ∃ e, e ∈ on_record ∧ (∀ e', e' ∈ on_record → timestamp e' ≤ timestamp e) ∧
          (fingerprint e ≠ current → signal = Some 60%Q) ∧
          (fingerprint e = current → signal = Some 0%Q)).
Proof.
  cbv zeta.
  rewrite log_attempt_run. cbn [fst]. rewrite outcome_signal by done.
  rewrite rule_scores_fingerprint. unfold last_fingerprint_row.
  pose proof (newest_row_spec
    (filter (λ e, username e = u ∧ fingerprint e ≠ "") (login_attempts s))) as Hnew.
  destruct (head _) as [e|].
  - destruct Hnew as [Hin Hmax]. split; [|split].
    + intros Hnil. rewrite Hnil in Hin. by apply elem_of_nil in Hin.
    + intros Hcur. unfold fingerprint_signal.
      destruct (p_fingerprint p) as [f|]; [|done].
      simpl in Hcur. subst f. by rewrite decide_True.
    + intros _ Hcur. exists e. split; [exact Hin|]. split; [exact Hmax|].
      unfold fingerprint_signal.
      destruct (p_fingerprint p) as [f|]; simpl in Hcur |- *; [|done].
      rewrite decide_False by done.
      split; intros Hfp; [by rewrite decide_True|by rewrite decide_False by tauto].
  - split; [done|]. split; [done|]. intros Hne. by destruct Hne.
Qed.

(** The step handed to [log_attempt] never reaches the model: with no
    [step] entry in [params] the scored row says step 1, while the row that
    training reads back for the same attempt holds the step as stored. *)
Lemma step_feature_ignores_the_step u st p ok s :
  p_step p = None →
  let r := log_attempt u st p ok s in
  (scoring_features u p (calculate_risk_score u p s).2).1 !! 2%nat = Some 1%Q ∧
  ∃ e, last (login_attempts r.2) = Some e ∧
       training_row (login_attempts r.2) e !! 2%nat = Some (inject_Z st).
Proof.
  intros Hstep. cbv zeta. split.
  - rewrite scoring_features_run. unfold ml_features. simpl. by rewrite Hstep.
  - eexists. rewrite log_attempt_rows, last_snoc. split; reflexivity.
Qed.
End Claims.

(** ** The claims on concrete runs *)

Section WithDetectorLibrary.
#[local] Existing Instance flat_detector.
#[local] Existing Instance with_sklearn.

Example trained_holds_model : is_Some (ml_model trained).
Proof. vm_compute. eauto. Qed.

Lemma log_attempt_blend_witness :
  reachable trained ∧ is_Some (ml_model trained) ∧
  let rule := (calculate_risk_score "user9" plain_params trained).1.1 in
  let ml := (get_ml_risk_score "user9" plain_params
               (calculate_risk_score "user9" plain_params trained).2).1 in
  (log_attempt "user9" 3 plain_params true trained).1.1
    = round2 (0.7 * rule + 0.3 * ml).
Proof.
  assert (Hreach : reachable trained) by apply reach_init.
  assert (Hmodel : is_Some (ml_model trained)) by (vm_compute; eauto).
  split; [exact Hreach|]. split; [exact Hmodel|].
  destruct (log_attempt_blend "user9" 3 plain_params true trained Hreach)
    as (Hblend & _ & _).
  exact (Hblend Hmodel).
Defined.

Example blend_on_trained :
  (log_attempt "user9" 3 plain_params true trained).1.1 = 15.00%Q ∧
  (calculate_risk_score "user9" plain_params trained).1.1 = 0.00%Q ∧
  (get_ml_risk_score "user9" plain_params
     (calculate_risk_score "user9" plain_params trained).2).1 = 50.00%Q.
Proof. vm_compute. auto. Qed.

Lemma check_abandonment_risk_witness :
  (2 = 1 ∨ 2 = 2) ∧
  (check_abandonment "user1" 2 one_row).1 = 18.
Proof.
  assert (Hstep : 2 = 1 ∨ 2 = 2) by (right; reflexivity).
  split; [exact Hstep|].
  destruct (check_abandonment_risk "user1" 2 one_row Hstep) as (_ & _ & Hfirst & _).
  apply Hfirst; [vm_compute; discriminate|reflexivity].
Defined.

Example first_abandonments :
  (check_abandonment "user1" 1 one_row).1 = 12 ∧
  (check_abandonment "user1" 2 one_row).1 = 18.
Proof. vm_compute. auto. Qed.

Lemma log_attempt_velocity_witness :
  (∀ e, e ∈ login_attempts one_row → username e ≠ "user9") ∧
  (∀ e, e ∈ login_attempts one_row → timestamp e ≤ time_ms (clock_reads one_row)) ∧
  (log_attempt "user9" 1 plain_params true one_row).1.2 !! "velocity" = Some 0%Q ∧
  Z.of_nat (length
    (filter (λ e, username e = "user9" ∧
                  time_ms (clock_reads one_row) - 300000 < timestamp e)
       (login_attempts one_row))) =
  Z.of_nat (length
    (filter (λ e, username e = "user9" ∧
                  time_ms (clock_reads one_row) - 300000 < timestamp e
                    ≤ time_ms (clock_reads one_row))
       (login_attempts one_row))).
Proof.
  assert (Hnew : ∀ e, e ∈ login_attempts one_row → username e ≠ "user9").
  { intros e He. apply list_elem_of_singleton in He as ->. discriminate. }
  assert (Hpast : ∀ e, e ∈ login_attempts one_row →
                       timestamp e ≤ time_ms (clock_reads one_row)).
  { intros e He. apply list_elem_of_singleton in He as ->. vm_compute. discriminate. }
  split; [exact Hnew|]. split; [exact Hpast|].
  destruct (log_attempt_velocity "user9" 1 plain_params true one_row)
    as (_ & _ & _ & _ & _ & Hfresh & Hwindow).
  split; [exact (Hfresh Hnew)|exact (Hwindow Hpast)].
Defined.

Lemma log_attempt_without_latency_witness :
  p_latency no_params = None ∧
  (log_attempt "user1" 1 no_params true one_row).1.2 !! "latency_anomaly" =
    Some (latency_signal 150 (get (avg_latency (login_attempts one_row) "user1") 150%Q)).
Proof.
  split; [reflexivity|].
  apply (log_attempt_without_latency "user1" 1 no_params true one_row). reflexivity.
Defined.

Lemma training_needs_ten_samples_witness :
  (timed_rows (login_attempts one_row) < 10)%nat ∧
  (timed_rows (login_attempts
     (log_attempt "user1" 1 plain_params true one_row).2) < 10)%nat ∧
  ml_model (train_ml_model one_row).2 = ml_model one_row ∧
  ml_model (init [plain_row]) = None ∧
  ml_model (log_attempt "user1" 1 plain_params true one_row).2 = ml_model one_row.
Proof.
  assert (Hfew : (timed_rows (login_attempts one_row) < 10)%nat) by (vm_compute; lia).
  assert (Hfew' : (timed_rows (login_attempts
     (log_attempt "user1" 1 plain_params true one_row).2) < 10)%nat)
    by (vm_compute; lia).
  split; [exact Hfew|]. split; [exact Hfew'|].
  destruct training_needs_ten_samples as (Htrain & Hinit & Hlog).
  split; [|split].
  - apply Htrain. exact Hfew.
  - apply Hinit. exact Hfew.
  - apply (Hlog "user1" 1 plain_params true one_row). exact Hfew'.
Defined.

Lemma log_attempt_fingerprint_change_witness :
  filter (λ e, username e = "user1" ∧ fingerprint e ≠ "") (login_attempts one_row) ≠ [] ∧
  get (p_fingerprint plain_params) "" ≠ "" ∧
  filter (λ e, username e = "user9" ∧ fingerprint e ≠ "") (login_attempts one_row) = [] ∧
  get (p_fingerprint no_params) "" = "" ∧
  (∃ e, e ∈ login_attempts one_row ∧
        (fingerprint e ≠ "FP_user9" →
         (log_attempt "user1" 1 plain_params true one_row).1.2 !! "fingerprint_change"
           = Some 60%Q)) ∧
  (log_attempt "user9" 1 plain_params true one_row).1.2 !! "fingerprint_change"
    = Some 0%Q ∧
  (log_attempt "user1" 1 no_params true one_row).1.2 !! "fingerprint_change"
    = Some 0%Q.
Proof.
  assert (Hrec : filter (λ e, username e = "user1" ∧ fingerprint e ≠ "")
                   (login_attempts one_row) ≠ []) by (vm_compute; discriminate).
  assert (Hcur : get (p_fingerprint plain_params) "" ≠ "") by (vm_compute; discriminate).
  assert (Hnone : filter (λ e, username e = "user9" ∧ fingerprint e ≠ "")
                    (login_attempts one_row) = []) by reflexivity.
  assert (Hempty : get (p_fingerprint no_params) "" = "") by reflexivity.
  split; [exact Hrec|]. split; [exact Hcur|]. split; [exact Hnone|].
  split; [exact Hempty|]. split; [|split].
  - destruct (log_attempt_fingerprint_change "user1" 1 plain_params true one_row)
      as (_ & _ & Hthird).
    destruct (Hthird Hrec Hcur) as (e & Hin & _ & Hdiff & _).
    exists e. split; [|exact Hdiff].
    apply list_elem_of_filter in Hin as [_ Hin]. exact Hin.
  - destruct (log_attempt_fingerprint_change "user9" 1 plain_params true one_row)
      as (Hfirst & _ & _).
    exact (Hfirst Hnone).
  - destruct (log_attempt_fingerprint_change "user1" 1 no_params true one_row)
      as (_ & Hsecond & _).
    exact (Hsecond Hempty).
Defined.

(** C8, as worded, fails: [user1] has the fingerprint [FP_user1] on record
    and the call carries none, so the row it stores has a different (empty)
    fingerprint; yet the signal is 0, not 60. *)
Lemma fingerprint_change_needs_current_fingerprint :
  let r := log_attempt "user1" 1 no_params true one_row in
  (fingerprint <$> last_fingerprint_row (login_attempts one_row) "user1")
    = Some "FP_user1" ∧
  (fingerprint <$> last (login_attempts r.2)) = Some "" ∧
  r.1.2 !! "fingerprint_change" = Some 0%Q ∧
  r.1.2 !! "fingerprint_change" ≠ Some 60%Q.
Proof. vm_compute. repeat split; discriminate. Qed.



(** C5, on a run.  [user9] logs step 3 on the trained engine.  The row
    scored by the model is (latency 150, rule score 0, step 1, velocity 0,
    devices 0); the row the next training reads back for this very attempt
    is (latency 150, stored score 15, step 3, velocity 1, devices 1). *)
Lemma scoring_and_training_rows_differ :
  let r := log_attempt "user9" 3 plain_params true trained in
  (scoring_features "user9" plain_params
     (calculate_risk_score "user9" plain_params trained).2).1
    = [150%Q; 0.00%Q; 1%Q; 0%Q; 0%Q] ∧
  last (training_data (login_attempts r.2))
    = Some [150%Q; 15.00%Q; 3%Q; 1%Q; 1%Q] ∧
  (step <$> last (login_attempts r.2)) = Some 3.
Proof. vm_compute. repeat split; reflexivity. Qed.
End WithDetectorLibrary.

Section WithoutDetectorLibrary.
#[local] Existing Instance flat_detector.
#[local] Existing Instance without_sklearn.

(** C4, as worded, fails: the 50th row is written, and no retraining is
    attempted, on a machine without the detector library. *)
Lemma no_retrain_without_detector_library :
  let r := log_attempt "user1" 1 plain_params true forty_nine in
  Z.of_nat (length (login_attempts r.2)) = 50 ∧
  50 mod 50 = 0 ∧
  printed (log_attempt "user1" 1 plain_params true) forty_nine = [] ∧
  r.2 = inserted "user1" 1 plain_params true forty_nine.
Proof. vm_compute. repeat split; reflexivity. Qed.
End WithoutDetectorLibrary.

(** ** Further properties of the engine *)

#[local] Instance newer_first_is_total : Total newer_first.
Proof. intros a b. unfold newer_first. lia. Qed.

#[local] Instance newer_first_is_transitive : Transitive newer_first.
Proof. intros a b c. unfold newer_first. lia. Qed.

Section EngineFacts.
Context `{AnomalyDetector, Environment}.

Lemma rule_scores_dom db now u p :
  dom (rule_scores db now u p) =
  ({["velocity"; "device_switching"; "network_switching"; "latency_anomaly";
     "timing_pattern"; "fingerprint_change"; "device_spoofing"]} : gset string).
Proof.
  unfold rule_scores, scores_of. rewrite !dom_insert_L, dom_empty_L. set_solver.
Qed.

Lemma scores_of_lookup (v ds ns la tp fp sp : Q) :
  let m := scores_of v ds ns la tp fp sp in
  m !! "velocity" = Some v ∧ m !! "device_switching" = Some ds ∧
  m !! "network_switching" = Some ns ∧ m !! "latency_anomaly" = Some la ∧
  m !! "timing_pattern" = Some tp ∧ m !! "fingerprint_change" = Some fp ∧
  m !! "device_spoofing" = Some sp.
Proof. cbv zeta. unfold scores_of. repeat split; by simplify_map_eq. Qed.

Lemma scores_of_without_ml_anomaly (v ds ns la tp fp sp : Q) :
  scores_of v ds ns la tp fp sp !! "ml_anomaly" = None.
Proof. unfold scores_of. by simplify_map_eq. Qed.

(** X1. The score of [calculate_risk_score] is exactly the weighted sum of
    the seven signals of the breakdown it returns with it (rounding to two
    places changes nothing), it lies between 0 and 83.25, and the breakdown
    has these seven keys and no other. *)
Theorem calculate_risk_score_is_weighted_sum u p s :
  let r := calculate_risk_score u p s in
  (0 <= r.1.1 <= 83.25)%Q ∧
  dom r.1.2 =
    ({["velocity"; "device_switching"; "network_switching"; "latency_anomaly";
       "timing_pattern"; "fingerprint_change"; "device_spoofing"]} : gset string) ∧
  ∃ v ds ns la tp fp sp,
    r.1.2 !! "velocity" = Some v ∧ r.1.2 !! "device_switching" = Some ds ∧
    r.1.2 !! "network_switching" = Some ns ∧ r.1.2 !! "latency_anomaly" = Some la ∧
    r.1.2 !! "timing_pattern" = Some tp ∧ r.1.2 !! "fingerprint_change" = Some fp ∧
    r.1.2 !! "device_spoofing" = Some sp ∧
    (r.1.1 == v * 0.25 + ds * 0.20 + ns * 0.15 + la * 0.15
              + tp * 0.10 + fp * 0.10 + sp * 0.05)%Q.
Proof.
  cbv zeta. rewrite calculate_risk_score_run. cbn [fst snd].
  split; [apply rule_score_range|]. split; [apply rule_scores_dom|].
  do 7 eexists. unfold rule_scores at 1 2 3 4 5 6 7.
  destruct (scores_of_lookup
    (velocity_signal (count_since (login_attempts s) u (time_ms (clock_reads s) - 300000)))
    (device_switching_signal
       (distinct_devices_since (login_attempts s) u (time_ms (clock_reads s) - 1800000)))
    (network_switching_signal
       (distinct_networks_since (login_attempts s) u (time_ms (clock_reads s) - 1800000)))
    (latency_signal (get (p_latency p) 150) (get (avg_latency (login_attempts s) u) 150%Q))
    (timing_signal (last_two_timestamps (login_attempts s) u))
    (fingerprint_signal (last_fingerprint_row (login_attempts s) u) (p_fingerprint p))
    (spoofing_signal (get (p_device_id p) "")))
    as (H1 & H2 & H3 & H4 & H5 & H6 & H7).
  do 7 (split; [eassumption|]).
  rewrite rule_score_exact. unfold rule_scores. apply weighted_total_scores.
Qed.

(** A user without rows is selected by no query on the user name. *)
Lemma no_rows_of_user (db : list LoginAttempt) (u : string) (P : LoginAttempt → Prop)
    `{∀ e, Decision (P e)} :
  (∀ e, e ∈ db → username e ≠ u) →
  filter (λ e, username e = u ∧ P e) db = [].
Proof.
  intros Hnew. induction db as [|e l IH]; [reflexivity|].
  rewrite filter_cons_False.
  - apply IH. intros e' He'. apply Hnew. by right.
  - intros [Hu _]. apply (Hnew e); [left|exact Hu].
Qed.

Lemma no_rows_of_user_plain (db : list LoginAttempt) (u : string) :
  (∀ e, e ∈ db → username e ≠ u) →
  filter (λ e, username e = u) db = [].
Proof.
  intros Hnew. induction db as [|e l IH]; [reflexivity|].
  rewrite filter_cons_False.
  - apply IH. intros e' He'. apply Hnew. by right.
  - intros Hu. apply (Hnew e); [left|exact Hu].
Qed.

Lemma rule_scores_new_user db now u p :
  (∀ e, e ∈ db → username e ≠ u) →
  rule_scores db now u p =
  scores_of 0 0 0 (latency_signal (get (p_latency p) 150) 150%Q) 0 0
    (spoofing_signal (get (p_device_id p) "")).
Proof.
  intros Hnew. unfold rule_scores.
  assert (Hc : ∀ since, count_since db u since = 0).
  { intros since. unfold count_since. by rewrite (no_rows_of_user _ u _ Hnew). }
  assert (Hd : ∀ since, distinct_devices_since db u since = 0).
  { intros since. unfold distinct_devices_since.
    by rewrite (no_rows_of_user _ u _ Hnew). }
  assert (Hn : ∀ since, distinct_networks_since db u since = 0).
  { intros since. unfold distinct_networks_since.
    by rewrite (no_rows_of_user _ u _ Hnew). }
  assert (Ha : avg_latency db u = None).
  { unfold avg_latency. by rewrite (no_rows_of_user _ u _ Hnew). }
  assert (Ht : last_two_timestamps db u = []).
  { unfold last_two_timestamps. by rewrite (no_rows_of_user_plain _ u Hnew). }
  assert (Hf : last_fingerprint_row db u = None).
  { unfold last_fingerprint_row. by rewrite (no_rows_of_user _ u _ Hnew). }
  rewrite Hc, Hd, Hn, Ha, Ht, Hf. reflexivity.
Qed.

Lemma rule_score_new_user db now u p :
  (∀ e, e ∈ db → username e ≠ u) →
  let la := latency_signal (get (p_latency p) 150) 150%Q in
  let sp := spoofing_signal (get (p_device_id p) "") in
  (rule_score db now u p == la * 0.15 + sp * 0.05)%Q ∧
  (rule_score db now u p <= 14.75)%Q.
Proof.
  intros Hnew. cbv zeta. pose proof (rule_score_exact db now u p) as Hex.
  rewrite (rule_scores_new_user _ _ _ _ Hnew), weighted_total_scores in Hex.
  pose proof (latency_signal_range (get (p_latency p) 150) 150%Q).
  pose proof (spoofing_signal_range (get (p_device_id p) "")).
  split; [rewrite Hex; ring|rewrite Hex; lra].
Qed.

(** X2. Cold start.  For a user with no stored row, the five signals that
    read the history are 0, the latency is compared with the default average
    of 150, and the score is at most 14.75: 15 percent of a latency signal of
    at most 70 plus 5 percent of a spoofing signal of at most 85. *)
Theorem first_attempt_of_a_user u p s :
  (∀ e, e ∈ login_attempts s → username e ≠ u) →
  let r := calculate_risk_score u p s in
  r.1.2 !! "velocity" = Some 0%Q ∧
  r.1.2 !! "device_switching" = Some 0%Q ∧
  r.1.2 !! "network_switching" = Some 0%Q ∧
  r.1.2 !! "timing_pattern" = Some 0%Q ∧
  r.1.2 !! "fingerprint_change" = Some 0%Q ∧
  let la := latency_signal (get (p_latency p) 150) 150%Q in
  let sp := spoofing_signal (get (p_device_id p) "") in
  r.1.2 !! "latency_anomaly" = Some la ∧
  (r.1.1 == la * 0.15 + sp * 0.05)%Q ∧
  (r.1.1 <= 14.75)%Q.
Proof.
  intros Hnew. cbv zeta. rewrite calculate_risk_score_run. cbn [fst snd].
  pose proof (rule_score_exact (login_attempts s) (time_ms (clock_reads s)) u p) as Hex.
  rewrite (rule_scores_new_user _ _ _ _ Hnew) in Hex |- *.
  destruct (scores_of_lookup 0 0 0 (latency_signal (get (p_latency p) 150) 150%Q) 0 0
              (spoofing_signal (get (p_device_id p) "")))
    as (H1 & H2 & H3 & H4 & H5 & H6 & H7).
  do 6 (split; [assumption|]).
  rewrite weighted_total_scores in Hex.
  pose proof (latency_signal_range (get (p_latency p) 150) 150%Q).
  pose proof (spoofing_signal_range (get (p_device_id p) "")).
  split; [rewrite Hex; ring|rewrite Hex; lra].
Qed.

Lemma sumZ_lower (l : list Z) (lo : Z) :
  (∀ x, x ∈ l → lo ≤ x) → lo * Z.of_nat (length l) ≤ sumZ l.
Proof.
  induction l as [|x l IH]; intros Hb; [simpl; lia|].
  assert (Hx : lo ≤ x) by (apply Hb; left).
  assert (Hl : lo * Z.of_nat (length l) ≤ sumZ l).
  { apply IH. intros y Hy. apply Hb. by right. }
  cbn [length sumZ foldr]. fold (sumZ l). lia.
Qed.

Lemma sumZ_upper (l : list Z) (hi : Z) :
  (∀ x, x ∈ l → x ≤ hi) → sumZ l ≤ hi * Z.of_nat (length l).
Proof.
  induction l as [|x l IH]; intros Hb; [simpl; lia|].
  assert (Hx : x ≤ hi) by (apply Hb; left).
  assert (Hl : sumZ l ≤ hi * Z.of_nat (length l)).
  { apply IH. intros y Hy. apply Hb. by right. }
  cbn [length sumZ foldr]. fold (sumZ l). lia.
Qed.

(** X3. The average latency of a user is taken over the user's rows with a
    positive latency only.  With no such row there is none, and the default
    of 150 applies; otherwise it is positive (so the default never replaces
    a real average) and lies between any two bounds of those latencies. *)
Theorem avg_latency_of_positive_rows (db : list LoginAttempt) (u : string) :
  let timed := filter (λ e, username e = u ∧ 0 < latency e) db in
  (timed = [] → avg_latency db u = None) ∧
  (timed ≠ [] →
     ∃ q, avg_latency db u = Some q ∧ (0 < q)%Q ∧
          (q * inject_Z (Z.of_nat (length timed)) == inject_Z (sumZ (latency <$> timed)))%Q ∧
          ∀ lo hi, (∀ e, e ∈ timed → lo ≤ latency e ≤ hi) →
                   (inject_Z lo <= q <= inject_Z hi)%Q).
Proof.
  cbv zeta. unfold avg_latency.
  set (timed := filter _ db). split.
  - intros ->. reflexivity.
  - intros Hne.
    assert (Hlen : length (latency <$> timed) = length timed) by apply length_fmap.
    assert (Hpos : 0 < Z.of_nat (length timed)).
    { destruct timed; [done|]. simpl. lia. }
    assert (Hsum1 : 1 * Z.of_nat (length timed) ≤ sumZ (latency <$> timed)).
    { rewrite <- Hlen. apply sumZ_lower.
      intros x (e & -> & He)%list_elem_of_fmap.
      apply list_elem_of_filter in He as [[_ Hl] _]. lia. }
    assert (Hbounds : ∀ lo hi, (∀ e, e ∈ timed → lo ≤ latency e ≤ hi) →
              lo * Z.of_nat (length timed) ≤ sumZ (latency <$> timed)
                ≤ hi * Z.of_nat (length timed)).
    { intros lo hi Hb. rewrite <- Hlen.
      split; [apply sumZ_lower|apply sumZ_upper];
        intros y (e & -> & He)%list_elem_of_fmap; by apply Hb. }
    revert Hpos Hsum1 Hbounds. rewrite <- Hlen. clear Hlen.
    generalize (latency <$> timed) as ls. intros ls Hpos Hsum1 Hbounds.
    set (n := Z.of_nat (length ls)) in *.
    assert (Hn : (0 < inject_Z n)%Q).
    { change 0%Q with (inject_Z 0). rewrite <- Zlt_Qlt. lia. }
    destruct ls as [|x xs]; [simpl in n; lia|].
    set (sm := sumZ (x :: xs)) in *.
    eexists. split; [reflexivity|]. fold n. split; [|split].
    + apply Qlt_shift_div_l; [exact Hn|].
      rewrite Qmult_0_l. change 0%Q with (inject_Z 0). rewrite <- Zlt_Qlt. lia.
    + field. intros Hz. rewrite Hz in Hn. by apply Qlt_irrefl in Hn.
    + intros lo hi Hb. destruct (Hbounds lo hi Hb) as [Hlo Hhi]. split.
      * apply Qle_shift_div_l; [exact Hn|].
        rewrite <- inject_Z_mult, <- Zle_Qle. exact Hlo.
      * apply Qle_shift_div_r; [exact Hn|].
        rewrite <- inject_Z_mult, <- Zle_Qle. exact Hhi.
Qed.

Lemma retrain_every_50_rows_state u st p ok s :
  let total := Z.of_nat (length (login_attempts (inserted u st p ok s))) in
  (ML_AVAILABLE && (total mod 50 =? 0) = true →
     (log_attempt u st p ok s).2 =
     (train_ml_model (print MsgRetraining (inserted u st p ok s)).2).2) ∧
  (ML_AVAILABLE && (total mod 50 =? 0) = false →
     (log_attempt u st p ok s).2 = inserted u st p ok s).
Proof.
  cbv zeta.
  assert (Hpos : 0 < Z.of_nat (length (login_attempts (inserted u st p ok s)))).
  { unfold inserted. cbn [login_attempts]. rewrite length_app. simpl. lia. }
  rewrite log_attempt_run, retrain_step_run. cbn [snd]. unfold retrain_due.
  apply Z.ltb_lt in Hpos. rewrite Hpos, andb_true_r.
  split; intros ->; reflexivity.
Qed.

(** X4. Every row handed to the model for training comes from a stored
    attempt with a positive latency and has five entries: that latency, the
    stored score, the stored step, and two counts that are both at least 1,
    because the sub-selects count the attempt itself. *)
Theorem training_rows_shape (db : list LoginAttempt) (row : list Q) :
  row ∈ training_data db →
  ∃ e v d, e ∈ db ∧ 0 < latency e ∧ 1 ≤ v ∧ 1 ≤ d ∧
    v = Z.of_nat (length (filter
          (λ e', username e' = username e ∧ timestamp e - 300000 < timestamp e') db)) ∧
    d = Z.of_nat (length (remove_dups (device_id <$> filter
          (λ e', username e' = username e ∧ timestamp e - 1800000 < timestamp e') db))) ∧
    row = [inject_Z (latency e); risk_score e; inject_Z (step e);
           inject_Z v; inject_Z d].
Proof.
  unfold training_data. intros (e & -> & He)%list_elem_of_fmap.
  apply list_elem_of_filter in He as [Hlat He].
  exists e, (count_since db (username e) (timestamp e - 300000)),
    (distinct_devices_since db (username e) (timestamp e - 1800000)).
  split; [exact He|]. split; [exact Hlat|].
  assert (Hin5 : e ∈ filter
      (λ e', username e' = username e ∧ timestamp e - 300000 < timestamp e') db).
  { apply list_elem_of_filter. split; [split; [reflexivity|lia]|exact He]. }
  assert (Hin30 : device_id e ∈ remove_dups (device_id <$> filter
      (λ e', username e' = username e ∧ timestamp e - 1800000 < timestamp e') db)).
  { apply elem_of_remove_dups, list_elem_of_fmap. exists e. split; [reflexivity|].
    apply list_elem_of_filter. split; [split; [reflexivity|lia]|exact He]. }
  split; [|split; [|split; [reflexivity|split; reflexivity]]].
  - unfold count_since. destruct (filter _ db); [by apply elem_of_nil in Hin5|].
    simpl. lia.
  - unfold distinct_devices_since.
    destruct (remove_dups _); [by apply elem_of_nil in Hin30|]. simpl. lia.
Qed.

(** X5. The life of the model across a call of [log_attempt]: it is
    replaced, by the model fitted on the training rows of the table after
    the insert, exactly when the detector library is present, the number of
    rows is then a multiple of 50, and at least ten of them have a positive
    latency; in every other case the call leaves the model as it was. *)
Theorem log_attempt_model_lifecycle u st p ok s :
  let r := log_attempt u st p ok s in
  let db' := login_attempts r.2 in
  ml_model r.2 =
    if ML_AVAILABLE && (Z.of_nat (length db') mod 50 =? 0) && (10 <=? timed_rows db')%nat
    then Some (fit (training_data db'))
    else ml_model s.
Proof.
  cbv zeta.
  assert (Hrows : login_attempts (log_attempt u st p ok s).2 =
                  login_attempts (inserted u st p ok s)).
  { rewrite log_attempt_run. cbn [snd]. apply retrain_step_keeps_rows. }
  destruct (retrain_every_50_rows_state u st p ok s) as [Hdue Hnot].
  rewrite Hrows in *.
  destruct (ML_AVAILABLE && (_ mod 50 =? 0)) eqn:Hc; cbn [andb].
  - rewrite (Hdue eq_refl), train_ml_model_run.
    apply andb_prop in Hc as [-> _]. cbn [snd print login_attempts ml_model].
    cbv zeta. rewrite training_data_length.
    destruct (Nat.ltb_spec (timed_rows (login_attempts (inserted u st p ok s))) 10);
      destruct (Nat.leb_spec 10 (timed_rows (login_attempts (inserted u st p ok s))));
      try lia; reflexivity.
  - rewrite (Hnot eq_refl). reflexivity.
Qed.

(** X6. Ceilings.  A score returned by [log_attempt] never exceeds 88.28
    (70 percent of the largest rule score plus 30 percent of 100), and never
    83.25 when no model is held; and a table whose scores all lie in
    [0,100] still has that property after the call. *)
Theorem log_attempt_score_ceiling u st p ok s :
  let r := log_attempt u st p ok s in
  (r.1.1 <= 88.28)%Q ∧
  (ml_model s = None → r.1.1 <= 83.25)%Q ∧
  (Forall (λ e, 0 <= risk_score e <= 100)%Q (login_attempts s) →
   Forall (λ e, 0 <= risk_score e <= 100)%Q (login_attempts r.2)).
Proof.
  cbv zeta.
  pose proof (rule_score_range (login_attempts s) (time_ms (clock_reads s)) u p) as Hr.
  split; [|split].
  - rewrite log_attempt_run. cbn [fst]. unfold outcome.
    destruct (ml_model s) as [m|]; [destruct ML_AVAILABLE|]; cbn [fst]; try lra.
    pose proof (ml_risk_of_range m u p (tick s)) as Hm.
    destruct (round2_between 0 8828
      (rule_score (login_attempts s) (time_ms (clock_reads s)) u p * 0.7
       + ml_risk_of m u p (tick s) * 0.3)) as [_ Hhi].
    + rewrite !Qdiv_100. change (inject_Z 0) with 0%Q.
      change (inject_Z 8828) with 8828%Q. lra.
    + rewrite Qdiv_100 in Hhi. change (inject_Z 8828) with 8828%Q in Hhi. lra.
  - intros Hnone. rewrite log_attempt_run. cbn [fst]. unfold outcome.
    rewrite Hnone. cbn [fst]. lra.
  - intros Hall. rewrite log_attempt_rows. apply Forall_app. split; [exact Hall|].
    apply Forall_singleton. cbn [risk_score new_row].
    rewrite log_attempt_run. apply outcome_range.
Qed.

(** X7. [check_abandonment] only reads: it leaves the table, the model and
    the output as they are.  Its result lies between 0 and 33; it is at
    least 12 for step 1 and at least 18 for step 2, and for any other step
    it is the escalation alone, at most 15. *)
Theorem check_abandonment_range u last_step s :
  let r := check_abandonment u last_step s in
  0 ≤ r.1 ≤ 33 ∧
  (last_step = 1 → 12 ≤ r.1 ≤ 27) ∧
  (last_step = 2 → 18 ≤ r.1 ≤ 33) ∧
  (last_step ≠ 1 → last_step ≠ 2 → r.1 = 0 ∨ r.1 = 6 ∨ r.1 = 10 ∨ r.1 = 15) ∧
  login_attempts r.2 = login_attempts s ∧ ml_model r.2 = ml_model s ∧
  stdout r.2 = stdout s.
Proof.
  cbv zeta.
  unfold check_abandonment, mbind, M_bind, mret, M_ret, now, select.
  cbn [fst snd login_attempts clock_reads ml_model stdout].
  set (c := abandonments_since _ _ _).
  split; [|split; [|split; [|split; [|repeat split; reflexivity]]]].
  - repeat case_match; lia.
  - intros ->. simpl. repeat case_match; lia.
  - intros ->. simpl. repeat case_match; lia.
  - intros Hne1 Hne2.
    destruct (Z.eqb_spec last_step 1) as [|_]; [contradiction|].
    destruct (Z.eqb_spec last_step 2) as [|_]; [contradiction|].
    repeat case_match; auto.
Qed.

(** X8. The [ml_anomaly] entry.  In a state the engine can reach, the
    breakdown returned by [log_attempt] has an [ml_anomaly] entry exactly
    when a model is held; the entry is the value of [get_ml_risk_score] and
    lies between 0 and 100.  Without a model the breakdown is the one of
    [calculate_risk_score], unchanged. *)
Theorem log_attempt_ml_anomaly_entry u st p ok s :
  reachable s →
  let r := log_attempt u st p ok s in
  let rule := calculate_risk_score u p s in
  (ml_model s = None → r.1.2 = rule.1.2 ∧ r.1.2 !! "ml_anomaly" = None) ∧
  (is_Some (ml_model s) →
     ∃ ml, r.1.2 !! "ml_anomaly" = Some ml ∧
           ml = (get_ml_risk_score u p rule.2).1 ∧ (0 <= ml <= 100)%Q ∧
           ∀ k, k ≠ "ml_anomaly" → r.1.2 !! k = rule.1.2 !! k).
Proof.
  intros Hs%reachable_consistent. cbv zeta.
  rewrite log_attempt_run, calculate_risk_score_run. cbn [fst snd]. split.
  - intros Hnone. unfold outcome. rewrite Hnone. cbn [snd]. split; [reflexivity|].
    unfold rule_scores. apply scores_of_without_ml_anomaly.
  - intros Hm. pose proof (Hs Hm) as HML. destruct Hm as [m Hm].
    rewrite get_ml_risk_score_run. unfold outcome. cbn [ml_model tick].
    rewrite Hm, HML. cbn [fst snd].
    exists (ml_risk_of m u p (tick s)).
    split; [by rewrite lookup_insert_eq|]. split; [reflexivity|].
    split; [apply ml_risk_of_range|].
    intros k Hk. by rewrite lookup_insert_ne.
Qed.

Lemma count_since_snoc (db : list LoginAttempt) (e : LoginAttempt) (v : string) (since : Z) :
  count_since (db ++ [e]) v since =
  count_since db v since + (if decide (username e = v ∧ since < timestamp e) then 1 else 0).
Proof.
  unfold count_since. rewrite filter_app, length_app, filter_cons, filter_nil.
  destruct (decide _); simpl; lia.
Qed.

(** X9. One attempt after another.  The row stored by a call of
    [log_attempt] counts for the velocity of the user's next call whenever
    it is stamped less than five minutes before that call reads the clock:
    the next velocity is the table applied to one more than the count over
    the rows that were there before; otherwise it is the table applied to
    that count. *)
Theorem next_attempt_counts_this_one u st p ok s st' p' ok' :
  let r := log_attempt u st p ok s in
  let r' := log_attempt u st' p' ok' r.2 in
  let now' := time_ms (clock_reads r.2) in
  let before := count_since (login_attempts s) u (now' - 300000) in
  ∃ e, last (login_attempts r.2) = Some e ∧
       (now' - 300000 < timestamp e →
          r'.1.2 !! "velocity" = Some (velocity_signal (before + 1))) ∧
       (timestamp e ≤ now' - 300000 →
          r'.1.2 !! "velocity" = Some (velocity_signal before)).
Proof.
  cbv zeta. eexists. split; [rewrite log_attempt_rows; apply last_snoc|].
  set (s1 := (log_attempt u st p ok s).2).
  assert (Hv : (log_attempt u st' p' ok' s1).1.2 !! "velocity" =
    Some (velocity_signal (count_since (login_attempts s1) u
                             (time_ms (clock_reads s1) - 300000)))).
  { rewrite log_attempt_run. cbn [fst]. rewrite outcome_signal by done.
    apply rule_scores_velocity. }
  rewrite Hv. subst s1. rewrite log_attempt_rows, count_since_snoc.
  cbn [username timestamp new_row].
  split; intros Hts.
  - rewrite decide_True; [reflexivity|]. split; [reflexivity|exact Hts].
  - rewrite decide_False; [by rewrite Z.add_0_r|]. intros [_ ?]. lia.
Qed.

Lemma last_fingerprint_row_snoc (db : list LoginAttempt) (e : LoginAttempt) :
  fingerprint e ≠ "" →
  (∀ old, old ∈ db → username old = username e → timestamp old < timestamp e) →
  last_fingerprint_row (db ++ [e]) (username e) = Some e.
Proof.
  intros Hfp Hnewer. unfold last_fingerprint_row.
  pose proof (newest_row_spec
    (filter (λ e', username e' = username e ∧ fingerprint e' ≠ "") (db ++ [e]))) as Hspec.
  assert (Hin : e ∈ filter (λ e', username e' = username e ∧ fingerprint e' ≠ "")
                     (db ++ [e])).
  { apply list_elem_of_filter. split; [by split|].
    apply elem_of_app. right. by apply list_elem_of_singleton. }
  destruct (head _) as [e'|]; [|rewrite Hspec in Hin; by apply elem_of_nil in Hin].
  destruct Hspec as [Hin' Hmax]. f_equal.
  apply list_elem_of_filter in Hin' as [[Hu _] Hin'].
  apply elem_of_app in Hin' as [Hold|Hlast%list_elem_of_singleton]; [|exact Hlast].
  specialize (Hmax e Hin). specialize (Hnewer e' Hold Hu). lia.
Qed.

(** X10. A fingerprint is remembered.  When a call of [log_attempt]
    carries a non-empty fingerprint and its row is stamped later than every
    earlier row of the user, the user's next call scores
    [fingerprint_change] 0 if it carries the same fingerprint and 60 if it
    carries another non-empty one. *)
Theorem fingerprint_is_remembered u st p ok s f st' p' ok' :
  p_fingerprint p = Some f → f ≠ "" →
  let r := log_attempt u st p ok s in
  let r' := log_attempt u st' p' ok' r.2 in
  (∀ e old, last (login_attempts r.2) = Some e → old ∈ login_attempts s →
            username old = u → timestamp old < timestamp e) →
  (p_fingerprint p' = Some f → r'.1.2 !! "fingerprint_change" = Some 0%Q) ∧
  (∀ g, p_fingerprint p' = Some g → g ≠ "" → g ≠ f →
        r'.1.2 !! "fingerprint_change" = Some 60%Q).
Proof.
  intros Hf Hne. cbv zeta. intros Hnewer.
  set (s1 := (log_attempt u st p ok s).2).
  assert (Hsig : (log_attempt u st' p' ok' s1).1.2 !! "fingerprint_change" =
    Some (fingerprint_signal (last_fingerprint_row (login_attempts s1) u)
            (p_fingerprint p'))).
  { rewrite log_attempt_run. cbn [fst]. rewrite outcome_signal by done.
    apply rule_scores_fingerprint. }
  rewrite Hsig. subst s1.
  set (e := new_row u st p ok (time_ms (reads_before_insert s + clock_reads s))
              (log_attempt u st p ok s).1.1).
  assert (Hlast : last (login_attempts (log_attempt u st p ok s).2) = Some e).
  { rewrite log_attempt_rows. apply last_snoc. }
  assert (Hrow : last_fingerprint_row (login_attempts (log_attempt u st p ok s).2) u
                 = Some e).
  { rewrite log_attempt_rows. fold e.
    apply (last_fingerprint_row_snoc (login_attempts s) e).
    - subst e. cbn [fingerprint new_row]. rewrite Hf. exact Hne.
    - intros old Hold Hu. apply (Hnewer e old Hlast Hold Hu). }
  rewrite Hrow.
  assert (Hfe : fingerprint e = f) by (subst e; cbn [fingerprint new_row]; by rewrite Hf).
  unfold fingerprint_signal. split.
  - intros ->. rewrite decide_False by done. rewrite decide_False; [reflexivity|].
    rewrite Hfe. tauto.
  - intros g -> Hg Hgf. rewrite decide_False by done. rewrite decide_True; [reflexivity|].
    rewrite Hfe. congruence.
Qed.
End EngineFacts.

(** ** Device identifiers *)

Section Spoofing.

Lemma prefix_append (n post : string) : String.prefix n (n +:+ post) = true.
Proof.
  induction n as [|c n IH]; [by destruct post|].
  simpl. destruct (ascii_dec c c); [exact IH|contradiction].
Qed.

Lemma prefix_inv (n s : string) :
  String.prefix n s = true → ∃ post, s = n +:+ post.
Proof.
  revert s. induction n as [|c n IH]; intros s Hp; [by exists s|].
  destruct s as [|c' s]; [discriminate|]. simpl in Hp.
  destruct (ascii_dec c c') as [->|]; [|discriminate].
  destruct (IH s Hp) as [post ->]. by exists post.
Qed.

(** [needle in s] holds exactly when [s] is some text, the needle, and some
    more text. *)
Lemma contains_spec (n s : string) :
  contains n s = true ↔ ∃ pre post, s = pre +:+ n +:+ post.
Proof.
  split.
  - induction s as [|c s IH]; cbn [contains]; intros Hc.
    + rewrite orb_false_r in Hc. apply prefix_inv in Hc as [post Hpost].
      by exists "", post.
    + apply orb_prop in Hc as [Hp|Hc].
      * apply prefix_inv in Hp as [post ->]. by exists "", post.
      * destruct (IH Hc) as (pre & post & ->). by exists (String c pre), post.
  - intros (pre & post & ->). induction pre as [|c pre IH].
    + change ("" +:+ n +:+ post) with (n +:+ post).
      destruct (n +:+ post) eqn:E; cbn [contains]; rewrite <- E, prefix_append; reflexivity.
    + change (String c pre +:+ n +:+ post) with (String c (pre +:+ n +:+ post)).
      cbn [contains]. rewrite IH. apply orb_true_r.
Qed.

Lemma upper_append (a b : string) : upper (a +:+ b) = upper a +:+ upper b.
Proof. induction a as [|c a IH]; [reflexivity|]. simpl. by rewrite IH. Qed.

Lemma upper_split (s a b : string) :
  upper s = a +:+ b → ∃ a' b', s = a' +:+ b' ∧ upper a' = a ∧ upper b' = b.
Proof.
  revert s. induction a as [|c a IH]; intros s Hs.
  - by exists "", s.
  - destruct s as [|c' s]; [discriminate|]. simpl in Hs.
    injection Hs as Hc Hs. destruct (IH s Hs) as (a' & b' & -> & Ha & Hb).
    exists (String c' a'), b'. simpl. by rewrite Hc, Ha.
Qed.

Lemma contains_upper (n d : string) :
  contains n (upper d) = true ↔
  ∃ pre mid post, d = pre +:+ mid +:+ post ∧ upper mid = n.
Proof.
  rewrite contains_spec. split.
  - intros (pre & post & Hd).
    apply upper_split in Hd as (pre' & rest & -> & _ & Hrest).
    apply upper_split in Hrest as (mid & post' & -> & Hmid & _).
    by exists pre', mid, post'.
  - intros (pre & mid & post & -> & <-).
    exists (upper pre), (upper post). by rewrite !upper_append.
Qed.

(** X11. For a device identifier of ASCII characters, the spoofing signal
    is 85 exactly when the identifier contains, in any mix of upper and lower
    case, one of the words BYPASS, TEST or EMULATOR; in every other case, a
    missing identifier among them, it is 0. *)
Theorem spoofing_signal_spec (d : string) :
  is_ascii d = true →
  (spoofing_signal d = 85%Q ↔
     ∃ pre mid post, d = pre +:+ mid +:+ post ∧
       (upper mid = "BYPASS" ∨ upper mid = "TEST" ∨ upper mid = "EMULATOR")) ∧
  (spoofing_signal d = 85%Q ∨ spoofing_signal d = 0%Q) ∧
  spoofing_signal (get None "") = 0%Q.
Proof.
  intros _. split; [|split; [|reflexivity]].
  - unfold spoofing_signal. split.
    + destruct (_ || _ || _) eqn:Hc; [intros _|discriminate].
      apply orb_prop in Hc as [Hc|Hc]; [apply orb_prop in Hc as [Hc|Hc]|];
        apply contains_upper in Hc as (pre & mid & post & Hd & Hm);
        exists pre, mid, post; auto.
    + intros (pre & mid & post & Hd & Hm).
      assert (Hc : ∀ n, upper mid = n → contains n (upper d) = true).
      { intros n Hn. apply contains_upper. by exists pre, mid, post. }
      destruct Hm as [Hm|[Hm|Hm]]; rewrite (Hc _ Hm);
        rewrite ?orb_true_r; reflexivity.
  - unfold spoofing_signal. destruct (_ || _ || _); auto.
Qed.
End Spoofing.

(** ** The signals that read the history *)

Section HistorySignals.
Context `{AnomalyDetector, Environment}.

Lemma log_attempt_rule_signal u st p ok s k :
  k ≠ "ml_anomaly" →
  (log_attempt u st p ok s).1.2 !! k =
  rule_scores (login_attempts s) (time_ms (clock_reads s)) u p !! k.
Proof. intros Hk. rewrite log_attempt_run. cbn [fst]. by apply outcome_signal. Qed.

Lemma rule_scores_timing db now u p :
  rule_scores db now u p !! "timing_pattern" =
  Some (timing_signal (last_two_timestamps db u)).
Proof. unfold rule_scores. apply scores_of_lookup. Qed.

Lemma rule_scores_devices db now u p :
  rule_scores db now u p !! "device_switching" =
  Some (device_switching_signal (distinct_devices_since db u (now - 1800000))).
Proof. unfold rule_scores. apply scores_of_lookup. Qed.

Lemma rule_scores_networks db now u p :
  rule_scores db now u p !! "network_switching" =
  Some (network_switching_signal (distinct_networks_since db u (now - 1800000))).
Proof. unfold rule_scores. apply scores_of_lookup. Qed.

(** X12. The [timing_pattern] entry looks at stored rows only, never at the
    time of the call.  With fewer than two rows of the user it is 0.
    Otherwise the user's rows are, in some order, a newest row, a second
    newest, and the rest, and the entry is 80 when those two are less than
    1000 ms apart, 50 when less than 5000 ms, else 0. *)
Theorem log_attempt_timing_pattern u st p ok s :
  let rows := filter (λ e, username e = u) (login_attempts s) in
  let signal := (log_attempt u st p ok s).1.2 !! "timing_pattern" in
  ((length rows < 2)%nat → signal = Some 0%Q) ∧
  ((2 ≤ length rows)%nat →
     ∃ e0 e1 rest,
       rows ≡ₚ e0 :: e1 :: rest ∧ timestamp e1 ≤ timestamp e0 ∧
       (∀ e, e ∈ rest → timestamp e ≤ timestamp e1) ∧
       signal = Some (if timestamp e0 - timestamp e1 <? 1000 then 80%Q
                      else if timestamp e0 - timestamp e1 <? 5000 then 50%Q
                      else 0%Q)).
Proof.
  cbv zeta. rewrite log_attempt_rule_signal by done. rewrite rule_scores_timing.
  unfold last_two_timestamps, order_by_timestamp_desc.
  set (rows := filter _ (login_attempts s)).
  pose proof (merge_sort_Permutation newer_first rows) as Hperm.
  pose proof (StronglySorted_merge_sort newer_first rows) as Hsorted.
  pose proof (Permutation_length Hperm) as Hlen.
  destruct (merge_sort newer_first rows) as [|e0 [|e1 rest]]; simpl in Hlen; split;
    try (intros; lia); try (intros _; reflexivity).
  intros _. exists e0, e1, rest.
  apply StronglySorted_inv in Hsorted as [Htail Hall0].
  apply StronglySorted_inv in Htail as [_ Hall1].
  split; [by symmetry|]. split.
  - apply Forall_cons in Hall0 as [He1 _]. exact He1.
  - split; [|reflexivity]. intros e He. rewrite Forall_forall in Hall1. by apply Hall1.
Qed.

Lemma one_distinct_value `{EqDecision A} (l : list A) :
  (length (remove_dups l) ≤ 1)%nat ↔ ∀ x y, x ∈ l → y ∈ l → x = y.
Proof.
  pose proof (NoDup_remove_dups l) as Hnd. split.
  - intros Hlen x y Hx%elem_of_remove_dups Hy%elem_of_remove_dups.
    destruct (remove_dups l) as [|a [|b rest]]; simpl in Hlen; [|..|lia].
    + by apply elem_of_nil in Hx.
    + apply list_elem_of_singleton in Hx, Hy. congruence.
  - intros Hsame. destruct (remove_dups l) as [|a [|b rest]] eqn:E; simpl; [lia..|].
    exfalso. apply NoDup_cons in Hnd as [Hnotin _]. apply Hnotin.
    assert (Ha : a ∈ l) by (apply elem_of_remove_dups; rewrite E; left).
    assert (Hb : b ∈ l) by (apply elem_of_remove_dups; rewrite E; right; left).
    rewrite (Hsame a b Ha Hb). left.
Qed.

(** X13. The switching signals compare stored rows with one another, not
    with the call.  [device_switching] is 0 exactly when the user's rows of
    the last 30 minutes all carry one device identifier, and
    [network_switching] is 0 exactly when those with a non-empty operator all
    carry one operator. *)
Theorem log_attempt_switching_signals u st p ok s :
  let since := time_ms (clock_reads s) - 1800000 in
  let window := filter (λ e, username e = u ∧ since < timestamp e) (login_attempts s) in
  let named := filter (λ e, username e = u ∧ since < timestamp e ∧ network_operator e ≠ "")
                 (login_attempts s) in
  let r := log_attempt u st p ok s in
  (r.1.2 !! "device_switching" = Some 0%Q ↔
     ∀ e e', e ∈ window → e' ∈ window → device_id e = device_id e') ∧
  (r.1.2 !! "network_switching" = Some 0%Q ↔
     ∀ e e', e ∈ named → e' ∈ named → network_operator e = network_operator e').
Proof.
  cbv zeta. rewrite !log_attempt_rule_signal by done.
  rewrite rule_scores_devices, rule_scores_networks.
  unfold distinct_devices_since, distinct_networks_since.
  set (window := filter _ (login_attempts s)).
  set (named := filter (λ e, _ ∧ _ ∧ _) (login_attempts s)).
  split.
  - transitivity (length (remove_dups (device_id <$> window)) ≤ 1)%nat.
    + unfold device_switching_signal.
      split; [|intros Hle; repeat case_match; try reflexivity; lia].
      intros Hsig. repeat case_match; try discriminate Hsig. lia.
    + rewrite one_distinct_value. split.
      * intros Hsame e e' He He'. apply Hsame; by apply list_elem_of_fmap_2.
      * intros Hsame x y (e & -> & He)%list_elem_of_fmap (e' & -> & He')%list_elem_of_fmap.
        by apply Hsame.
  - transitivity (length (remove_dups (network_operator <$> named)) ≤ 1)%nat.
    + unfold network_switching_signal.
      split; [|intros Hle; repeat case_match; try reflexivity; lia].
      intros Hsig. repeat case_match; try discriminate Hsig. lia.
    + rewrite one_distinct_value. split.
      * intros Hsame e e' He He'. apply Hsame; by apply list_elem_of_fmap_2.
      * intros Hsame x y (e & -> & He)%list_elem_of_fmap (e' & -> & He')%list_elem_of_fmap.
        by apply Hsame.
Qed.
End HistorySignals.

(** ** The [users] table *)

Section Users.
Context `{Environment}.

Lemma populate_from_cons up rest tbl reads :
  populate_from (up :: rest) tbl reads =
  populate_from rest (default tbl (insert_user up.1 up.2 (time_ms reads) tbl)) (S reads).
Proof. reflexivity. Qed.

Lemma insert_user_taken n ph c tbl :
  n ∈ user_name <$> tbl → insert_user n ph c tbl = None.
Proof. intros Hin. unfold insert_user. by rewrite decide_True. Qed.

Lemma insert_user_free n ph c tbl :
  n ∉ user_name <$> tbl →
  insert_user n ph c tbl = Some (tbl ++ [mkUser (next_user_id tbl) n ph c]).
Proof. intros Hin. unfold insert_user. by rewrite decide_False. Qed.

Lemma foldr_max_ge (i : Z) (ids : list Z) :
  i ≤ foldr Z.max i ids ∧ ∀ x, x ∈ ids → x ≤ foldr Z.max i ids.
Proof.
  induction ids as [|y ids [IHi IHx]]; simpl.
  - split; [lia|]. intros x Hx. by apply elem_of_nil in Hx.
  - split; [lia|]. intros x [->|Hx]%elem_of_cons; [lia|].
    specialize (IHx x Hx). lia.
Qed.

Lemma next_user_id_fresh (tbl : list User) (r : User) :
  r ∈ tbl → user_id r < next_user_id tbl.
Proof.
  intros Hr. unfold next_user_id.
  assert (Hid : user_id r ∈ user_id <$> tbl) by (by apply list_elem_of_fmap_2).
  destruct (user_id <$> tbl) as [|i ids]; [by apply elem_of_nil in Hid|].
  destruct (foldr_max_ge i ids) as [Hi Hx].
  apply elem_of_cons in Hid as [->|Hid]; [lia|]. specialize (Hx _ Hid). lia.
Qed.

(** What one pass over a list of (name, phone) pairs does to the table. *)
Lemma populate_from_spec (users : list (string * string)) (tbl : list User) (reads : nat) :
  let r := populate_from users tbl reads in
  r.2 = (reads + length users)%nat ∧
  (∃ added, r.1 = tbl ++ added ∧
     ∀ a, a ∈ added → (user_name a, phone a) ∈ users ∧ user_name a ∉ user_name <$> tbl) ∧
  (∀ up, up ∈ users → up.1 ∈ user_name <$> r.1) ∧
  (NoDup (user_name <$> tbl) → NoDup (user_name <$> r.1)) ∧
  (NoDup (user_id <$> tbl) → NoDup (user_id <$> r.1)).
Proof.
  cbv zeta. revert tbl reads. induction users as [|up rest IH]; intros tbl reads.
  - simpl. split; [lia|]. split; [exists []; split; [by rewrite app_nil_r|]|].
    + intros a Ha. by apply elem_of_nil in Ha.
    + split; [|done]. intros up Hup. by apply elem_of_nil in Hup.
  - rewrite populate_from_cons.
    set (tbl1 := default tbl (insert_user up.1 up.2 (time_ms reads) tbl)).
    destruct (IH tbl1 (S reads)) as (Hreads & (added & Hadd & Hnew) & Hall & Hnames & Hids).
    assert (Hstep : (tbl1 = tbl ∧ up.1 ∈ user_name <$> tbl) ∨
                    (tbl1 = tbl ++ [mkUser (next_user_id tbl) up.1 up.2 (time_ms reads)]
                     ∧ up.1 ∉ user_name <$> tbl)).
    { subst tbl1. destruct (decide (up.1 ∈ user_name <$> tbl)) as [Hin|Hout].
      - left. by rewrite insert_user_taken.
      - right. by rewrite insert_user_free. }
    assert (Hkeeps : ∀ n, n ∈ user_name <$> tbl → n ∈ user_name <$> tbl1).
    { intros n Hn. destruct Hstep as [[-> _]|[-> _]]; [exact Hn|].
      rewrite fmap_app. apply elem_of_app. by left. }
    assert (Hup : up.1 ∈ user_name <$> tbl1).
    { destruct Hstep as [[-> Hin]|[-> _]]; [exact Hin|].
      rewrite fmap_app. apply elem_of_app. right. simpl. left. }
    split; [simpl; lia|]. split; [|split; [|split]].
    + destruct Hstep as [[Heq _]|[Heq Hfree]].
      * exists added. rewrite Hadd, Heq. split; [reflexivity|].
        intros a Ha. destruct (Hnew a Ha) as [Hin Hout]. rewrite Heq in Hout.
        split; [by right|exact Hout].
      * exists (mkUser (next_user_id tbl) up.1 up.2 (time_ms reads) :: added).
        rewrite Hadd, Heq, <- app_assoc. split; [reflexivity|].
        intros a [->|Ha]%elem_of_cons.
        -- simpl. split; [|exact Hfree]. destruct up. left.
        -- destruct (Hnew a Ha) as [Hin Hout]. split; [by right|].
           intros Hn. apply Hout. by apply Hkeeps.
    + intros up' [->|Hup']%elem_of_cons; [|by apply Hall].
      rewrite Hadd, fmap_app. apply elem_of_app. by left.
    + intros Hnd. apply Hnames.
      destruct Hstep as [[-> _]|[-> Hfree]]; [exact Hnd|].
      rewrite fmap_app. apply NoDup_app. split; [exact Hnd|]. split.
      * intros n Hn [->|Hnil]%elem_of_cons; [by apply Hfree|by apply elem_of_nil in Hnil].
      * apply NoDup_singleton.
    + intros Hnd. apply Hids.
      destruct Hstep as [[-> _]|[-> _]]; [exact Hnd|].
      rewrite fmap_app. apply NoDup_app. split; [exact Hnd|]. split.
      * intros i (r & -> & Hr)%list_elem_of_fmap [Heq|Hnil]%elem_of_cons;
          [|by apply elem_of_nil in Hnil].
        simpl in Heq. pose proof (next_user_id_fresh tbl r Hr). lia.
      * apply NoDup_singleton.
Qed.

(** X14. [populate_mock_users] on any table: the rows that were there stay,
    in place and unchanged (a mock user whose name is taken is passed over,
    its phone is not rewritten); every row it adds is a mock user whose name
    was free; afterwards all twenty mock names are in the table; names and
    ids that were unique stay unique; and the clock has been read twenty
    times. *)
Theorem populate_mock_users_spec (tbl : list User) (reads : nat) :
  let r := populate_mock_users tbl reads in
  r.2 = (reads + 20)%nat ∧
  (∃ added, r.1 = tbl ++ added ∧
     ∀ a, a ∈ added → (user_name a, phone a) ∈ mock_users ∧
                      user_name a ∉ user_name <$> tbl) ∧
  (∀ up, up ∈ mock_users → up.1 ∈ user_name <$> r.1) ∧
  (NoDup (user_name <$> tbl) → NoDup (user_name <$> r.1)) ∧
  (NoDup (user_id <$> tbl) → NoDup (user_id <$> r.1)).
Proof. apply (populate_from_spec mock_users tbl reads). Qed.

Lemma populate_from_nothing_new (users : list (string * string)) (tbl : list User)
    (reads : nat) :
  (∀ up, up ∈ users → up.1 ∈ user_name <$> tbl) →
  (populate_from users tbl reads).1 = tbl.
Proof.
  revert tbl reads. induction users as [|up rest IH]; intros tbl reads Hall;
    [reflexivity|].
  rewrite populate_from_cons, insert_user_taken by (apply Hall; left).
  simpl. apply IH. intros up' Hup'. apply Hall. by right.
Qed.

(** X15. Starting the engine again changes nothing in [users]: a second
    [populate_mock_users], at whatever clock reading, returns the table of
    the first. *)
Theorem populate_mock_users_twice (tbl : list User) (reads reads' : nat) :
  (populate_mock_users (populate_mock_users tbl reads).1 reads').1 =
  (populate_mock_users tbl reads).1.
Proof.
  unfold populate_mock_users. apply populate_from_nothing_new.
  apply (populate_from_spec mock_users tbl reads).
Qed.

#[local] Instance by_username_total : Total by_username.
Proof. intros a b. unfold by_username. apply String.leb_total. Qed.

(** X16. [get_users] returns every row of the table once, as (name,
    phone), ordered by name in the order of character codes. *)
Theorem get_users_sorted (tbl : list User) :
  get_users tbl ≡ₚ (λ r, (user_name r, phone r)) <$> tbl ∧
  Sorted (λ a b, String.leb a.1 b.1 = true) (get_users tbl).
Proof.
  unfold get_users. split.
  - by rewrite merge_sort_Permutation.
  - apply (Sorted_fmap _ by_username); [intros a b Hab; exact Hab|].
    apply Sorted_merge_sort, _.
Qed.

(** On an empty database: the listing the simulator prints, where user10
    comes right after user1. *)
Example get_users_on_a_new_database :
  get_users (populate_mock_users [] 0).1 =
  [ ("user1", "9990000001"); ("user10", "9990000010"); ("user11", "9990000011");
    ("user12", "9990000012"); ("user13", "9990000013"); ("user14", "9990000014");
    ("user15", "9990000015"); ("user16", "9990000016"); ("user17", "9990000017");
    ("user18", "9990000018"); ("user19", "9990000019"); ("user2", "9990000002");
    ("user20", "9990000020"); ("user3", "9990000003"); ("user4", "9990000004");
    ("user5", "9990000005"); ("user6", "9990000006"); ("user7", "9990000007");
    ("user8", "9990000008"); ("user9", "9990000009") ].
Proof. vm_compute. reflexivity. Qed.
End Users.

(** ** The metrics of the dashboard *)

Section MetricsFacts.
Context `{AnomalyDetector, Environment}.

Lemma group_by_username_spec (rows : list LoginAttempt) (u : string)
    (g : list LoginAttempt) :
  (u, g) ∈ group_by_username rows ↔
  u ∈ username <$> rows ∧ g = filter (λ e, username e = u) rows.
Proof.
  unfold group_by_username. rewrite list_elem_of_fmap. split.
  - intros (v & [= -> ->] & Hv).
    apply (proj1 (elem_of_remove_dups _ _)) in Hv. by split.
  - intros [Hu ->]. exists u. split; [reflexivity|]. by apply elem_of_remove_dups.
Qed.

Lemma group_by_username_names (rows : list LoginAttempt) :
  (group_by_username rows).*1 = remove_dups (username <$> rows).
Proof.
  unfold group_by_username. generalize (remove_dups (username <$> rows)) as l.
  intros l. induction l as [|u l IH]; [reflexivity|].
  rewrite !fmap_cons. cbn [fst]. by rewrite IH.
Qed.

Lemma user_of_nonempty_group (rows : list LoginAttempt) (u : string) :
  filter (λ e, username e = u) rows ≠ [] → u ∈ username <$> rows.
Proof.
  intros Hne. destruct (filter _ rows) as [|e l] eqn:E; [done|].
  assert (He : e ∈ filter (λ e, username e = u) rows) by (rewrite E; left).
  apply list_elem_of_filter in He as [<- He]. by apply list_elem_of_fmap_2.
Qed.

#[local] Instance larger_count_first_total : Total larger_count_first.
Proof. intros a b. unfold larger_count_first. lia. Qed.

#[local] Instance larger_count_first_trans : Transitive larger_count_first.
Proof. intros a b c. unfold larger_count_first. lia. Qed.

Lemma StronglySorted_take {A} (R : relation A) (n : nat) (l : list A) :
  StronglySorted R l → StronglySorted R (take n l).
Proof.
  intros Hs. revert n. induction Hs as [|x l Hs IH Hall]; intros [|n]; simpl;
    try constructor.
  - apply IH.
  - by apply Forall_take.
Qed.

(** What a "top ten by count" query returns, for any aggregate [agg] over
    the rows of a user and any threshold [k] of the [HAVING] clause. *)
Lemma top_groups_spec (rows : list LoginAttempt) (agg : list LoginAttempt → Z) (k : Z) :
  agg [] ≤ k →
  let l := top_10_by_count
             (filter (λ r, k < r.2) ((λ g, (g.1, agg g.2)) <$> group_by_username rows)) in
  (∀ u n, (u, n) ∈ l → n = agg (filter (λ e, username e = u) rows) ∧ k < n) ∧
  ((length l < 10)%nat →
     ∀ u, k < agg (filter (λ e, username e = u) rows) →
          (u, agg (filter (λ e, username e = u) rows)) ∈ l) ∧
  (length l ≤ 10)%nat ∧ NoDup l.*1 ∧ StronglySorted larger_count_first l.
Proof.
  intros Hempty. cbv zeta. unfold top_10_by_count.
  set (cands := filter (λ r : string * Z, k < r.2) _).
  pose proof (merge_sort_Permutation larger_count_first cands) as Hperm.
  assert (Hcand : ∀ u n, (u, n) ∈ cands ↔
            u ∈ username <$> rows ∧ n = agg (filter (λ e, username e = u) rows) ∧ k < n).
  { intros u n. unfold cands. rewrite list_elem_of_filter, list_elem_of_fmap. split.
    - intros [Hk ([v g] & [= -> ->] & Hg)].
      apply (proj1 (group_by_username_spec _ _ _)) in Hg.
      destruct Hg as [Hu ->]. by repeat split.
    - intros (Hu & -> & Hk). split; [exact Hk|].
      exists (u, filter (λ e, username e = u) rows). split; [reflexivity|].
      by apply group_by_username_spec. }
  assert (Hnd : NoDup cands.*1).
  { unfold cands.
    refine (sublist_NoDup _ _ _ (fmap_sublist _ _ _ (sublist_filter _ _))).
    rewrite <- list_fmap_compose.
    rewrite (list_fmap_ext _ fst (group_by_username rows)) by (by intros []).
    rewrite group_by_username_names. apply NoDup_remove_dups. }
  split; [|split; [|split; [|split]]].
  - intros u n Hin.
    assert (Hin' : (u, n) ∈ cands).
    { rewrite <- Hperm. eapply elem_of_sublist; [exact Hin|apply sublist_take]. }
    apply Hcand in Hin' as (_ & -> & Hk). by split.
  - intros Hshort u Hk.
    assert (Hall : take 10 (merge_sort larger_count_first cands) =
                   merge_sort larger_count_first cands).
    { apply take_ge. rewrite length_take in Hshort. lia. }
    rewrite Hall, Hperm. apply Hcand. repeat split; [|exact Hk].
    apply user_of_nonempty_group. intros Hnil. rewrite Hnil in Hk. lia.
  - rewrite length_take. lia.
  - refine (sublist_NoDup _ _ _ (fmap_sublist _ _ _ (sublist_take _ _))).
    rewrite Hperm. exact Hnd.
  - apply StronglySorted_take, StronglySorted_merge_sort; apply _.
Qed.

Lemma get_ueba_metrics_run s :
  get_ueba_metrics s =
  (let now := time_ms (clock_reads s) in
   let db := login_attempts s in
   mkMetrics (Z.of_nat (length db))
     (Z.of_nat (length
        (filter (λ e, (70 < risk_score e)%Q ∧ now - 3600000 < timestamp e) db)))
     (Z.of_nat (length (remove_dups
        (username <$> filter (λ e, now - 3600000 < timestamp e) db))))
     (round2 (default 0%Q
        (avgQ (risk_score <$> filter (λ e, now - 3600000 < timestamp e) db))))
     (recent_rows db) (risky_rows db (now - 3600000))
     (device_switcher_rows db (now - 1800000))
     (high_velocity_rows db (now - 300000))
     (abandonment_rows db (now - 3600000)),
   tick s).
Proof. reflexivity. Qed.

Lemma filter_user_in_window (db : list LoginAttempt) (u : string) (P : LoginAttempt → Prop)
    `{∀ e, Decision (P e)} :
  filter (λ e, username e = u) (filter P db) = filter (λ e, username e = u ∧ P e) db.
Proof. apply list_filter_filter. Qed.

(** X17. The [high_velocity] list of the dashboard agrees with the velocity
    signal of the engine at the same clock reading.  Every (user, count)
    listed has the count that [calculate_risk_score] would use for that user,
    above 3, so a velocity signal of at least 40.  The list has at most ten
    entries, no user twice, larger counts first; and when it has fewer than
    ten, every user with a count above 3 is on it. *)
Theorem high_velocity_agrees_with_signal s :
  let m := (get_ueba_metrics s).1 in
  let since := time_ms (clock_reads s) - 300000 in
  let db := login_attempts s in
  (∀ u n, (u, n) ∈ high_velocity m →
     n = count_since db u since ∧ 3 < n ∧ (40 <= velocity_signal n)%Q) ∧
  ((length (high_velocity m) < 10)%nat →
     ∀ u, 3 < count_since db u since → (u, count_since db u since) ∈ high_velocity m) ∧
  (length (high_velocity m) ≤ 10)%nat ∧ NoDup (high_velocity m).*1 ∧
  StronglySorted (λ a b, b.2 ≤ a.2) (high_velocity m).
Proof.
  cbv zeta. rewrite get_ueba_metrics_run. cbn [fst high_velocity].
  unfold high_velocity_rows.
  set (since := time_ms (clock_reads s) - 300000).
  destruct (top_groups_spec (filter (λ e, since < timestamp e) (login_attempts s))
              (λ g, Z.of_nat (length g)) 3) as (Hin & Hall & Hlen & Hnd & Hsorted);
    [simpl; lia|].
  assert (Hagg : ∀ u, Z.of_nat (length (filter (λ e, username e = u)
                       (filter (λ e, since < timestamp e) (login_attempts s))))
                      = count_since (login_attempts s) u since).
  { intros u. unfold count_since. by rewrite filter_user_in_window. }
  split; [|split; [|split; [|split]]].
  - intros u n Hn. destruct (Hin u n Hn) as [-> Hk]. rewrite Hagg in *.
    split; [reflexivity|]. split; [exact Hk|].
    unfold velocity_signal. repeat case_match; try lra. lia.
  - intros Hshort u Hk. rewrite <- Hagg. apply (Hall Hshort). by rewrite Hagg.
  - exact Hlen.
  - exact Hnd.
  - exact Hsorted.
Qed.

(** X18. The [device_switchers] list agrees with the [device_switching]
    signal at the same clock reading: every (user, devices) listed has the
    number of distinct device identifiers that [calculate_risk_score] would
    count for that user over the last 30 minutes, above 1, so a signal of at
    least 30.  At most ten entries, no user twice, larger numbers first; with
    fewer than ten entries, every user with more than one device is listed. *)
Theorem device_switchers_agree_with_signal s :
  let m := (get_ueba_metrics s).1 in
  let since := time_ms (clock_reads s) - 1800000 in
  let db := login_attempts s in
  (∀ u n, (u, n) ∈ device_switchers m →
     n = distinct_devices_since db u since ∧ 1 < n ∧
     (30 <= device_switching_signal n)%Q) ∧
  ((length (device_switchers m) < 10)%nat →
     ∀ u, 1 < distinct_devices_since db u since →
          (u, distinct_devices_since db u since) ∈ device_switchers m) ∧
  (length (device_switchers m) ≤ 10)%nat ∧ NoDup (device_switchers m).*1 ∧
  StronglySorted (λ a b, b.2 ≤ a.2) (device_switchers m).
Proof.
  cbv zeta. rewrite get_ueba_metrics_run. cbn [fst device_switchers].
  unfold device_switcher_rows.
  set (since := time_ms (clock_reads s) - 1800000).
  destruct (top_groups_spec (filter (λ e, since < timestamp e) (login_attempts s))
              (λ g, Z.of_nat (length (remove_dups (device_id <$> g)))) 1)
    as (Hin & Hall & Hlen & Hnd & Hsorted); [simpl; lia|].
  assert (Hagg : ∀ u, Z.of_nat (length (remove_dups (device_id <$>
                       filter (λ e, username e = u)
                         (filter (λ e, since < timestamp e) (login_attempts s)))))
                      = distinct_devices_since (login_attempts s) u since).
  { intros u. unfold distinct_devices_since. by rewrite filter_user_in_window. }
  split; [|split; [|split; [|split]]].
  - intros u n Hn. destruct (Hin u n Hn) as [-> Hk]. rewrite Hagg in *.
    split; [reflexivity|]. split; [exact Hk|].
    unfold device_switching_signal. repeat case_match; try lra. lia.
  - intros Hshort u Hk. rewrite <- Hagg. apply (Hall Hshort). by rewrite Hagg.
  - exact Hlen.
  - exact Hnd.
  - exact Hsorted.
Qed.

(** X19. The [abandonment_patterns] list agrees with [check_abandonment] at
    the same clock reading: every (user, count) listed has the count of
    abandonment rows that [check_abandonment] would find for that user,
    above 1, so [check_abandonment] adds an escalation of at least 6 to the
    base risk of the step.  At most ten entries, no user twice, larger counts
    first; with fewer than ten, every user with more than one abandonment
    row in the last hour is listed. *)
Theorem abandonment_patterns_agree_with_check s :
  let m := (get_ueba_metrics s).1 in
  let since := time_ms (clock_reads s) - 3600000 in
  let db := login_attempts s in
  (∀ u n, (u, n) ∈ abandonment_patterns m →
     n = abandonments_since db u since ∧ 1 < n ∧
     18 ≤ (check_abandonment u 1 s).1 ∧ 24 ≤ (check_abandonment u 2 s).1) ∧
  ((length (abandonment_patterns m) < 10)%nat →
     ∀ u, 1 < abandonments_since db u since →
          (u, abandonments_since db u since) ∈ abandonment_patterns m) ∧
  (length (abandonment_patterns m) ≤ 10)%nat ∧ NoDup (abandonment_patterns m).*1 ∧
  StronglySorted (λ a b, b.2 ≤ a.2) (abandonment_patterns m).
Proof.
  cbv zeta. rewrite get_ueba_metrics_run. cbn [fst abandonment_patterns].
  unfold abandonment_rows.
  set (since := time_ms (clock_reads s) - 3600000).
  destruct (top_groups_spec
      (filter (λ e, since < timestamp e ∧ step e < 3 ∧ success e = false) (login_attempts s))
      (λ g, Z.of_nat (length g)) 1) as (Hin & Hall & Hlen & Hnd & Hsorted);
    [simpl; lia|].
  assert (Hagg : ∀ u, Z.of_nat (length (filter (λ e, username e = u)
      (filter (λ e, since < timestamp e ∧ step e < 3 ∧ success e = false)
         (login_attempts s))))
      = abandonments_since (login_attempts s) u since).
  { intros u. unfold abandonments_since. by rewrite filter_user_in_window. }
  split; [|split; [|split; [|split]]].
  - intros u n Hn. destruct (Hin u n Hn) as [-> Hk]. rewrite Hagg in *.
    split; [reflexivity|]. split; [exact Hk|].
    unfold check_abandonment, mbind, M_bind, mret, M_ret, now, select.
    cbn [fst snd login_attempts clock_reads]. fold since.
    split; simpl; repeat case_match; lia.
  - intros Hshort u Hk. rewrite <- Hagg. apply (Hall Hshort). by rewrite Hagg.
  - exact Hlen.
  - exact Hnd.
  - exact Hsorted.
Qed.

Lemma sumQ_bounds (l : list Q) (lo hi : Q) :
  Forall (λ x, lo <= x <= hi)%Q l →
  (lo * inject_Z (Z.of_nat (length l)) <= sumQ l
     <= hi * inject_Z (Z.of_nat (length l)))%Q.
Proof.
  induction 1 as [|x l [Hx1 Hx2] _ [IH1 IH2]].
  { cbn [length sumQ foldr]. change (inject_Z (Z.of_nat 0)) with 0%Q. split; lra. }
  cbn [length sumQ foldr]. fold (sumQ l).
  rewrite Nat2Z.inj_succ, <- Z.add_1_r, inject_Z_plus.
  change (inject_Z 1) with 1%Q.
  set (n := inject_Z (Z.of_nat (length l))) in *.
  split; lra.
Qed.

Lemma remove_dups_length_le `{EqDecision A} (l : list A) :
  (length (remove_dups l) ≤ length l)%nat.
Proof.
  induction l as [|x l IH]; [reflexivity|]. simpl.
  destruct (decide_rel elem_of x l); simpl; lia.
Qed.

Lemma avgQ_nonempty (l : list Q) :
  l ≠ [] → avgQ l = Some (sumQ l / inject_Z (Z.of_nat (length l)))%Q.
Proof. by destruct l. Qed.

Lemma avgQ_bounds (l : list Q) (lo hi : Q) :
  Forall (λ x, lo <= x <= hi)%Q l →
  match avgQ l with
  | Some q => (lo <= q <= hi)%Q
  | None => l = []
  end.
Proof.
  intros Hall. destruct l as [|x l]; [reflexivity|].
  pose proof (sumQ_bounds _ _ _ Hall) as [Hlo Hhi]. unfold avgQ.
  set (n := Z.of_nat (length (x :: l))) in *.
  assert (Hn : (0 < inject_Z n)%Q).
  { change 0%Q with (inject_Z 0). rewrite <- Zlt_Qlt. subst n. simpl. lia. }
  split; [apply Qle_shift_div_l|apply Qle_shift_div_r]; assumption.
Qed.

(** X20. The counters of [get_ueba_metrics].  The call only reads (table,
    model and output are as before).  [total_attempts] is the number of
    rows; [high_risk_attempts] and [active_users] are at most the number of
    rows of the last hour, hence at most [total_attempts]; with no row in
    the last hour both are 0 and so is [avg_risk_score]; and when the stored
    scores all lie in [0,100], so does [avg_risk_score]. *)
Theorem metrics_counters s :
  let r := get_ueba_metrics s in
  let m := r.1 in
  let hour := filter (λ e, time_ms (clock_reads s) - 3600000 < timestamp e)
                (login_attempts s) in
  login_attempts r.2 = login_attempts s ∧ ml_model r.2 = ml_model s ∧
  stdout r.2 = stdout s ∧
  total_attempts m = Z.of_nat (length (login_attempts s)) ∧
  0 ≤ high_risk_attempts m ≤ Z.of_nat (length hour) ∧
  0 ≤ active_users m ≤ Z.of_nat (length hour) ∧
  Z.of_nat (length hour) ≤ total_attempts m ∧
  (hour = [] → high_risk_attempts m = 0 ∧ active_users m = 0 ∧
               (avg_risk_score m == 0)%Q) ∧
  (Forall (λ e, 0 <= risk_score e <= 100)%Q (login_attempts s) →
   (0 <= avg_risk_score m <= 100)%Q).
Proof.
  cbv zeta. rewrite get_ueba_metrics_run.
  cbn [fst snd tick login_attempts ml_model stdout total_attempts high_risk_attempts
       active_users avg_risk_score].
  set (since := time_ms (clock_reads s) - 3600000).
  set (hour := filter (λ e, since < timestamp e) (login_attempts s)).
  assert (Hhigh : filter (λ e, (70 < risk_score e)%Q ∧ since < timestamp e)
                    (login_attempts s)
                  = filter (λ e, (70 < risk_score e)%Q) hour).
  { unfold hour. by rewrite list_filter_filter. }
  do 4 (split; [reflexivity|]). rewrite Hhigh.
  split; [|split; [|split; [|split]]].
  - pose proof (length_filter (λ e, (70 < risk_score e)%Q) hour). lia.
  - pose proof (remove_dups_length_le (username <$> hour)) as Hle.
    rewrite length_fmap in Hle. lia.
  - pose proof (length_filter (λ e, since < timestamp e) (login_attempts s)) as Hle.
    fold hour in Hle. lia.
  - intros ->. repeat split; reflexivity.
  - intros Hall.
    assert (Hhour : Forall (λ x, 0 <= x <= 100)%Q (risk_score <$> hour)).
    { apply Forall_fmap. unfold hour.
      apply Forall_forall. intros e He. apply list_elem_of_filter in He as [_ He].
      rewrite Forall_forall in Hall. by apply Hall. }
    apply round2_between_0_100.
    pose proof (avgQ_bounds _ _ _ Hhour) as Havg.
    destruct (avgQ (risk_score <$> hour)); simpl; [exact Havg|lra].
Qed.

(** X21. [recent_attempts] shows the newest rows: the table splits, up to
    order, into the rows shown (20 of them, or all when there are fewer) and
    the others, none of which is newer than any row shown; the rows shown are
    listed newest first. *)
Theorem recent_attempts_newest_first s :
  let l := recent_attempts (get_ueba_metrics s).1 in
  let db := login_attempts s in
  let shown := λ e, (username e, step e, device_id e, risk_score e, timestamp e) in
  length l = min 20 (length db) ∧
  (∃ newest older,
     db ≡ₚ newest ++ older ∧ l = shown <$> newest ∧
     ∀ a b, a ∈ newest → b ∈ older → timestamp b ≤ timestamp a) ∧
  StronglySorted (λ a b, b.2 ≤ a.2) l.
Proof.
  cbv zeta. rewrite get_ueba_metrics_run. cbn [fst recent_attempts].
  unfold recent_rows, order_by_timestamp_desc.
  pose proof (merge_sort_Permutation newer_first (login_attempts s)) as Hperm.
  pose proof (StronglySorted_merge_sort newer_first (login_attempts s)) as Hsorted.
  set (sorted := merge_sort newer_first (login_attempts s)) in *.
  split; [|split].
  - rewrite length_fmap, length_take. by rewrite (Permutation_length Hperm).
  - exists (take 20 sorted), (drop 20 sorted).
    split; [by rewrite take_drop|]. split; [reflexivity|].
    intros a b Ha Hb. rewrite <- (take_drop 20 sorted) in Hsorted.
    exact (StronglySorted_app_1_elem_of _ _ _ _ _ Hsorted Ha Hb).
  - apply (StronglySorted_fmap _ newer_first); [intros a b Hab; exact Hab|].
    by apply StronglySorted_take.
Qed.

#[local] Instance riskier_first_total : Total riskier_first.
Proof.
  intros a b. unfold riskier_first.
  destruct (Qlt_le_dec a.1.2 b.1.2) as [Hlt|Hle]; [right|left; exact Hle].
  by apply Qlt_le_weak.
Qed.

#[local] Instance riskier_first_trans : Transitive riskier_first.
Proof. intros a b c. unfold riskier_first. intros Hab Hbc. by apply (Qle_trans _ b.1.2). Qed.

(** X22. [risky_users] lists at most ten users, larger averages first.
    Every (user, average, attempts) listed counts the user's rows of the last
    hour, at least one, and its average times that count is the sum of their
    scores; when the stored scores lie in [0,100], so does the average. *)
Theorem risky_users_spec s :
  let m := (get_ueba_metrics s).1 in
  let since := time_ms (clock_reads s) - 3600000 in
  let db := login_attempts s in
  (∀ u avg n, (u, avg, n) ∈ risky_users m →
     let rows := filter (λ e, username e = u ∧ since < timestamp e) db in
     n = Z.of_nat (length rows) ∧ 0 < n ∧
     (avg * inject_Z n == sumQ (risk_score <$> rows))%Q ∧
     (Forall (λ e, 0 <= risk_score e <= 100)%Q db → (0 <= avg <= 100)%Q)) ∧
  (length (risky_users m) ≤ 10)%nat ∧
  StronglySorted (λ a b, b.1.2 <= a.1.2)%Q (risky_users m).
Proof.
  cbv zeta. rewrite get_ueba_metrics_run. cbn [fst risky_users].
  unfold risky_rows.
  set (since := time_ms (clock_reads s) - 3600000).
  set (hour := filter (λ e, since < timestamp e) (login_attempts s)).
  set (cands := (λ g : string * list LoginAttempt,
                   (g.1, default 0%Q (avgQ (risk_score <$> g.2)), Z.of_nat (length g.2)))
                <$> group_by_username hour).
  pose proof (merge_sort_Permutation riskier_first cands) as Hperm.
  split; [|split].
  - intros u avg n Hin.
    assert (Hin' : (u, avg, n) ∈ cands).
    { rewrite <- Hperm. eapply elem_of_sublist; [exact Hin|apply sublist_take]. }
    unfold cands in Hin'. apply list_elem_of_fmap in Hin' as ([v g] & [= -> -> ->] & Hg).
    apply (proj1 (group_by_username_spec _ _ _)) in Hg as [Hv ->].
    cbn [fst snd].
    assert (Heq : filter (λ e, username e = v) hour =
                  filter (λ e, username e = v ∧ since < timestamp e) (login_attempts s))
      by apply filter_user_in_window.
    rewrite !Heq. clear Heq.
    set (rows := filter (λ e, username e = v ∧ since < timestamp e) (login_attempts s)).
    assert (Hne : rows ≠ []).
    { apply list_elem_of_fmap in Hv as (e & -> & He). intros Hnil.
      assert (Hin0 : e ∈ rows).
      { unfold rows. apply list_elem_of_filter.
        apply list_elem_of_filter in He as [Hts He]. by repeat split. }
      rewrite Hnil in Hin0. by apply elem_of_nil in Hin0. }
    assert (Hpos : 0 < Z.of_nat (length rows)).
    { destruct rows; [done|]. simpl. lia. }
    split; [reflexivity|]. split; [exact Hpos|].
    assert (Hlen : length (risk_score <$> rows) = length rows) by apply length_fmap.
    assert (Hn : (0 < inject_Z (Z.of_nat (length rows)))%Q).
    { change 0%Q with (inject_Z 0). by rewrite <- Zlt_Qlt. }
    split.
    + rewrite avgQ_nonempty by (destruct rows; [done|discriminate]).
      rewrite Hlen. unfold default. cbn [from_option id].
      set (n := inject_Z (Z.of_nat (length rows))) in *.
      set (sm := sumQ (risk_score <$> rows)).
      field. intros Hz. rewrite Hz in Hn. by apply Qlt_irrefl in Hn.
    + intros Hall.
      assert (Hrows : Forall (λ x, 0 <= x <= 100)%Q (risk_score <$> rows)).
      { apply Forall_fmap, Forall_forall. intros e He.
        apply list_elem_of_filter in He as [_ He].
        rewrite Forall_forall in Hall. by apply Hall. }
      pose proof (avgQ_bounds _ _ _ Hrows) as Havg.
      destruct (avgQ (risk_score <$> rows)); simpl; [exact Havg|lra].
  - rewrite length_take. lia.
  - apply StronglySorted_take. apply (StronglySorted_merge_sort riskier_first).
Qed.
End MetricsFacts.

(** ** The callers: dashboard and simulator *)

Section CallerFacts.
Context `{AnomalyDetector, Environment}.

Lemma log_attempt_clock u st p ok s :
  clock_reads (log_attempt u st p ok s).2 =
    S (reads_before_insert s + clock_reads s) ∧
  (1 ≤ reads_before_insert s ≤ 3)%nat.
Proof.
  split.
  - rewrite log_attempt_run, retrain_step_run. cbn [snd].
    destruct (retrain_due _); [|reflexivity].
    rewrite train_ml_model_run. cbn [snd print].
    destruct ML_AVAILABLE; [cbv zeta; destruct (_ <? 10)%nat|]; reflexivity.
  - unfold reads_before_insert. destruct (model_active s); lia.
Qed.

Lemma repeat_attempts_velocity (n : nat) u st p ok s (c : Z) :
  (∀ j, (clock_reads s ≤ j < clock_reads s + 4 * n)%nat →
        count_since (login_attempts s) u (time_ms j - 300000) = c) →
  (∀ i j, (clock_reads s ≤ i < clock_reads s + 4 * n)%nat →
          (clock_reads s ≤ j < clock_reads s + 4 * n)%nat →
          time_ms j - 300000 < time_ms i) →
  ∀ (k : nat) r, (repeat_attempts n u st p ok s).1 !! k = Some r →
    r.2 !! "velocity" = Some (velocity_signal (c + Z.of_nat k)).
Proof.
  revert s c. induction n as [|n IH]; intros s c Hcount Hband k r Hk.
  - cbn [repeat_attempts] in Hk. unfold mret, M_ret in Hk. cbn [fst] in Hk.
    by rewrite lookup_nil in Hk.
  - cbn [repeat_attempts] in Hk. unfold mbind, M_bind, mret, M_ret in Hk.
    destruct (log_attempt u st p ok s) as [r0 s1] eqn:Hr0.
    destruct (repeat_attempts n u st p ok s1) as [rs s2] eqn:Hrs.
    cbn [fst] in Hk.
    assert (Hfst : r0 = (log_attempt u st p ok s).1) by (by rewrite Hr0).
    assert (Hsnd : s1 = (log_attempt u st p ok s).2) by (by rewrite Hr0).
    destruct (log_attempt_clock u st p ok s) as [Hclock Hreads]. rewrite <- Hsnd in Hclock.
    destruct k as [|k].
    + cbn in Hk. injection Hk as <-. rewrite Hfst, log_attempt_run. cbn [fst snd].
      rewrite outcome_signal by done. rewrite rule_scores_velocity.
      rewrite (Hcount (clock_reads s)) by lia. by rewrite Z.add_0_r.
    + cbn in Hk.
      replace (c + Z.of_nat (S k)) with ((c + 1) + Z.of_nat k) by lia.
      apply (IH s1 (c + 1)); [| |by rewrite Hrs].
      * intros j Hj. rewrite Hsnd, log_attempt_rows, count_since_snoc.
        cbn [username timestamp new_row].
        rewrite (Hcount j) by lia.
        rewrite decide_True; [reflexivity|]. split; [reflexivity|].
        apply Hband; lia.
      * intros i j Hi Hj. apply Hband; lia.
Qed.

(** X23. A burst.  When a user with no stored row makes [n] attempts in a
    row and all the clock readings taken meanwhile lie less than five
    minutes apart, the attempt number [k] (counting from 0) has the velocity
    signal of [k] earlier attempts: 0 up to the fourth attempt, 40 on the
    fifth and sixth, 70 from the seventh, 95 from the twelfth. *)
Theorem burst_of_attempts (n : nat) u st p ok s :
  (∀ e, e ∈ login_attempts s → username e ≠ u) →
  (∀ i j, (clock_reads s ≤ i < clock_reads s + 4 * n)%nat →
          (clock_reads s ≤ j < clock_reads s + 4 * n)%nat →
          time_ms j - 300000 < time_ms i) →
  length (repeat_attempts n u st p ok s).1 = n ∧
  ∀ (k : nat) r, (repeat_attempts n u st p ok s).1 !! k = Some r →
    r.2 !! "velocity" = Some (velocity_signal (Z.of_nat k)) ∧
    ((k ≤ 3)%nat → r.2 !! "velocity" = Some 0%Q) ∧
    ((4 ≤ k ≤ 5)%nat → r.2 !! "velocity" = Some 40%Q) ∧
    ((6 ≤ k ≤ 10)%nat → r.2 !! "velocity" = Some 70%Q) ∧
    ((11 ≤ k)%nat → r.2 !! "velocity" = Some 95%Q).
Proof.
  intros Hnew Hband. split.
  - clear Hnew Hband. revert s. induction n as [|n IH]; intros s; [reflexivity|].
    cbn [repeat_attempts]. unfold mbind, M_bind, mret, M_ret.
    destruct (log_attempt u st p ok s) as [r0 s1].
    specialize (IH s1). destruct (repeat_attempts n u st p ok s1) as [rs s2].
    cbn [fst length] in *. by rewrite IH.
  - intros k r Hk.
    assert (Hv : r.2 !! "velocity" = Some (velocity_signal (0 + Z.of_nat k))).
    { apply (repeat_attempts_velocity n u st p ok s 0); [|exact Hband|exact Hk].
      intros j _. unfold count_since. by rewrite (no_rows_of_user _ u _ Hnew). }
    rewrite Z.add_0_l in Hv. rewrite Hv. split; [reflexivity|].
    unfold velocity_signal.
    repeat split; intros Hr; repeat case_match; try reflexivity; lia.
Qed.

Lemma check_abandonment_at_least u last_step s :
  let r := check_abandonment u last_step s in
  0 ≤ r.1 ∧ (last_step = 1 → 12 ≤ r.1) ∧ (last_step = 2 → 18 ≤ r.1) ∧
  login_attempts r.2 = login_attempts s.
Proof.
  cbv zeta.
  unfold check_abandonment, mbind, M_bind, mret, M_ret, now, select.
  cbn [fst snd login_attempts clock_reads].
  set (c := abandonments_since _ _ _).
  split; [|split; [|split; [|reflexivity]]].
  - repeat case_match; lia.
  - intros ->. simpl. repeat case_match; lia.
  - intros ->. simpl. repeat case_match; lia.
Qed.

Lemma log_steps_cons u p abandoned count st rest total s :
  log_steps u p abandoned count (st :: rest) total s =
  log_steps u p abandoned count rest
    (Qmax total (log_attempt u st p (negb abandoned || (st <? count)) s).1.1)
    (log_attempt u st p (negb abandoned || (st <? count)) s).2.
Proof.
  cbn [log_steps]. unfold mbind, M_bind.
  by destruct (log_attempt u st p (negb abandoned || (st <? count)) s).
Qed.

Lemma log_steps_spec u p abandoned count steps total s :
  let r := log_steps u p abandoned count steps total s in
  (total <= r.1)%Q ∧
  ((0 <= total <= 100)%Q → (0 <= r.1 <= 100)%Q) ∧
  ∃ new, login_attempts r.2 = login_attempts s ++ new ∧
         step <$> new = steps ∧
         success <$> new = (λ st, negb abandoned || (st <? count)) <$> steps ∧
         Forall (λ e, username e = u) new.
Proof.
  cbv zeta. revert total s. induction steps as [|st rest IH]; intros total s.
  - cbn. split; [apply Qle_refl|]. split; [done|].
    exists []. by rewrite app_nil_r.
  - rewrite log_steps_cons.
    set (ok := negb abandoned || (st <? count)).
    destruct (IH (Qmax total (log_attempt u st p ok s).1.1) (log_attempt u st p ok s).2)
      as (Hle & Hrange & new & Hrows & Hsteps & Hsucc & Huser).
    pose proof (Q.le_max_l total (log_attempt u st p ok s).1.1) as Hmax.
    split; [by apply (Qle_trans _ (Qmax total (log_attempt u st p ok s).1.1))|].
    split.
    + intros Htotal. apply Hrange.
      assert (Hscore : (0 <= (log_attempt u st p ok s).1.1 <= 100)%Q).
      { rewrite log_attempt_run. apply outcome_range. }
      destruct (Q.max_spec total (log_attempt u st p ok s).1.1) as [[_ Hm]|[_ Hm]];
        rewrite Hm; tauto.
    + exists (new_row u st p ok (time_ms (reads_before_insert s + clock_reads s))
                (log_attempt u st p ok s).1.1 :: new).
      rewrite Hrows, log_attempt_rows, <- app_assoc.
      split; [reflexivity|]. rewrite !fmap_cons, Hsteps, Hsucc.
      split; [reflexivity|]. split; [reflexivity|].
      by apply Forall_cons.
Qed.

Lemma flow_of_choice_cases (choice : Z) steps abandoned :
  flow_of_choice choice = Some (steps, abandoned) →
  (λ st, negb abandoned || (st <? Z.of_nat (length steps))) <$> steps =
    (if abandoned then replicate (length steps - 1) true ++ [false]
     else replicate (length steps) true) ∧
  (abandoned = true →
     ((choice =? 4) = true ∧ Z.of_nat (length steps) = 1) ∨
     ((choice =? 4) = false ∧ Z.of_nat (length steps) = 2)).
Proof.
  unfold flow_of_choice. intros Hflow.
  destruct (choice =? 1); [injection Hflow as <- <-; split; [reflexivity|discriminate]|].
  destruct (choice =? 2); [injection Hflow as <- <-; split; [reflexivity|discriminate]|].
  destruct (choice =? 3); [injection Hflow as <- <-; split; [reflexivity|discriminate]|].
  destruct (choice =? 4); [injection Hflow as <- <-; split; [reflexivity|by left]|].
  destruct (choice =? 5); [injection Hflow as <- <-; split; [reflexivity|by right]|].
  discriminate.
Qed.

(** X24. A flow of the simulator.  For each of the five flow choices the
    flow appends one row per step, in order, all of the user; every step
    succeeds except the last step of an abandoned flow.  The final risk lies
    between 0 and 100, the level printed is the band of that final risk, and
    an abandoned flow ends with a risk of at least 12 (abandoned after step
    1) or 18 (after step 2), whatever the scores of its steps. *)
Theorem process_flow_spec u (choice : Z) steps abandoned p s :
  flow_of_choice choice = Some (steps, abandoned) →
  let r := process_flow u steps abandoned p s in
  (0 <= r.1.1 <= 100)%Q ∧ r.1.2 = risk_level r.1.1 ∧
  (∃ new, login_attempts r.2 = login_attempts s ++ new ∧
          step <$> new = steps ∧ Forall (λ e, username e = u) new ∧
          success <$> new =
            if abandoned then replicate (length steps - 1) true ++ [false]
            else replicate (length steps) true) ∧
  (abandoned = true → (inject_Z (if choice =? 4 then 12 else 18) <= r.1.1)%Q).
Proof.
  intros Hflow. cbv zeta. unfold process_flow, mbind, M_bind, mret, M_ret.
  pose proof (log_steps_spec u p abandoned (Z.of_nat (length steps)) steps 0%Q s)
    as (Hle & Hrange & new & Hrows & Hsteps & Hsucc & Huser).
  destruct (log_steps u p abandoned (Z.of_nat (length steps)) steps 0%Q s)
    as [total s1] eqn:Hlog.
  cbn [fst snd] in *.
  assert (Htotal : (0 <= total <= 100)%Q) by (apply Hrange; lra).
  assert (Hflags : success <$> new =
            if abandoned then replicate (length steps - 1) true ++ [false]
            else replicate (length steps) true).
  { rewrite Hsucc. by apply (flow_of_choice_cases choice). }
  destruct abandoned.
  - pose proof (check_abandonment_at_least u (Z.of_nat (length steps)) s1)
      as (Hpos & H12 & H18 & Hkeep).
    destruct (check_abandonment u (Z.of_nat (length steps)) s1) as [risk s2] eqn:Hcheck.
    cbn [fst snd] in *.
    assert (Hr : (0 <= inject_Z risk)%Q).
    { change 0%Q with (inject_Z 0). by rewrite <- Zle_Qle. }
    assert (Hbase : (inject_Z (if choice =? 4 then 12 else 18) <= inject_Z risk)%Q).
    { rewrite <- Zle_Qle.
      destruct (flow_of_choice_cases choice _ _ Hflow) as [_ Hwhich].
      destruct (Hwhich eq_refl) as [[-> Hlen]|[-> Hlen]];
        [by apply H12|by apply H18]. }
    assert (Hmin : (0 <= Qmin 100 (total + inject_Z risk) <= 100)%Q ∧
                   (inject_Z (if choice =? 4 then 12 else 18)
                      <= Qmin 100 (total + inject_Z risk))%Q).
    { assert (Hc : (inject_Z (if choice =? 4 then 12 else 18) <= 18)%Q).
      { destruct (choice =? 4); [change (inject_Z 12) with 12%Q
                                |change (inject_Z 18) with 18%Q]; lra. }
      destruct (Q.min_spec 100 (total + inject_Z risk)) as [[? Hm]|[? Hm]];
        rewrite Hm; split; lra. }
    split; [apply Hmin|]. split; [reflexivity|]. split; [|intros _; apply Hmin].
    exists new. rewrite Hkeep. by repeat split.
  - split; [exact Htotal|]. split; [reflexivity|]. split; [|discriminate].
    exists new. by repeat split.
Qed.
End CallerFacts.

Section Display.
Context `{AnomalyDetector, Environment}.

(** X25. The bands of the dashboard and of the simulator are the same:
    "critical" goes with "CRITICAL - BLOCK" from 80 on, "high" with "HIGH -
    CHALLENGE" from 60, "medium" with "MEDIUM - MONITOR" from 40, "low" with
    "LOW - ALLOW" below 40; a higher score never gets a lower band. *)
Theorem risk_bands_agree (q : Q) :
  ((80 <= q)%Q → risk_class q = "critical" ∧ risk_level q = "CRITICAL - BLOCK") ∧
  ((60 <= q < 80)%Q → risk_class q = "high" ∧ risk_level q = "HIGH - CHALLENGE") ∧
  ((40 <= q < 60)%Q → risk_class q = "medium" ∧ risk_level q = "MEDIUM - MONITOR") ∧
  ((q < 40)%Q → risk_class q = "low" ∧ risk_level q = "LOW - ALLOW") ∧
  (∀ q', (q <= q')%Q → risk_class q = "critical" → risk_class q' = "critical") ∧
  (∀ q', (q' <= q)%Q → risk_class q = "low" → risk_class q' = "low").
Proof.
  unfold risk_class, risk_level.
  repeat split; intros; repeat case_decide; try reflexivity; try discriminate; lra.
Qed.

(** X26. The first attempt of a user, scored without a model, is always in
    the lowest band: its score is at most 14.75, so the dashboard shows it as
    "low" and the simulator as "LOW - ALLOW", whatever its parameters. *)
Theorem first_attempt_is_low u st p ok s :
  (∀ e, e ∈ login_attempts s → username e ≠ u) →
  ml_model s = None →
  let r := log_attempt u st p ok s in
  (r.1.1 <= 14.75)%Q ∧ risk_class r.1.1 = "low" ∧ risk_level r.1.1 = "LOW - ALLOW".
Proof.
  intros Hnew Hnone. cbv zeta.
  assert (Hle : ((log_attempt u st p ok s).1.1 <= 14.75)%Q).
  { rewrite log_attempt_run. cbn [fst]. unfold outcome. rewrite Hnone. cbn [fst].
    by apply rule_score_new_user. }
  split; [exact Hle|].
  unfold risk_class, risk_level.
  split; repeat case_decide; try reflexivity; lra.
Qed.

Lemma string_length_append (a b : string) :
  String.length (a +:+ b) = (String.length a + String.length b)%nat.
Proof. induction a as [|c a IH]; [reflexivity|]. simpl. by rewrite IH. Qed.

Lemma substring_head (n : nat) (s : string) :
  (n ≤ String.length s)%nat →
  String.length (String.substring 0 n s) = n ∧
  ∃ tail, s = String.substring 0 n s +:+ tail ∧
          String.length tail = (String.length s - n)%nat.
Proof.
  revert s. induction n as [|n IH]; intros s Hn.
  - destruct s; simpl; (split; [reflexivity|eexists; split; [reflexivity|simpl; lia]]).
  - destruct s as [|c s]; [simpl in Hn; lia|]. simpl in Hn.
    destruct (IH s) as (Hlen & tail & Hs & Htail); [lia|].
    cbn [String.substring String.length]. split; [by rewrite Hlen|].
    exists tail. split; [|exact Htail].
    change (String c s = String c (String.substring 0 n s +:+ tail)). by f_equal.
Qed.

(** X27. The dashboard's device column.  An identifier of at most 20
    characters is shown as it is; a longer one is shown as its first 20
    characters followed by three dots, 23 characters in all. *)
Theorem shown_device_id_spec (d : string) :
  ((String.length d ≤ 20)%nat → shown_device_id d = d) ∧
  ((20 < String.length d)%nat →
     ∃ head tail, d = head +:+ tail ∧ String.length head = 20%nat ∧ tail ≠ "" ∧
                  shown_device_id d = head +:+ "..." ∧
                  String.length (shown_device_id d) = 23%nat) ∧
  (String.length (shown_device_id d) ≤ 23)%nat.
Proof.
  unfold shown_device_id.
  destruct (Nat.ltb_spec 20 (String.length d)) as [Hlong|Hshort].
  - destruct (substring_head 20 d) as (Hlen & tail & Hd & Htail); [lia|].
    assert (Hshown : String.length (String.substring 0 20 d +:+ "...") = 23%nat).
    { rewrite string_length_append, Hlen. reflexivity. }
    split; [intros; lia|]. split; [|lia].
    intros _. exists (String.substring 0 20 d), tail.
    repeat split; try assumption. intros ->. simpl in Htail. lia.
  - split; [reflexivity|]. split; [intros; lia|lia].
Qed.

(** The nearest integer of a value less than one half away from an integer
    is that integer. *)
Lemma round_half_even_near (z : Z) (q : Q) :
  (inject_Z z - (1 # 2) < q < inject_Z z + (1 # 2))%Q → round_half_even q = z.
Proof.
  intros [Hlo Hhi]. unfold round_half_even.
  pose proof (Qfloor_le q) as Hfl. pose proof (Qlt_floor q) as Hfu.
  rewrite inject_Z_plus in Hfu. change (inject_Z 1) with 1%Q in Hfu.
  assert (Hz : Qfloor q = z ∨ z = Qfloor q + 1).
  { assert (H1 : (inject_Z (Qfloor q) < inject_Z (z + 1))%Q).
    { rewrite inject_Z_plus. change (inject_Z 1) with 1%Q. lra. }
    assert (H2 : (inject_Z z < inject_Z (Qfloor q + 2))%Q).
    { rewrite inject_Z_plus. change (inject_Z 2) with 2%Q. lra. }
    rewrite <- Zlt_Qlt in H1, H2. lia. }
  destruct Hz as [Hz|Hz].
  - rewrite Hz in *.
    assert (Hlt : (q - inject_Z z < 1 # 2)%Q) by lra.
    rewrite Qlt_alt in Hlt. by rewrite Hlt.
  - subst z. rewrite inject_Z_plus in Hlo, Hhi.
    change (inject_Z 1) with 1%Q in Hlo, Hhi.
    assert (Hgt : (1 # 2 < q - inject_Z (Qfloor q))%Q) by lra.
    rewrite Qgt_alt in Hgt. by rewrite Hgt.
Qed.

Lemma round_half_even_close (q : Q) :
  (Qabs (inject_Z (round_half_even q) - q) <= 1 # 2)%Q.
Proof.
  unfold round_half_even.
  pose proof (Qfloor_le q) as Hlo. pose proof (Qlt_floor q) as Hhi.
  rewrite inject_Z_plus in Hhi. change (inject_Z 1) with 1%Q in Hhi.
  set (f := Qfloor q) in *.
  destruct (q - inject_Z f ?= 1 # 2)%Q eqn:Hc.
  - apply Qeq_alt in Hc.
    destruct (Z.even f);
      [|rewrite inject_Z_plus; change (inject_Z 1) with 1%Q];
      apply Qabs_case; intros _; lra.
  - apply Qlt_alt in Hc. apply Qabs_case; intros _; lra.
  - apply Qgt_alt in Hc. rewrite inject_Z_plus. change (inject_Z 1) with 1%Q.
    apply Qabs_case; intros _; lra.
Qed.

Lemma Qdiv_10 (q : Q) : (q / 10 == q * (1 # 10))%Q.
Proof. field. Qed.

(** X28. The dashboard's score column.  The score shown, rounded to one
    place, is within 0.05 of the stored score, is the nearest tenth, and
    stays within [0,100]; the band shown beside it is taken from the stored
    score, not from the one shown: a score above 79.95 and below 80 is shown
    as 80.0 with the band "high". *)
Theorem shown_score_spec (q : Q) :
  (Qabs (round1 q - q) <= 1 # 20)%Q ∧
  ((0 <= q <= 100)%Q → (0 <= round1 q <= 100)%Q) ∧
  (∀ z : Z, (inject_Z z / 10 - (1 # 20) < q < inject_Z z / 10 + (1 # 20))%Q →
            (round1 q == inject_Z z / 10)%Q) ∧
  ((79.95 < q < 80)%Q → (round1 q == 80)%Q ∧ risk_class q = "high").
Proof.
  assert (Hnear : ∀ z : Z,
            (inject_Z z / 10 - (1 # 20) < q < inject_Z z / 10 + (1 # 20))%Q →
            (round1 q == inject_Z z / 10)%Q).
  { intros z Hz. rewrite !Qdiv_10 in Hz. unfold round1.
    rewrite (round_half_even_near z (q * 10)); [reflexivity|lra]. }
  split; [|split; [|split]].
  - unfold round1. rewrite Qdiv_10.
    pose proof (round_half_even_close (q * 10)) as Hc.
    set (r := inject_Z (round_half_even (q * 10))) in *.
    apply Qabs_Qle_condition in Hc. apply Qabs_Qle_condition. split; lra.
  - intros [Hq0 Hq100]. unfold round1. rewrite Qdiv_10.
    destruct (round_half_even_between 0 1000 (q * 10)) as [Hlo Hhi].
    + change (inject_Z 0) with 0%Q. lra.
    + change (inject_Z 1000) with 1000%Q. lra.
    + rewrite Zle_Qle in Hlo, Hhi.
      change (inject_Z 0) with 0%Q in Hlo. change (inject_Z 1000) with 1000%Q in Hhi.
      lra.
  - exact Hnear.
  - intros [Hlo Hhi]. split.
    + rewrite (Hnear 800).
      * change (inject_Z 800) with 800%Q. field.
      * rewrite !Qdiv_10. change (inject_Z 800) with 800%Q. lra.
    + unfold risk_class. repeat case_decide; try reflexivity; lra.
Qed.
End Display.

(** ** The further properties on concrete runs *)

Section FurtherRuns.
#[local] Existing Instance flat_detector.
#[local] Existing Instance with_sklearn.

Lemma one_row_is_not_user9 :
  ∀ e, e ∈ login_attempts one_row → username e ≠ "user9".
Proof. intros e He. apply list_elem_of_singleton in He as ->. discriminate. Qed.

Lemma first_attempt_of_a_user_witness :
  (∀ e, e ∈ login_attempts one_row → username e ≠ "user9") ∧
  (calculate_risk_score "user9" plain_params one_row).1.2 !! "velocity" = Some 0%Q ∧
  ((calculate_risk_score "user9" plain_params one_row).1.1 <= 14.75)%Q.
Proof.
  split; [exact one_row_is_not_user9|].
  destruct (first_attempt_of_a_user "user9" plain_params one_row one_row_is_not_user9)
    as (Hv & _ & _ & _ & _ & _ & _ & Hle).
  split; [exact Hv|exact Hle].
Defined.

Lemma avg_latency_of_positive_rows_witness :
  filter (λ e, username e = "user9" ∧ 0 < latency e) (login_attempts one_row) = [] ∧
  filter (λ e, username e = "user1" ∧ 0 < latency e) busy_rows ≠ [] ∧
  avg_latency (login_attempts one_row) "user9" = None ∧
  ∃ q, avg_latency busy_rows "user1" = Some q ∧ (0 < q)%Q.
Proof.
  assert (Hnone : filter (λ e, username e = "user9" ∧ 0 < latency e)
                    (login_attempts one_row) = []) by reflexivity.
  assert (Hsome : filter (λ e, username e = "user1" ∧ 0 < latency e) busy_rows ≠ [])
    by (vm_compute; discriminate).
  split; [exact Hnone|]. split; [exact Hsome|]. split.
  - exact (proj1 (avg_latency_of_positive_rows (login_attempts one_row) "user9") Hnone).
  - destruct (proj2 (avg_latency_of_positive_rows busy_rows "user1") Hsome)
      as (q & Hq & Hpos & _).
    exists q. split; [exact Hq|exact Hpos].
Defined.

Lemma training_rows_shape_witness :
  [150%Q; 0%Q; 3%Q; 1%Q; 1%Q] ∈ training_data [plain_row] ∧
  ∃ e v d, e ∈ [plain_row] ∧ 0 < latency e ∧ 1 ≤ v ∧ 1 ≤ d.
Proof.
  assert (Hin : [150%Q; 0%Q; 3%Q; 1%Q; 1%Q] ∈ training_data [plain_row])
    by (vm_compute; left).
  split; [exact Hin|].
  destruct (training_rows_shape [plain_row] _ Hin) as (e & v & d & He & Hl & Hv & Hd & _).
  exists e, v, d. repeat split; assumption.
Defined.

Lemma log_attempt_score_ceiling_witness :
  ml_model one_row = None ∧
  Forall (λ e, 0 <= risk_score e <= 100)%Q (login_attempts one_row) ∧
  ((log_attempt "user1" 1 plain_params true one_row).1.1 <= 83.25)%Q ∧
  Forall (λ e, 0 <= risk_score e <= 100)%Q
    (login_attempts (log_attempt "user1" 1 plain_params true one_row).2).
Proof.
  assert (Hnone : ml_model one_row = None) by reflexivity.
  assert (Hall : Forall (λ e, 0 <= risk_score e <= 100)%Q (login_attempts one_row)).
  { apply Forall_singleton. simpl. split; lra. }
  split; [exact Hnone|]. split; [exact Hall|].
  destruct (log_attempt_score_ceiling "user1" 1 plain_params true one_row)
    as (_ & Hrule & Hkeep).
  split; [exact (Hrule Hnone)|exact (Hkeep Hall)].
Defined.

Lemma check_abandonment_range_witness :
  1 = 1 ∧ 3 ≠ 1 ∧ 3 ≠ 2 ∧
  12 ≤ (check_abandonment "user1" 1 busy).1 ≤ 27 ∧
  ((check_abandonment "user1" 3 busy).1 = 0 ∨ (check_abandonment "user1" 3 busy).1 = 6 ∨
   (check_abandonment "user1" 3 busy).1 = 10 ∨ (check_abandonment "user1" 3 busy).1 = 15).
Proof.
  assert (H31 : 3 ≠ 1) by discriminate. assert (H32 : 3 ≠ 2) by discriminate.
  split; [reflexivity|]. split; [exact H31|]. split; [exact H32|].
  destruct (check_abandonment_range "user1" 1 busy) as (_ & Hone & _).
  destruct (check_abandonment_range "user1" 3 busy) as (_ & _ & _ & Hother & _).
  split; [exact (Hone eq_refl)|exact (Hother H31 H32)].
Defined.

Lemma log_attempt_ml_anomaly_entry_witness :
  reachable trained ∧ is_Some (ml_model trained) ∧
  ∃ ml, (log_attempt "user9" 3 plain_params true trained).1.2 !! "ml_anomaly" = Some ml ∧
        (0 <= ml <= 100)%Q.
Proof.
  assert (Hreach : reachable trained) by apply reach_init.
  assert (Hmodel : is_Some (ml_model trained)) by (vm_compute; eauto).
  split; [exact Hreach|]. split; [exact Hmodel|].
  destruct (log_attempt_ml_anomaly_entry "user9" 3 plain_params true trained Hreach)
    as [_ Hwith].
  destruct (Hwith Hmodel) as (ml & Hml & _ & Hrange & _).
  exists ml. split; [exact Hml|exact Hrange].
Defined.

Lemma next_attempt_counts_this_one_witness :
  ∃ e, last (login_attempts (log_attempt "user9" 1 plain_params true one_row).2) = Some e ∧
       time_ms (clock_reads (log_attempt "user9" 1 plain_params true one_row).2) - 300000
         < timestamp e ∧
       (log_attempt "user9" 2 plain_params true
          (log_attempt "user9" 1 plain_params true one_row).2).1.2 !! "velocity"
         = Some (velocity_signal
             (count_since (login_attempts one_row) "user9"
                (time_ms (clock_reads (log_attempt "user9" 1 plain_params true one_row).2)
                 - 300000) + 1)).
Proof.
  destruct (next_attempt_counts_this_one "user9" 1 plain_params true one_row
              2 plain_params true) as (e & Hlast & Hin & _).
  exists e. split; [exact Hlast|].
  assert (Hts : time_ms (clock_reads (log_attempt "user9" 1 plain_params true one_row).2)
                - 300000 < timestamp e).
  { assert (He : Some e = Some (new_row "user9" 1 plain_params true (time_ms 1) 0.00%Q)).
    { rewrite <- Hlast. vm_compute. reflexivity. }
    injection He as ->. vm_compute. reflexivity. }
  split; [exact Hts|exact (Hin Hts)].
Defined.

Lemma fingerprint_is_remembered_witness :
  p_fingerprint plain_params = Some "FP_user9" ∧ "FP_user9" ≠ "" ∧
  (∀ e old, last (login_attempts (log_attempt "user9" 1 plain_params true one_row).2)
              = Some e →
            old ∈ login_attempts one_row → username old = "user9" →
            timestamp old < timestamp e) ∧
  (log_attempt "user9" 2 plain_params true
     (log_attempt "user9" 1 plain_params true one_row).2).1.2 !! "fingerprint_change"
    = Some 0%Q.
Proof.
  assert (Hfp : p_fingerprint plain_params = Some "FP_user9") by reflexivity.
  assert (Hne : "FP_user9" ≠ "") by discriminate.
  assert (Hnewer : ∀ e old,
            last (login_attempts (log_attempt "user9" 1 plain_params true one_row).2)
              = Some e →
            old ∈ login_attempts one_row → username old = "user9" →
            timestamp old < timestamp e).
  { intros e old _ Hold Hu. by destruct (one_row_is_not_user9 old Hold). }
  split; [exact Hfp|]. split; [exact Hne|]. split; [exact Hnewer|].
  destruct (fingerprint_is_remembered "user9" 1 plain_params true one_row "FP_user9"
              2 plain_params true Hfp Hne Hnewer) as [Hsame _].
  exact (Hsame Hfp).
Defined.

Lemma log_attempt_timing_pattern_witness :
  (length (filter (λ e, username e = "user9") (login_attempts one_row)) < 2)%nat ∧
  (2 ≤ length (filter (λ e, username e = "user1") (login_attempts busy)))%nat ∧
  (log_attempt "user9" 1 plain_params true one_row).1.2 !! "timing_pattern" = Some 0%Q ∧
  ∃ e0 e1, timestamp e1 ≤ timestamp e0 ∧
    (log_attempt "user1" 1 plain_params true busy).1.2 !! "timing_pattern" =
      Some (if timestamp e0 - timestamp e1 <? 1000 then 80%Q
            else if timestamp e0 - timestamp e1 <? 5000 then 50%Q else 0%Q).
Proof.
  assert (Hfew : (length (filter (λ e, username e = "user9") (login_attempts one_row))
                  < 2)%nat) by (vm_compute; lia).
  assert (Hmany : (2 ≤ length (filter (λ e, username e = "user1") (login_attempts busy)))%nat)
    by (vm_compute; lia).
  split; [exact Hfew|]. split; [exact Hmany|]. split.
  - exact (proj1 (log_attempt_timing_pattern "user9" 1 plain_params true one_row) Hfew).
  - destruct (proj2 (log_attempt_timing_pattern "user1" 1 plain_params true busy) Hmany)
      as (e0 & e1 & rest & _ & Hle & _ & Hsig).
    exists e0, e1. split; [exact Hle|exact Hsig].
Defined.

Lemma spoofing_signal_spec_witness :
  is_ascii "my_Emulator_7" = true ∧ spoofing_signal "my_Emulator_7" = 85%Q.
Proof.
  assert (Hascii : is_ascii "my_Emulator_7" = true) by reflexivity.
  split; [exact Hascii|].
  destruct (spoofing_signal_spec "my_Emulator_7" Hascii) as [[_ Hfound] _].
  apply Hfound. exists "my_", "Emulator", "_7". split; [reflexivity|].
  right. right. reflexivity.
Defined.

Lemma populate_mock_users_spec_witness :
  NoDup (user_name <$> old_users) ∧ NoDup (user_id <$> old_users) ∧
  NoDup (user_name <$> (populate_mock_users old_users 0).1) ∧
  NoDup (user_id <$> (populate_mock_users old_users 0).1).
Proof.
  assert (Hnames : NoDup (user_name <$> old_users)) by apply NoDup_singleton.
  assert (Hids : NoDup (user_id <$> old_users)) by apply NoDup_singleton.
  split; [exact Hnames|]. split; [exact Hids|].
  destruct (populate_mock_users_spec old_users 0) as (_ & _ & _ & Hn & Hi).
  split; [exact (Hn Hnames)|exact (Hi Hids)].
Defined.

Lemma high_velocity_agrees_with_signal_witness :
  ("user1", 4) ∈ high_velocity (get_ueba_metrics busy).1 ∧
  (length (high_velocity (get_ueba_metrics busy).1) < 10)%nat ∧
  4 = count_since (login_attempts busy) "user1" (time_ms (clock_reads busy) - 300000) ∧
  (40 <= velocity_signal 4)%Q.
Proof.
  assert (Hin : ("user1", 4) ∈ high_velocity (get_ueba_metrics busy).1)
    by (vm_compute; left).
  assert (Hlen : (length (high_velocity (get_ueba_metrics busy).1) < 10)%nat)
    by (vm_compute; lia).
  split; [exact Hin|]. split; [exact Hlen|].
  destruct (high_velocity_agrees_with_signal busy) as (Hall & _).
  destruct (Hall "user1" 4 Hin) as (Hn & _ & Hsig).
  split; [exact Hn|exact Hsig].
Defined.

Lemma device_switchers_agree_with_signal_witness :
  ("user1", 2) ∈ device_switchers (get_ueba_metrics busy).1 ∧
  2 = distinct_devices_since (login_attempts busy) "user1"
        (time_ms (clock_reads busy) - 1800000) ∧
  (30 <= device_switching_signal 2)%Q.
Proof.
  assert (Hin : ("user1", 2) ∈ device_switchers (get_ueba_metrics busy).1)
    by (vm_compute; left).
  split; [exact Hin|].
  destruct (device_switchers_agree_with_signal busy) as (Hall & _).
  destruct (Hall "user1" 2 Hin) as (Hn & _ & Hsig).
  split; [exact Hn|exact Hsig].
Defined.

Lemma abandonment_patterns_agree_with_check_witness :
  ("user1", 4) ∈ abandonment_patterns (get_ueba_metrics busy).1 ∧
  18 ≤ (check_abandonment "user1" 1 busy).1 ∧ 24 ≤ (check_abandonment "user1" 2 busy).1.
Proof.
  assert (Hin : ("user1", 4) ∈ abandonment_patterns (get_ueba_metrics busy).1)
    by (vm_compute; left).
  split; [exact Hin|].
  destruct (abandonment_patterns_agree_with_check busy) as (Hall & _).
  destruct (Hall "user1" 4 Hin) as (_ & _ & H1 & H2).
  split; [exact H1|exact H2].
Defined.

Lemma metrics_counters_witness :
  filter (λ e, time_ms (clock_reads one_row) - 3600000 < timestamp e)
    (login_attempts one_row) = [] ∧
  Forall (λ e, 0 <= risk_score e <= 100)%Q (login_attempts busy) ∧
  active_users (get_ueba_metrics one_row).1 = 0 ∧
  (0 <= avg_risk_score (get_ueba_metrics busy).1 <= 100)%Q.
Proof.
  assert (Hempty : filter (λ e, time_ms (clock_reads one_row) - 3600000 < timestamp e)
                     (login_attempts one_row) = []) by reflexivity.
  assert (Hall : Forall (λ e, 0 <= risk_score e <= 100)%Q (login_attempts busy)).
  { repeat (apply Forall_cons; split; [simpl; split; lra|]). apply Forall_nil_2. }
  split; [exact Hempty|]. split; [exact Hall|].
  destruct (metrics_counters one_row) as (_ & _ & _ & _ & _ & _ & _ & Hnone & _).
  destruct (metrics_counters busy) as (_ & _ & _ & _ & _ & _ & _ & _ & Havg).
  split; [exact (proj1 (proj2 (Hnone Hempty)))|exact (Havg Hall)].
Defined.

Lemma risky_users_spec_witness :
  ("user1", 26 # 4, 4) ∈ risky_users (get_ueba_metrics busy).1 ∧
  Forall (λ e, 0 <= risk_score e <= 100)%Q (login_attempts busy) ∧
  4 = Z.of_nat (length (filter
        (λ e, username e = "user1" ∧ time_ms (clock_reads busy) - 3600000 < timestamp e)
        (login_attempts busy))) ∧
  (0 <= 26 # 4 <= 100)%Q.
Proof.
  assert (Hin : ("user1", 26 # 4, 4) ∈ risky_users (get_ueba_metrics busy).1)
    by (vm_compute; left).
  assert (Hall : Forall (λ e, 0 <= risk_score e <= 100)%Q (login_attempts busy)).
  { repeat (apply Forall_cons; split; [simpl; split; lra|]). apply Forall_nil_2. }
  split; [exact Hin|]. split; [exact Hall|].
  destruct (risky_users_spec busy) as (Hrows & _).
  destruct (Hrows "user1" (26 # 4) 4 Hin) as (Hn & _ & _ & Hrange).
  split; [exact Hn|exact (Hrange Hall)].
Defined.

Lemma with_sklearn_clock_band (n : nat) :
  ∀ i j, (clock_reads one_row ≤ i < clock_reads one_row + 4 * n)%nat →
         (clock_reads one_row ≤ j < clock_reads one_row + 4 * n)%nat →
         (n ≤ 5)%nat →
         time_ms j - 300000 < time_ms i.
Proof.
  intros i j Hi Hj Hn. change (clock_reads one_row) with 0%nat in Hi, Hj.
  cbn [time_ms with_sklearn]. lia.
Qed.

Lemma burst_of_attempts_witness :
  (∀ e, e ∈ login_attempts one_row → username e ≠ "user9") ∧
  (∀ i j, (clock_reads one_row ≤ i < clock_reads one_row + 4 * 5)%nat →
          (clock_reads one_row ≤ j < clock_reads one_row + 4 * 5)%nat →
          time_ms j - 300000 < time_ms i) ∧
  length (repeat_attempts 5 "user9" 1 plain_params false one_row).1 = 5%nat ∧
  ∃ r, (repeat_attempts 5 "user9" 1 plain_params false one_row).1 !! 4%nat = Some r ∧
       r.2 !! "velocity" = Some 40%Q.
Proof.
  assert (Hband : ∀ i j, (clock_reads one_row ≤ i < clock_reads one_row + 4 * 5)%nat →
            (clock_reads one_row ≤ j < clock_reads one_row + 4 * 5)%nat →
            time_ms j - 300000 < time_ms i).
  { intros i j Hi Hj. apply (with_sklearn_clock_band 5 i j Hi Hj). lia. }
  split; [exact one_row_is_not_user9|]. split; [exact Hband|].
  destruct (burst_of_attempts 5 "user9" 1 plain_params false one_row
              one_row_is_not_user9 Hband) as [Hlen Hall].
  split; [exact Hlen|].
  destruct (lookup_lt_is_Some_2
              (repeat_attempts 5 "user9" 1 plain_params false one_row).1 4) as [r Hr].
  { rewrite Hlen. lia. }
  exists r. split; [exact Hr|].
  destruct (Hall 4%nat r Hr) as (_ & _ & H45 & _). apply H45. lia.
Defined.

Lemma process_flow_spec_witness :
  flow_of_choice 4 = Some ([1], true) ∧
  (12 <= (process_flow "user9" [1%Z] true plain_params one_row).1.1 <= 100)%Q ∧
  (process_flow "user9" [1] true plain_params one_row).1.2
    = risk_level (process_flow "user9" [1] true plain_params one_row).1.1.
Proof.
  assert (Hflow : flow_of_choice 4 = Some ([1], true)) by reflexivity.
  split; [exact Hflow|].
  destruct (process_flow_spec "user9" 4 [1] true plain_params one_row Hflow)
    as (Hrange & Hlevel & _ & Hab).
  split; [|exact Hlevel].
  split; [exact (Hab eq_refl)|exact (proj2 Hrange)].
Defined.

Lemma risk_bands_agree_witness :
  (80 <= 85)%Q ∧ (40 <= 45.5 < 60)%Q ∧
  risk_class 85 = "critical" ∧ risk_level 85 = "CRITICAL - BLOCK" ∧
  risk_class 45.5 = "medium" ∧ risk_level 45.5 = "MEDIUM - MONITOR".
Proof.
  assert (H85 : (80 <= 85)%Q) by lra.
  assert (H45 : (40 <= 45.5 < 60)%Q) by lra.
  split; [exact H85|]. split; [exact H45|].
  destruct (risk_bands_agree 85) as (Hcrit & _).
  destruct (risk_bands_agree 45.5) as (_ & _ & Hmed & _).
  destruct (Hcrit H85) as [Hc Hl]. destruct (Hmed H45) as [Hc' Hl'].
  repeat split; assumption.
Defined.

Lemma first_attempt_is_low_witness :
  (∀ e, e ∈ login_attempts one_row → username e ≠ "user9") ∧
  ml_model one_row = None ∧
  risk_class (log_attempt "user9" 1 plain_params true one_row).1.1 = "low" ∧
  risk_level (log_attempt "user9" 1 plain_params true one_row).1.1 = "LOW - ALLOW".
Proof.
  assert (Hnone : ml_model one_row = None) by reflexivity.
  split; [exact one_row_is_not_user9|]. split; [exact Hnone|].
  destruct (first_attempt_is_low "user9" 1 plain_params true one_row
              one_row_is_not_user9 Hnone) as (_ & Hc & Hl).
  split; [exact Hc|exact Hl].
Defined.

Lemma shown_device_id_spec_witness :
  (String.length "DEVICE_user9" ≤ 20)%nat ∧
  (20 < String.length "EMULATOR_DEVICE_SWITCH_0001")%nat ∧
  shown_device_id "DEVICE_user9" = "DEVICE_user9" ∧
  String.length (shown_device_id "EMULATOR_DEVICE_SWITCH_0001") = 23%nat.
Proof.
  assert (Hshort : (String.length "DEVICE_user9" ≤ 20)%nat) by (simpl; lia).
  assert (Hlong : (20 < String.length "EMULATOR_DEVICE_SWITCH_0001")%nat) by (simpl; lia).
  split; [exact Hshort|]. split; [exact Hlong|].
  destruct (shown_device_id_spec "DEVICE_user9") as (Hsame & _).
  destruct (shown_device_id_spec "EMULATOR_DEVICE_SWITCH_0001") as (_ & Hcut & _).
  destruct (Hcut Hlong) as (head & tail & _ & _ & _ & _ & Hlen).
  split; [exact (Hsame Hshort)|exact Hlen].
Defined.

Lemma shown_score_spec_witness :
  (79.95 < 79.96 < 80)%Q ∧ (0 <= 79.96 <= 100)%Q ∧
  (round1 79.96 == 80)%Q ∧ risk_class 79.96 = "high" ∧ (0 <= round1 79.96 <= 100)%Q.
Proof.
  assert (Hband : (79.95 < 79.96 < 80)%Q) by lra.
  assert (Hrange : (0 <= 79.96 <= 100)%Q) by lra.
  split; [exact Hband|]. split; [exact Hrange|].
  destruct (shown_score_spec 79.96) as (_ & Hin & _ & Hshown).
  destruct (Hshown Hband) as [Heq Hclass].
  split; [exact Heq|]. split; [exact Hclass|exact (Hin Hrange)].
Defined.
End FurtherRuns.
